(** * Menu management backend: categories, subcategories and items

    A shallow embedding of the three Express controllers
    (controllers/Category.ts, controllers/SubCategory.ts and
    controllers/Item.ts) over a model of the Prisma client they call,
    followed by the properties of the handlers.

    Layout:
    - [Js]: the JavaScript values a parsed JSON request body can carry,
      and the operators the controllers apply to them
      ([!], [||], [&&], [-], [=== undefined], [=== true]).
    - [Text]: PostgreSQL's [ILIKE], behind Prisma's
      [contains] / [mode: "insensitive"] filter.
    - [Category], [SubCategory], [Item]: the rows of schema.prisma.
    - [Prisma]: the client calls used by the controllers, as functions on
      an explicit database value; a call that throws returns [None].
    - [Http]: what a handler leaves behind: a response, or a rejected
      promise when a call throws outside any [try].
    - the handlers, one definition per exported function. *)

From Stdlib Require Import ZArith List String Ascii Bool Lia.
From Stdlib Require Import PrimFloat SpecFloat FloatOps.
Import ListNotations.

Open Scope string_scope.
Open Scope list_scope.
Open Scope Z_scope.

(* ================================================================== *)
(** ** Exceptions *)

(** [option] is the effect of an expression or a call that may throw:
    [None] is the exception. *)
Definition bind {A B : Type} (m : option A) (k : A -> option B) : option B :=
  match m with
  | Some a => k a
  | None => None
  end.

Notation "x <- m ;; k" := (bind m (fun x => k))
  (at level 61, m at next level, right associativity).

Definition guard (b : bool) : option unit :=
  if b then Some tt else None.

(* ================================================================== *)
(** ** JavaScript values and operators *)

Module Js.

(** Numbers are IEEE 754 binary64 values ([float]), as in JavaScript and
    in the [Float] columns of the schema. *)

(** The values of a parsed JSON body, plus [undefined] for a key that the
    body does not have.  An object is the list of its own keys, each with
    its value. *)
#[warnings="-register-all"]
Inductive value : Type :=
| Undefined
| Null
| Bool (b : bool)
| Number (n : float)
| Str (s : string)
| Array (items : list value)
| Object (fields : list (string * value)).

(** The numbers that count as false: [0], [-0] and [NaN]. *)
Definition falsy_number (n : float) : bool :=
  (n =? 0)%float || is_nan n.

(** ToBoolean. *)
Definition truthy (v : value) : bool :=
  match v with
  | Undefined | Null => false
  | Bool b => b
  | Number n => negb (falsy_number n)
  | Str s => negb (s =? "")%string
  | Array _ | Object _ => true
  end.

(** [!v] *)
Definition neg (v : value) : bool := negb (truthy v).

(** [a || b] *)
Definition oror (a b : value) : value := if truthy a then a else b.

(** [a && b] *)
Definition andand (a b : value) : value := if truthy a then b else a.

(** [v === undefined] *)
Definition is_undefined (v : value) : bool :=
  match v with Undefined => true | _ => false end.

(** [v === true] *)
Definition is_true (v : value) : bool :=
  match v with Bool true => true | _ => false end.

(** A value that is neither an array nor an object. *)
Definition scalar (v : value) : bool :=
  match v with
  | Array _ | Object _ => false
  | _ => true
  end.

(** *** ToNumber *)

(** The double nearest to an integer. *)
Definition of_Z (z : Z) : float :=
  SF2Prim (binary_normalize prec emax z 0 false).

Definition is_space (c : ascii) : bool :=
  let n := nat_of_ascii c in
  ((9 <=? n) && (n <=? 13))%nat || (n =? 32)%nat.

Definition digit_of (c : ascii) : option Z :=
  let n := nat_of_ascii c in
  if ((48 <=? n) && (n <=? 57))%nat then Some (Z.of_nat n - 48) else None.

Fixpoint skip_spaces (s : string) : string :=
  match s with
  | String c s' => if is_space c then skip_spaces s' else s
  | EmptyString => EmptyString
  end.

Fixpoint rev_string (acc s : string) : string :=
  match s with
  | EmptyString => acc
  | String c s' => rev_string (String c acc) s'
  end.

Definition trim (s : string) : string :=
  rev_string "" (skip_spaces (rev_string "" (skip_spaces s))).

Fixpoint digits (acc : Z) (s : string) : option Z :=
  match s with
  | EmptyString => Some acc
  | String c s' =>
      match digit_of c with
      | Some d => digits (10 * acc + d) s'
      | None => None
      end
  end.

Definition unsigned_literal (s : string) : float :=
  match s with
  | EmptyString => nan
  | _ => match digits 0 s with Some z => of_Z z | None => nan end
  end.

(** StringToNumber on decimal integer literals: surrounding white space
    is dropped, the empty string is [0], an optionally signed run of
    decimal digits is the nearest double.  Literals with a fraction, an
    exponent or a radix prefix, and [Infinity], are read as [NaN] here;
    the handlers never store a number read from a non-empty string, since
    Prisma refuses a string in a [Float] column. *)
Definition StringToNumber (s : string) : float :=
  match trim s with
  | EmptyString => 0%float
  | String "+" r => unsigned_literal r
  | String "-" r => (- unsigned_literal r)%float
  | r => unsigned_literal r
  end.

Definition has_key (k : string) (fields : list (string * value)) : bool :=
  existsb (fun p => (fst p =? k)%string) fields.

(** ToString throws a TypeError on an object parsed from JSON that has a
    key [toString] of its own (its value is never callable and hides
    [Object.prototype.toString]), and on an array that holds such an
    object. *)
Fixpoint to_string_throws (v : value) : bool :=
  match v with
  | Array l =>
      (fix any (l : list value) : bool :=
         match l with
         | [] => false
         | x :: r => to_string_throws x || any r
         end) l
  | Object fields => has_key "toString" fields
  | _ => false
  end.

(** StringToNumber of ToString of a value whose ToString does not throw.
    An array is joined with commas, [null] and [undefined] elements
    giving the empty string: only an array of at most one element can be
    a number. *)
Fixpoint string_number (v : value) : float :=
  match v with
  | Undefined | Null | Bool _ | Object _ => nan
  | Number n => if (n =? 0)%float then 0%float else n
  | Str s => StringToNumber s
  | Array [] => 0%float
  | Array [Undefined] | Array [Null] => 0%float
  | Array [x] => string_number x
  | Array (_ :: _ :: _) => nan
  end.

(** ToNumber; [None] is a TypeError. *)
Definition ToNumber (v : value) : option float :=
  match v with
  | Undefined => Some nan
  | Null => Some 0%float
  | Bool true => Some 1%float
  | Bool false => Some 0%float
  | Number n => Some n
  | Str s => Some (StringToNumber s)
  | Array _ | Object _ =>
      if to_string_throws v then None else Some (string_number v)
  end.

(** [a - b]; [None] is a TypeError. *)
Definition sub (a b : value) : option value :=
  match ToNumber a, ToNumber b with
  | Some x, Some y => Some (Number (x - y)%float)
  | _, _ => None
  end.

(** [...v && { key: v }] inside an object literal: the key is present
    with value [v] when [v] is truthy; a falsy [v] spreads nothing.  An
    absent key reads back as [undefined]. *)
Definition spread_if (v : value) : value :=
  if truthy v then v else Undefined.

(** Values read back from a row or from the query string. *)
Definition of_bool (b : bool) : value := Bool b.

Definition of_float (n : float) : value := Number n.

Definition of_nullable_float (o : option float) : value :=
  match o with Some n => Number n | None => Null end.

Definition of_optional_string (o : option string) : value :=
  match o with Some s => Str s | None => Undefined end.

End Js.

(* ================================================================== *)
(** ** Text matching in the database *)

(** Text is modelled as ASCII: each character of a [string] is one
    character of the column.  Characters outside ASCII, which the
    database folds and counts by its own locale and encoding, are outside
    this model. *)

Module Text.

(** [lower()] on ASCII. *)
Definition lower_ascii (c : ascii) : ascii :=
  let n := nat_of_ascii c in
  if ((65 <=? n) && (n <=? 90))%nat then ascii_of_nat (n + 32) else c.

Fixpoint lower (s : string) : string :=
  match s with
  | EmptyString => EmptyString
  | String c s' => String (lower_ascii c) (lower s')
  end.

(** The three characters that are not literal in a [LIKE] pattern. *)
Definition special (c : ascii) : bool :=
  (c =? "%")%char || (c =? "_")%char || (c =? "\")%char.

(** [text LIKE pattern]: [%] stands for any run of characters, [_] for
    any one character, and a backslash makes the next character literal.
    A pattern that ends in a lone backslash matches nothing here (the
    database refuses it); the patterns built by [contains] end in [%]. *)
Fixpoint like (pattern : string) : string -> bool :=
  match pattern with
  | EmptyString =>
      fun text => match text with EmptyString => true | _ => false end
  | String p rest =>
      if (p =? "%")%char then
        fix any (text : string) : bool :=
          like rest text ||
          match text with
          | EmptyString => false
          | String _ text' => any text'
          end
      else if (p =? "_")%char then
        fun text =>
          match text with
          | EmptyString => false
          | String _ text' => like rest text'
          end
      else if (p =? "\")%char then
        match rest with
        | EmptyString => fun _ => false
        | String q rest' =>
            fun text =>
              match text with
              | EmptyString => false
              | String c text' => (q =? c)%char && like rest' text'
              end
        end
      else
        fun text =>
          match text with
          | EmptyString => false
          | String c text' => (p =? c)%char && like rest text'
          end
  end.

(** [text ILIKE pattern]: both sides are lowered, then matched. *)
Definition ilike (pattern text : string) : bool :=
  like (lower pattern) (lower text).

(** Prisma's [{ contains: needle, mode: "insensitive" }]: the needle goes
    into the pattern as it is, between two [%]. *)
Definition contains_insensitive (needle hay : string) : bool :=
  ilike ("%" ++ needle ++ "%") hay.

End Text.

(* ================================================================== *)
(** ** Rows of schema.prisma *)

(** [Float] columns hold doubles; [Float?], [String?] and [Boolean?]
    columns are [option]s; [DateTime] columns are instants on an integer
    clock. *)

Module Category.
Record t : Type := mk {
  id : string;
  name : string;
  image : string;
  description : string;
  taxApplicable : bool;
  tax : option float;
  taxType : option string;
  createdAt : Z;
  updatedAt : Z
}.
End Category.

Module SubCategory.
Record t : Type := mk {
  id : string;
  name : string;
  image : string;
  description : string;
  taxApplicable : option bool;
  tax : option float;
  categoryId : string;
  createdAt : Z;
  updatedAt : Z
}.
End SubCategory.

Module Item.
Record t : Type := mk {
  id : string;
  name : string;
  image : string;
  description : string;
  taxApplicable : option bool;
  tax : option float;
  baseAmount : float;
  discount : option float;
  totalAmount : float;
  subCategoryId : option string;
  categoryId : option string;
  createdAt : Z;
  updatedAt : Z
}.
End Item.

(** The three tables.  Rows are kept in the order in which a query
    without [orderBy] returns them: [findFirst] returns the first row
    that matches.  A new row, and the new version of an updated row, go
    last. *)
Record database : Type := mkDb {
  categories : list Category.t;
  subCategories : list SubCategory.t;
  items : list Item.t
}.

(** What the database supplies on its own when a row is written: the
    [uuid()] of a new row and the current instant. *)
Record supply : Type := mkSupply {
  uuid : string;
  now : Z
}.

(* ================================================================== *)
(** ** Request bodies and the [data] objects handed to Prisma *)

(** [req.body] as the handlers destructure it: one JavaScript value per
    key they read, [Js.Undefined] for a key the body lacks. *)

Module CategoryBody.
Record t : Type := mk {
  name : Js.value;
  image : Js.value;
  description : Js.value;
  taxApplicable : Js.value;
  tax : Js.value;
  taxType : Js.value
}.
End CategoryBody.

Module SubCategoryBody.
Record t : Type := mk {
  name : Js.value;
  image : Js.value;
  description : Js.value;
  taxApplicable : Js.value;
  tax : Js.value;
  categoryId : Js.value
}.
End SubCategoryBody.

Module ItemBody.
Record t : Type := mk {
  name : Js.value;
  image : Js.value;
  description : Js.value;
  taxApplicable : Js.value;
  tax : Js.value;
  baseAmount : Js.value;
  discount : Js.value;
  subCategory : Js.value;
  category : Js.value
}.
End ItemBody.

(** The object literal passed as [data] to [create] and [update].  A key
    left out of the literal is [Js.Undefined].  For items, [subCategory]
    and [category] hold the id of [{ connect: { id } }].  [is_empty]: the
    literal has no key at all. *)

Module CategoryData.
Record t : Type := mk {
  name : Js.value;
  image : Js.value;
  description : Js.value;
  taxApplicable : Js.value;
  tax : Js.value;
  taxType : Js.value
}.

Definition is_empty (d : t) : bool :=
  Js.is_undefined (name d) && Js.is_undefined (image d)
  && Js.is_undefined (description d) && Js.is_undefined (taxApplicable d)
  && Js.is_undefined (tax d) && Js.is_undefined (taxType d).
End CategoryData.

Module SubCategoryData.
Record t : Type := mk {
  name : Js.value;
  image : Js.value;
  description : Js.value;
  taxApplicable : Js.value;
  tax : Js.value;
  categoryId : Js.value
}.

Definition is_empty (d : t) : bool :=
  Js.is_undefined (name d) && Js.is_undefined (image d)
  && Js.is_undefined (description d) && Js.is_undefined (taxApplicable d)
  && Js.is_undefined (tax d) && Js.is_undefined (categoryId d).
End SubCategoryData.

Module ItemData.
Record t : Type := mk {
  name : Js.value;
  image : Js.value;
  description : Js.value;
  taxApplicable : Js.value;
  tax : Js.value;
  baseAmount : Js.value;
  discount : Js.value;
  totalAmount : Js.value;
  subCategory : Js.value;
  category : Js.value
}.

Definition is_empty (d : t) : bool :=
  Js.is_undefined (name d) && Js.is_undefined (image d)
  && Js.is_undefined (description d) && Js.is_undefined (taxApplicable d)
  && Js.is_undefined (tax d) && Js.is_undefined (baseAmount d)
  && Js.is_undefined (discount d) && Js.is_undefined (totalAmount d)
  && Js.is_undefined (subCategory d) && Js.is_undefined (category d).
End ItemData.

(* ================================================================== *)
(** ** The Prisma client *)

Module Prisma.

(** *** Checking a JavaScript value against a column type.
    [None] is a validation error. *)

(** [String], [Boolean], [Float]: the value must be there.  A number
    that is not finite does not survive the JSON encoding of the query
    and is refused. *)
Definition string_required (v : Js.value) : option string :=
  match v with Js.Str s => Some s | _ => None end.

Definition boolean_required (v : Js.value) : option bool :=
  match v with Js.Bool b => Some b | _ => None end.

Definition float_required (v : Js.value) : option float :=
  match v with
  | Js.Number n => if is_finite n then Some n else None
  | _ => None
  end.

(** [String?], [Boolean?], [Float?] in [create]: a missing or [null]
    value stores NULL, unless the column has a default for a missing
    one. *)
Definition string_nullable (v : Js.value) : option (option string) :=
  match v with
  | Js.Undefined | Js.Null => Some None
  | _ => s <- string_required v ;; Some (Some s)
  end.

Definition boolean_nullable (dflt : option bool) (v : Js.value)
  : option (option bool) :=
  match v with
  | Js.Undefined => Some dflt
  | Js.Null => Some None
  | _ => b <- boolean_required v ;; Some (Some b)
  end.

Definition float_nullable (v : Js.value) : option (option float) :=
  match v with
  | Js.Undefined | Js.Null => Some None
  | _ => n <- float_required v ;; Some (Some n)
  end.

(** *** Columns in [update]

    A missing key keeps the stored value.  Under a key, [update] takes a
    value of the column's type ([null] too when the column is nullable)
    or an object with exactly one operation: [{ set: value }] for every
    type and, for [Float], [increment], [decrement], [multiply] and
    [divide] by a number. *)

Definition nullable {A : Type} (check : Js.value -> option A) (v : Js.value)
  : option (option A) :=
  match v with
  | Js.Null => Some None
  | _ => a <- check v ;; Some (Some a)
  end.

Definition assign {A : Type} (check : Js.value -> option A) (v : Js.value)
  : option A :=
  match v with
  | Js.Object [(k, w)] => if (k =? "set")%string then check w else None
  | _ => check v
  end.

Definition set_required {A : Type} (check : Js.value -> option A)
    (old : A) (v : Js.value) : option A :=
  match v with
  | Js.Undefined => Some old
  | _ => assign check v
  end.

Definition set_nullable {A : Type} (check : Js.value -> option A)
    (old : option A) (v : Js.value) : option (option A) :=
  match v with
  | Js.Undefined => Some old
  | _ => assign (nullable check) v
  end.

(** The arithmetic of a [double precision] column: the database refuses
    a result out of range, and a division by zero. *)
Definition no_overflow (r : float) : option float :=
  if is_finite r then Some r else None.

Definition no_underflow (nonzero : bool) (r : float) : option float :=
  if (r =? 0)%float && nonzero then None else Some r.

Definition float_operation (k : string)
  : option (float -> float -> option float) :=
  if (k =? "increment")%string then
    Some (fun old n => no_overflow (old + n)%float)
  else if (k =? "decrement")%string then
    Some (fun old n => no_overflow (old - n)%float)
  else if (k =? "multiply")%string then
    Some (fun old n =>
            r <- no_overflow (old * n)%float ;;
            no_underflow (negb (old =? 0)%float && negb (n =? 0)%float) r)
  else if (k =? "divide")%string then
    Some (fun old n =>
            _ <- guard (negb (n =? 0)%float) ;;
            r <- no_overflow (old / n)%float ;;
            no_underflow (negb (old =? 0)%float) r)
  else None.

Definition set_float (old : float) (v : Js.value) : option float :=
  match v with
  | Js.Undefined => Some old
  | Js.Object [(k, w)] =>
      if (k =? "set")%string then float_required w
      else
        op <- float_operation k ;;
        n <- float_required w ;;
        op old n
  | _ => float_required v
  end.

(** Arithmetic on NULL is NULL. *)
Definition set_nullable_float (old : option float) (v : Js.value)
  : option (option float) :=
  match v with
  | Js.Undefined => Some old
  | Js.Object [(k, w)] =>
      if (k =? "set")%string then nullable float_required w
      else
        op <- float_operation k ;;
        n <- float_required w ;;
        match old with
        | Some x => r <- op x n ;; Some (Some r)
        | None => Some None
        end
  | _ => nullable float_required v
  end.

(** *** Tables *)

Section Table.
Context {R : Type} (key : R -> string).

Definition find_by_id (id : string) (rows : list R) : option R :=
  find (fun r => (key r =? id)%string) rows.

Definition has_id (id : string) (rows : list R) : bool :=
  match find_by_id id rows with Some _ => true | None => false end.

(** An [UPDATE] of the row [id]: its new version [r'] is written after
    the other rows. *)
Definition rewrite_by_id (id : string) (r' : R) (rows : list R) : list R :=
  filter (fun r => negb (key r =? id)%string) rows ++ [r'].

(** [findFirst({ where: { id } })] with [id] a string or [undefined]
    (a route or query parameter): a [where] whose [id] is [undefined]
    filters nothing. *)
Definition findFirst_id (id : option string) (rows : list R) : option R :=
  match id with
  | Some s => find_by_id s rows
  | None => hd_error rows
  end.

(** [findUnique({ where: { id } })]: the unique key must be given, as a
    string. *)
Definition findUnique_id (id : Js.value) (rows : list R)
  : option (option R) :=
  match id with
  | Js.Str s => Some (find_by_id s rows)
  | _ => None
  end.

(** [{ connect: { id } }] and foreign keys: the row must exist. *)
Definition reference (id : Js.value) (rows : list R) : option string :=
  s <- string_required id ;;
  _ <- guard (has_id s rows) ;;
  Some s.
End Table.

(** The object form of a condition on a [String] column
    ([{ equals }], [{ in }], [{ not }], [{ contains }], [{ lt }], ...):
    the test it stands for, [None] when the object is not a condition.
    Its comparisons are made by the database under its collation; the
    handlers that can meet one take its meaning as an argument. *)
Definition string_filter : Type :=
  list (string * Js.value) -> option (string -> bool).

(** [findFirst({ where: { id } })] with [id] any value of a request
    body: a string is compared with the column, an object is a condition
    on it, [undefined] filters nothing; anything else is refused. *)
Definition findFirst_where_id {R : Type} (filter : string_filter)
    (key : R -> string) (id : Js.value) (rows : list R)
  : option (option R) :=
  match id with
  | Js.Str s => Some (find_by_id key s rows)
  | Js.Undefined => Some (hd_error rows)
  | Js.Object fields =>
      p <- filter fields ;;
      Some (find (fun r => p (key r)) rows)
  | _ => None
  end.

(** [where: { name: { contains: name, mode: "insensitive" } }]: the test
    applied to the column; an [undefined] operand filters nothing, an
    operand that is not a string is refused. *)
Definition where_contains (name : Js.value) : option (string -> bool) :=
  match name with
  | Js.Str s => Some (Text.contains_insensitive s)
  | Js.Undefined => Some (fun _ => true)
  | _ => None
  end.

Definition set_categories (l : list Category.t) (db : database) : database :=
  mkDb l (subCategories db) (items db).

Definition set_subCategories (l : list SubCategory.t) (db : database)
  : database :=
  mkDb (categories db) l (items db).

Definition set_items (l : list Item.t) (db : database) : database :=
  mkDb (categories db) (subCategories db) l.

(** *** prisma.category *)

Definition category_create (sup : supply) (d : CategoryData.t)
    (db : database) : option (Category.t * database) :=
  name <- string_required (CategoryData.name d) ;;
  image <- string_required (CategoryData.image d) ;;
  description <- string_required (CategoryData.description d) ;;
  taxApplicable <- boolean_required (CategoryData.taxApplicable d) ;;
  tax <- float_nullable (CategoryData.tax d) ;;
  taxType <- string_nullable (CategoryData.taxType d) ;;
  _ <- guard (negb (has_id Category.id (uuid sup) (categories db))) ;;
  let row := Category.mk (uuid sup) name image description taxApplicable
               tax taxType (now sup) (now sup) in
  Some (row, set_categories (categories db ++ [row]) db).

(** [update]: with no key in [data] nothing is written and the stored
    row is returned; otherwise the row is rewritten and [updatedAt] set
    to the current instant. *)
Definition category_update (sup : supply) (id : string)
    (d : CategoryData.t) (db : database)
  : option (Category.t * database) :=
  old <- find_by_id Category.id id (categories db) ;;
  name <- set_required string_required (Category.name old)
            (CategoryData.name d) ;;
  image <- set_required string_required (Category.image old)
             (CategoryData.image d) ;;
  description <- set_required string_required (Category.description old)
                   (CategoryData.description d) ;;
  taxApplicable <- set_required boolean_required
                     (Category.taxApplicable old)
                     (CategoryData.taxApplicable d) ;;
  tax <- set_nullable_float (Category.tax old) (CategoryData.tax d) ;;
  taxType <- set_nullable string_required (Category.taxType old)
               (CategoryData.taxType d) ;;
  if CategoryData.is_empty d then Some (old, db)
  else
    let row := Category.mk id name image description taxApplicable tax
                 taxType (Category.createdAt old) (now sup) in
    Some (row,
          set_categories (rewrite_by_id Category.id id row (categories db))
            db).

Definition category_findMany (db : database) : list Category.t :=
  categories db.

Definition category_findFirst_name (name : Js.value) (db : database)
  : option (option Category.t) :=
  p <- where_contains name ;;
  Some (find (fun c => p (Category.name c)) (categories db)).

(** *** prisma.subCategory *)

Definition subCategory_create (sup : supply) (d : SubCategoryData.t)
    (db : database) : option (SubCategory.t * database) :=
  name <- string_required (SubCategoryData.name d) ;;
  image <- string_required (SubCategoryData.image d) ;;
  description <- string_required (SubCategoryData.description d) ;;
  taxApplicable <- boolean_nullable (Some false)
                     (SubCategoryData.taxApplicable d) ;;
  tax <- float_nullable (SubCategoryData.tax d) ;;
  categoryId <- reference Category.id (SubCategoryData.categoryId d)
                  (categories db) ;;
  _ <- guard (negb (has_id SubCategory.id (uuid sup) (subCategories db))) ;;
  let row := SubCategory.mk (uuid sup) name image description taxApplicable
               tax categoryId (now sup) (now sup) in
  Some (row, set_subCategories (subCategories db ++ [row]) db).

Definition subCategory_update (sup : supply) (id : string)
    (d : SubCategoryData.t) (db : database)
  : option (SubCategory.t * database) :=
  old <- find_by_id SubCategory.id id (subCategories db) ;;
  name <- set_required string_required (SubCategory.name old)
            (SubCategoryData.name d) ;;
  image <- set_required string_required (SubCategory.image old)
             (SubCategoryData.image d) ;;
  description <- set_required string_required (SubCategory.description old)
                   (SubCategoryData.description d) ;;
  taxApplicable <- set_nullable boolean_required
                     (SubCategory.taxApplicable old)
                     (SubCategoryData.taxApplicable d) ;;
  tax <- set_nullable_float (SubCategory.tax old)
           (SubCategoryData.tax d) ;;
  categoryId <- match SubCategoryData.categoryId d with
                | Js.Undefined => Some (SubCategory.categoryId old)
                | v =>
                    s <- assign string_required v ;;
                    _ <- guard (has_id Category.id s (categories db)) ;;
                    Some s
                end ;;
  if SubCategoryData.is_empty d then Some (old, db)
  else
    let row := SubCategory.mk id name image description taxApplicable tax
                 categoryId (SubCategory.createdAt old) (now sup) in
    Some (row,
          set_subCategories
            (rewrite_by_id SubCategory.id id row (subCategories db)) db).

Definition subCategory_findMany (db : database) : list SubCategory.t :=
  subCategories db.

(** [findMany({ where: { categoryId: id } })] *)
Definition subCategory_findMany_category (id : string) (db : database)
  : list SubCategory.t :=
  filter (fun s => (SubCategory.categoryId s =? id)%string)
         (subCategories db).

Definition subCategory_findFirst_name (name : Js.value) (db : database)
  : option (option SubCategory.t) :=
  p <- where_contains name ;;
  Some (find (fun s => p (SubCategory.name s)) (subCategories db)).

(** *** prisma.item *)

Definition connect {R : Type} (key : R -> string) (old : option string)
    (v : Js.value) (rows : list R) : option (option string) :=
  match v with
  | Js.Undefined => Some old
  | _ => s <- reference key v rows ;; Some (Some s)
  end.

Definition item_create (sup : supply) (d : ItemData.t) (db : database)
  : option (Item.t * database) :=
  name <- string_required (ItemData.name d) ;;
  image <- string_required (ItemData.image d) ;;
  description <- string_required (ItemData.description d) ;;
  taxApplicable <- boolean_nullable None (ItemData.taxApplicable d) ;;
  tax <- float_nullable (ItemData.tax d) ;;
  baseAmount <- float_required (ItemData.baseAmount d) ;;
  discount <- float_nullable (ItemData.discount d) ;;
  totalAmount <- float_required (ItemData.totalAmount d) ;;
  subCategoryId <- connect SubCategory.id None (ItemData.subCategory d)
                     (subCategories db) ;;
  categoryId <- connect Category.id None (ItemData.category d)
                  (categories db) ;;
  _ <- guard (negb (has_id Item.id (uuid sup) (items db))) ;;
  let row := Item.mk (uuid sup) name image description taxApplicable tax
               baseAmount discount totalAmount subCategoryId categoryId
               (now sup) (now sup) in
  Some (row, set_items (items db ++ [row]) db).

Definition item_update (sup : supply) (id : string) (d : ItemData.t)
    (db : database) : option (Item.t * database) :=
  old <- find_by_id Item.id id (items db) ;;
  name <- set_required string_required (Item.name old) (ItemData.name d) ;;
  image <- set_required string_required (Item.image old)
             (ItemData.image d) ;;
  description <- set_required string_required (Item.description old)
                   (ItemData.description d) ;;
  taxApplicable <- set_nullable boolean_required
                     (Item.taxApplicable old) (ItemData.taxApplicable d) ;;
  tax <- set_nullable_float (Item.tax old) (ItemData.tax d) ;;
  baseAmount <- set_float (Item.baseAmount old) (ItemData.baseAmount d) ;;
  discount <- set_nullable_float (Item.discount old)
                (ItemData.discount d) ;;
  totalAmount <- set_float (Item.totalAmount old)
                   (ItemData.totalAmount d) ;;
  subCategoryId <- connect SubCategory.id (Item.subCategoryId old)
                     (ItemData.subCategory d) (subCategories db) ;;
  categoryId <- connect Category.id (Item.categoryId old)
                  (ItemData.category d) (categories db) ;;
  if ItemData.is_empty d then Some (old, db)
  else
    let row := Item.mk id name image description taxApplicable tax
                 baseAmount discount totalAmount subCategoryId categoryId
                 (Item.createdAt old) (now sup) in
    Some (row, set_items (rewrite_by_id Item.id id row (items db)) db).

Definition item_findMany (db : database) : list Item.t := items db.

(** [findMany({ where: { category: { id } } })] *)
Definition item_findMany_category (id : string) (db : database)
  : list Item.t :=
  filter (fun i => match Item.categoryId i with
                   | Some c => (c =? id)%string
                   | None => false
                   end) (items db).

(** [findMany({ where: { subCategory: { id } } })] *)
Definition item_findMany_subCategory (id : string) (db : database)
  : list Item.t :=
  filter (fun i => match Item.subCategoryId i with
                   | Some c => (c =? id)%string
                   | None => false
                   end) (items db).

Definition item_findFirst_name (name : Js.value) (db : database)
  : option (option Item.t) :=
  p <- where_contains name ;;
  Some (find (fun i => p (Item.name i)) (items db)).

(** [findMany({ where: { name: { contains, mode: "insensitive" } } })] *)
Definition item_findMany_name (name : Js.value) (db : database)
  : option (list Item.t) :=
  p <- where_contains name ;;
  Some (filter (fun i => p (Item.name i)) (items db)).

End Prisma.

(* ================================================================== *)
(** ** Responses *)

Module Http.

(** The JSON bodies the handlers send. *)
Inductive json : Type :=
| Message (message : string)
| CategoryJson (c : Category.t)
| CategoriesJson (l : list Category.t)
| SubCategoryJson (s : SubCategory.t)
| SubCategoriesJson (l : list SubCategory.t)
| ItemJson (i : Item.t)
| ItemsJson (l : list Item.t).

Record response : Type := mkResponse {
  status : Z;
  body : json
}.

(** A handler either sends a response, or its promise is rejected by a
    call made outside [try] and the handler itself sends nothing. *)
Inductive outcome : Type :=
| Sent (r : response)
| Rejected.

(** [res.status(code).json(b)] *)
Definition reply (code : Z) (b : json) : outcome :=
  Sent (mkResponse code b).

(** [res.status(code).json({ message })] *)
Definition fail (code : Z) (message : string) : outcome :=
  reply code (Message message).

Definition status_of (o : outcome) : option Z :=
  match o with Sent r => Some (status r) | Rejected => None end.

End Http.

Import Http.

(* ================================================================== *)
(** ** controllers/Category.ts *)

Definition createCategory (sup : supply) (body : CategoryBody.t)
    (db : database) : database * outcome :=
  let name := CategoryBody.name body in
  let image := CategoryBody.image body in
  let description := CategoryBody.description body in
  let taxApplicable := CategoryBody.taxApplicable body in
  let tax := CategoryBody.tax body in
  let taxType := CategoryBody.taxType body in
  if Js.neg name || Js.neg image || Js.neg description
     || Js.is_undefined taxApplicable
  then (db, fail 400 "All fields are required")
  else if Js.is_true taxApplicable && (Js.neg tax && Js.neg taxType)
  then (db, fail 400 "Tax or TaxType is required")
  else
    match Prisma.category_create sup
            (CategoryData.mk name image description taxApplicable tax taxType)
            db with
    | Some (category, db') => (db', reply 201 (CategoryJson category))
    | None => (db, fail 500 "Something went wrong")
    end.

Definition getCategories (db : database) : outcome :=
  let categories := Prisma.category_findMany db in
  if (List.length categories =? 0)%nat
  then fail 404 "Categories not found"
  else reply 200 (CategoriesJson categories).

Definition getCategory (id name : option string) (db : database) : outcome :=
  if Js.neg (Js.of_optional_string id) && Js.neg (Js.of_optional_string name)
  then fail 400 "Id or name is required"
  else
    match (if Js.truthy (Js.of_optional_string id)
           then Some (Prisma.findFirst_id Category.id id (categories db))
           else Prisma.category_findFirst_name
                  (Js.of_optional_string name) db) with
    | Some (Some category) => reply 200 (CategoryJson category)
    | Some None => fail 404 "Category not found"
    | None => fail 500 "Something went wrong"
    end.

Definition editCategory (sup : supply) (id : string) (body : CategoryBody.t)
    (db : database) : database * outcome :=
  let name := CategoryBody.name body in
  let image := CategoryBody.image body in
  let description := CategoryBody.description body in
  let taxApplicable := CategoryBody.taxApplicable body in
  let tax := CategoryBody.tax body in
  let taxType := CategoryBody.taxType body in
  if Js.neg (Js.Str id)
  then (db, fail 400 "Id is required")
  else if Js.neg name && Js.neg image && Js.neg description
          && Js.is_undefined taxApplicable && Js.neg tax && Js.neg taxType
  then (db, fail 400 "At least one field is required")
  else if Js.is_true taxApplicable && (Js.neg tax && Js.neg taxType)
  then (db, fail 400 "Tax or TaxType is required")
  else
    match Prisma.findFirst_id Category.id (Some id) (categories db) with
    | Some _ =>
        match Prisma.category_update sup id
                (CategoryData.mk
                   (Js.spread_if name)
                   (Js.spread_if image)
                   (Js.spread_if description)
                   (Js.spread_if taxApplicable)
                   (Js.spread_if tax)
                   (Js.spread_if taxType))
                db with
        | Some (updatedCategory, db') =>
            (db', reply 200 (CategoryJson updatedCategory))
        | None => (db, fail 500 "Something went wrong")
        end
    | None => (db, fail 404 "Category not found")
    end.

(* ================================================================== *)
(** ** controllers/SubCategory.ts *)

Definition createSubCategory (sup : supply) (body : SubCategoryBody.t)
    (db : database) : database * outcome :=
  let name := SubCategoryBody.name body in
  let image := SubCategoryBody.image body in
  let description := SubCategoryBody.description body in
  let taxApplicable := SubCategoryBody.taxApplicable body in
  let tax := SubCategoryBody.tax body in
  let categoryId := SubCategoryBody.categoryId body in
  if Js.neg name || Js.neg image || Js.neg description || Js.neg categoryId
  then (db, fail 400 "All fields are required")
  else
    match Prisma.findUnique_id Category.id categoryId (categories db) with
    | None => (db, Rejected)
    | Some None =>
        (db, fail 404 "Category not found, unable to create subcategory")
    | Some (Some category) =>
        let defaultTaxApplicable :=
          Js.of_bool (Category.taxApplicable category) in
        let defaultTax := Js.of_nullable_float (Category.tax category) in
        match Prisma.subCategory_create sup
                (SubCategoryData.mk name image description
                   (Js.oror taxApplicable defaultTaxApplicable)
                   (Js.oror tax defaultTax)
                   categoryId)
                db with
        | Some (subCategory, db') =>
            (db', reply 200 (SubCategoryJson subCategory))
        | None => (db, fail 500 "Something went wrong")
        end
    end.

Definition getSubCategories (db : database) : outcome :=
  let subCategories := Prisma.subCategory_findMany db in
  if (List.length subCategories =? 0)%nat
  then fail 404 "SubCategories not found"
  else reply 200 (SubCategoriesJson subCategories).

Definition getSubCategoriesByCategory (id : string) (db : database)
  : outcome :=
  if Js.neg (Js.Str id)
  then fail 400 "Id is required"
  else
    let subCategories := Prisma.subCategory_findMany_category id db in
    if (List.length subCategories =? 0)%nat
    then fail 404 "SubCategories not found"
    else reply 200 (SubCategoriesJson subCategories).

Definition getSubCategory (id name : option string) (db : database)
  : outcome :=
  if Js.neg (Js.of_optional_string id) && Js.neg (Js.of_optional_string name)
  then fail 400 "Id or name is required"
  else
    match (if Js.truthy (Js.of_optional_string id)
           then Some (Prisma.findFirst_id SubCategory.id id
                        (subCategories db))
           else Prisma.subCategory_findFirst_name
                  (Js.of_optional_string name) db) with
    | Some (Some subCategory) => reply 200 (SubCategoryJson subCategory)
    | Some None => fail 404 "SubCategory not found"
    | None => fail 500 "Something went wrong"
    end.

Definition editSubCategory (sup : supply) (id : string)
    (body : SubCategoryBody.t) (db : database) : database * outcome :=
  let name := SubCategoryBody.name body in
  let image := SubCategoryBody.image body in
  let description := SubCategoryBody.description body in
  let taxApplicable := SubCategoryBody.taxApplicable body in
  let tax := SubCategoryBody.tax body in
  if Js.neg (Js.Str id)
  then (db, fail 400 "Id is required")
  else if Js.neg name && Js.neg image && Js.neg description
          && Js.is_undefined taxApplicable && Js.neg tax
  then (db, fail 400 "At least one field is required")
  else
    match Prisma.findUnique_id SubCategory.id (Js.Str id)
            (subCategories db) with
    | None => (db, Rejected)
    | Some None => (db, fail 404 "SubCategory not found")
    | Some (Some _) =>
        match Prisma.subCategory_update sup id
                (SubCategoryData.mk
                   (Js.spread_if name)
                   (Js.spread_if image)
                   (Js.spread_if description)
                   (Js.spread_if taxApplicable)
                   (Js.spread_if tax)
                   Js.Undefined)
                db with
        | Some (subCategory, db') =>
            (db', reply 200 (SubCategoryJson subCategory))
        | None => (db, fail 500 "Something went wrong")
        end
    end.

(* ================================================================== *)
(** ** controllers/Item.ts *)

(** The item handlers run several guard clauses in a row, each of which
    may [return] a response.  [flow] threads them in source order: [Return]
    leaves the handler, [Continue] falls through to the next statement. *)

Inductive flow (A : Type) : Type :=
| Return (r : database * outcome)
| Continue (a : A).

Arguments Return {A} r.
Arguments Continue {A} a.

Definition and_then {A B : Type} (m : flow A) (k : A -> flow B) : flow B :=
  match m with
  | Return r => Return r
  | Continue a => k a
  end.

Definition run (m : flow (database * outcome)) : database * outcome :=
  match m with
  | Return r => r
  | Continue r => r
  end.

Notation "'do' x <- m ; k" := (and_then m (fun x => k))
  (at level 10, x name, m at level 100, k at level 200).

(** [if (c) { return res.status(code).json({ message }) }] *)
Definition return_if (c : bool) (db : database) (code : Z) (message : string)
  : flow unit :=
  if c then Return (db, fail code message) else Continue tt.

(** The block
    [if (id) { const row = await findFirst({ where: { id } });
               if (!row) return res.status(404).json({ message }) }]
    which stands outside [try]. *)
Definition must_exist {R : Type} (filter : Prisma.string_filter)
    (key : R -> string) (id : Js.value) (rows : list R) (db : database)
    (message : string) : flow unit :=
  if Js.truthy id then
    match Prisma.findFirst_where_id filter key id rows with
    | None => Return (db, Rejected)
    | Some None => Return (db, fail 404 message)
    | Some (Some _) => Continue tt
    end
  else Continue tt.

Definition createItem (filter : Prisma.string_filter) (sup : supply)
    (body : ItemBody.t) (db : database) : database * outcome :=
  let name := ItemBody.name body in
  let image := ItemBody.image body in
  let description := ItemBody.description body in
  let taxApplicable := ItemBody.taxApplicable body in
  let tax := ItemBody.tax body in
  let baseAmount := ItemBody.baseAmount body in
  let discount := ItemBody.discount body in
  let subCategory := ItemBody.subCategory body in
  let category := ItemBody.category body in
  run (
    do _ <- return_if
              (Js.neg name || Js.neg image || Js.neg description
               || Js.is_undefined taxApplicable || Js.neg baseAmount
               || (Js.neg subCategory && Js.neg category))
              db 400 "All fields are required" ;
    do _ <- must_exist filter SubCategory.id subCategory (subCategories db) db
              "SubCategory not found, unable to create item" ;
    do _ <- must_exist filter Category.id category (categories db) db
              "Category not found, unable to create item" ;
    Continue
      match (difference <-
               Js.sub baseAmount (Js.oror discount (Js.of_float 0)) ;;
             Prisma.item_create sup
               (ItemData.mk name image description taxApplicable tax
                  baseAmount
                  (Js.oror discount (Js.of_float 0))
                  difference
                  (Js.spread_if subCategory)
                  (Js.spread_if category))
               db) with
      | Some (item, db') => (db', reply 201 (ItemJson item))
      | None => (db, fail 500 "Something went wrong")
      end).

Definition getItems (db : database) : outcome :=
  let items := Prisma.item_findMany db in
  if (List.length items =? 0)%nat
  then fail 404 "Items not found"
  else reply 200 (ItemsJson items).

Definition getItem (id name : option string) (db : database) : outcome :=
  if Js.neg (Js.of_optional_string id) && Js.neg (Js.of_optional_string name)
  then fail 400 "Id or name is required"
  else
    match (if Js.truthy (Js.of_optional_string id)
           then Some (Prisma.findFirst_id Item.id id (items db))
           else Prisma.item_findFirst_name
                  (Js.of_optional_string name) db) with
    | Some (Some item) => reply 200 (ItemJson item)
    | Some None => fail 404 "item not found"
    | None => fail 500 "Something went wrong"
    end.

Definition getItemsByCategory (id : string) (db : database) : outcome :=
  if Js.neg (Js.Str id)
  then fail 400 "Id is required"
  else
    let items := Prisma.item_findMany_category id db in
    if (List.length items =? 0)%nat
    then fail 404 "Items not found"
    else reply 200 (ItemsJson items).

Definition getItemsBySubCategory (id : string) (db : database) : outcome :=
  if Js.neg (Js.Str id)
  then fail 400 "Id is required"
  else
    let items := Prisma.item_findMany_subCategory id db in
    if (List.length items =? 0)%nat
    then fail 404 "Items not found"
    else reply 200 (ItemsJson items).

Definition editItem (filter : Prisma.string_filter) (sup : supply)
    (id : string) (body : ItemBody.t) (db : database)
  : database * outcome :=
  let name := ItemBody.name body in
  let image := ItemBody.image body in
  let description := ItemBody.description body in
  let taxApplicable := ItemBody.taxApplicable body in
  let tax := ItemBody.tax body in
  let baseAmount := ItemBody.baseAmount body in
  let discount := ItemBody.discount body in
  let subCategory := ItemBody.subCategory body in
  let category := ItemBody.category body in
  run (
    do _ <- return_if (Js.neg (Js.Str id)) db 400 "Id is required" ;
    do _ <- return_if
              (Js.neg name && Js.neg image && Js.neg description
               && Js.neg taxApplicable && Js.neg tax && Js.neg baseAmount
               && Js.neg discount && Js.neg subCategory && Js.neg category)
              db 400 "At least one field is required" ;
    do _ <- return_if (Js.is_true taxApplicable && Js.neg tax)
              db 400 "Tax is required" ;
    do itemExists <-
         match Prisma.findUnique_id Item.id (Js.Str id) (items db) with
         | None => Return (db, Rejected)
         | Some None => Return (db, fail 404 "Item not found with given id")
         | Some (Some item) => Continue item
         end ;
    do _ <- must_exist filter SubCategory.id subCategory (subCategories db) db
              "SubCategory not found, unable to edit item" ;
    do _ <- must_exist filter Category.id category (categories db) db
              "Category not found, unable to edit item" ;
    Continue
      match (difference <-
               Js.sub baseAmount (Js.oror discount (Js.of_float 0)) ;;
             Prisma.item_update sup id
               (ItemData.mk
                  (Js.spread_if name)
                  (Js.spread_if image)
                  (Js.spread_if description)
                  (Js.spread_if taxApplicable)
                  (Js.spread_if tax)
                  (Js.spread_if baseAmount)
                  (Js.spread_if discount)
                  (Js.oror difference
                     (Js.of_float (Item.totalAmount itemExists)))
                  (Js.spread_if subCategory)
                  (Js.spread_if category))
               db) with
      | Some (item, db') => (db', reply 200 (ItemJson item))
      | None => (db, fail 500 "Something went wrong")
      end).

Definition searchItem (name : option string) (db : database) : outcome :=
  let name := Js.of_optional_string name in
  if Js.neg name
  then fail 400 "Name is required"
  else
    match Prisma.item_findMany_name name db with
    | Some items =>
        if (List.length items =? 0)%nat || (List.length items =? 0)%nat
        then fail 404 "items not found"
        else reply 200 (ItemsJson items)
    | None => fail 500 "Something went wrong"
    end.

(* ================================================================== *)
(** * Specification vocabulary *)




(** *** Letter case

    A capital letter [A]..[Z] and the small letter 32 places after it
    are the two cases of one letter. *)
Definition capital (c : ascii) : Prop :=
  (65 <= nat_of_ascii c <= 90)%nat.







(** Text without a backslash. *)
Definition no_backslash (s : string) : Prop :=
  ~ In "\"%char (list_ascii_of_string s).


(** [x] is the first element of [l] that satisfies [P]. *)
Definition first_match {A : Type} (P : A -> Prop) (l : list A) (x : A) : Prop :=
  exists before after,
    l = before ++ x :: after /\ P x /\ forall y, In y before -> ~ P y.

(** The answer a list endpoint owes for the rows it selected: 404 with a
    message when there are none, otherwise 200 with all of them. *)
Definition lists_or_404 {A : Type} (wrap : list A -> json) (rows : list A)
    (o : outcome) : Prop :=
  (rows = [] -> exists message, o = fail 404 message) /\
  (rows <> [] -> o = reply 200 (wrap rows)).


(** The discount a create request supplies: its number when it carries
    one, 0 otherwise.  A zero of either sign is 0; [NaN], which JSON
    cannot carry, is no number. *)
Definition supplied_discount (body : ItemBody.t) : float :=
  match ItemBody.discount body with
  | Js.Number d => if Js.falsy_number d then 0%float else d
  | _ => 0%float
  end.

(** A key that [POST /item] requires is absent from the body. *)
Definition createItem_absent (body : ItemBody.t) : Prop :=
  ItemBody.name body = Js.Undefined \/
  ItemBody.image body = Js.Undefined \/
  ItemBody.description body = Js.Undefined \/
  ItemBody.taxApplicable body = Js.Undefined \/
  ItemBody.baseAmount body = Js.Undefined \/
  (ItemBody.subCategory body = Js.Undefined /\
   ItemBody.category body = Js.Undefined).

(** A key that [POST /item] requires is absent or carries a falsy value
    (for [taxApplicable]: is absent). *)
Definition createItem_refused (body : ItemBody.t) : Prop :=
  Js.truthy (ItemBody.name body) = false \/
  Js.truthy (ItemBody.image body) = false \/
  Js.truthy (ItemBody.description body) = false \/
  ItemBody.taxApplicable body = Js.Undefined \/
  Js.truthy (ItemBody.baseAmount body) = false \/
  (Js.truthy (ItemBody.subCategory body) = false /\
   Js.truthy (ItemBody.category body) = false).

(** Every key that [POST /item] requires carries a truthy value
    ([taxApplicable]: any value), and so does one of the two parents. *)
Definition createItem_admitted (body : ItemBody.t) : Prop :=
  Js.truthy (ItemBody.name body) = true /\
  Js.truthy (ItemBody.image body) = true /\
  Js.truthy (ItemBody.description body) = true /\
  ItemBody.taxApplicable body <> Js.Undefined /\
  Js.truthy (ItemBody.baseAmount body) = true /\
  (Js.truthy (ItemBody.subCategory body) = true \/
   Js.truthy (ItemBody.category body) = true).

(** [v] names a row by a non-empty string, and [rows] has no such row. *)
Definition unresolved {R : Type} (key : R -> string) (v : Js.value)
    (rows : list R) : Prop :=
  exists s, v = Js.Str s /\ s <> ""%string /\
            Prisma.find_by_id key s rows = None.

(** [v] is left out (or falsy), or names a row of [rows]. *)
Definition resolved_or_absent {R : Type} (key : R -> string) (v : Js.value)
    (rows : list R) : Prop :=
  Js.truthy v = false \/
  exists s r, v = Js.Str s /\ Prisma.find_by_id key s rows = Some r.

(** Every key that [PUT /item/:id] reads is absent or carries a falsy
    value. *)
Definition only_falsy_fields (body : ItemBody.t) : Prop :=
  Js.truthy (ItemBody.name body) = false /\
  Js.truthy (ItemBody.image body) = false /\
  Js.truthy (ItemBody.description body) = false /\
  Js.truthy (ItemBody.taxApplicable body) = false /\
  Js.truthy (ItemBody.tax body) = false /\
  Js.truthy (ItemBody.baseAmount body) = false /\
  Js.truthy (ItemBody.discount body) = false /\
  Js.truthy (ItemBody.subCategory body) = false /\
  Js.truthy (ItemBody.category body) = false.

(** *** Outcomes *)

(** The answers a handler gives when it does not carry the request out:
    400, 404 or 500 with a message, or a rejected promise. *)
Inductive refusal : outcome -> Prop :=
| refusal_400 (message : string) : refusal (fail 400 message)
| refusal_404 (message : string) : refusal (fail 404 message)
| refusal_500 (message : string) : refusal (fail 500 message)
| refusal_rejected : refusal Rejected.

(** The handler did not answer 200 or 201. *)
Definition unsuccessful (o : outcome) : Prop :=
  status_of o <> Some 200 /\ status_of o <> Some 201.

(** *** Keys of the schema *)

(** [@id]: no two rows of a table share an id. *)
Definition keys_unique (db : database) : Prop :=
  NoDup (map Category.id (categories db)) /\
  NoDup (map SubCategory.id (subCategories db)) /\
  NoDup (map Item.id (items db)).

(** [@relation]: every parent a row names is a row of the parent table. *)
Definition references_resolve (db : database) : Prop :=
  (forall s, In s (subCategories db) ->
             In (SubCategory.categoryId s) (map Category.id (categories db))) /\
  (forall i c, In i (items db) -> Item.categoryId i = Some c ->
               In c (map Category.id (categories db))) /\
  (forall i s, In i (items db) -> Item.subCategoryId i = Some s ->
               In s (map SubCategory.id (subCategories db))).

Definition consistent (db : database) : Prop :=
  keys_unique db /\ references_resolve db.

(** *** What an update leaves in a column

    The value of a column after a successful update, from its value
    before and the value the body carries for it: a truthy value of the
    column's type replaces the stored one, anything else keeps it. *)

Definition updated_string (old : string) (v : Js.value) : string :=
  match v with
  | Js.Str s => if (s =? "")%string then old else s
  | _ => old
  end.

Definition updated_nullable_string (old : option string) (v : Js.value)
  : option string :=
  match v with
  | Js.Str s => if (s =? "")%string then old else Some s
  | _ => old
  end.

Definition updated_boolean (old : bool) (v : Js.value) : bool :=
  match v with
  | Js.Bool true => true
  | _ => old
  end.

Definition updated_nullable_boolean (old : option bool) (v : Js.value)
  : option bool :=
  match v with
  | Js.Bool true => Some true
  | _ => old
  end.

Definition updated_float (old : float) (v : Js.value) : float :=
  match v with
  | Js.Number n => if Js.falsy_number n then old else n
  | _ => old
  end.

(** A number that is not finite has no notation in the query that
    reaches the database, and is not stored. *)
Definition updated_nullable_float (old : option float) (v : Js.value)
  : option float :=
  match v with
  | Js.Number n =>
      if Js.falsy_number n then old
      else if is_finite n then Some n else None
  | _ => old
  end.

(** The parent an item names after a successful update. *)
Definition updated_reference (old : option string) (v : Js.value)
  : option string :=
  match v with
  | Js.Str s => if (s =? "")%string then old else Some s
  | _ => old
  end.

(** *** What a creation stores in a column *)

(** A nullable [Float] column of a new row: the supplied number, NULL
    when the key is absent or [null]. *)
Definition created_nullable_float (v : Js.value) : option float :=
  match v with
  | Js.Number n => if is_finite n then Some n else None
  | _ => None
  end.

Definition created_nullable_string (v : Js.value) : option string :=
  match v with
  | Js.Str s => Some s
  | _ => None
  end.

Definition created_nullable_boolean (v : Js.value) : option bool :=
  match v with
  | Js.Bool b => Some b
  | _ => None
  end.

(** The parent a new item names: the supplied id when it is a non-empty
    string, none otherwise. *)
Definition created_reference (v : Js.value) : option string :=
  match v with
  | Js.Str s => if (s =? "")%string then None else Some s
  | _ => None
  end.

(** *** Bodies *)

(** A value that is stored as it is: neither an array, nor an object,
    nor a number that is not finite. *)
Definition plain_value (v : Js.value) : bool :=
  match v with
  | Js.Number n => is_finite n
  | _ => Js.scalar v
  end.

(** No key that [PUT /category/:id] reads carries an array or an
    object. *)
Definition scalar_category (body : CategoryBody.t) : Prop :=
  Js.scalar (CategoryBody.name body) = true /\
  Js.scalar (CategoryBody.image body) = true /\
  Js.scalar (CategoryBody.description body) = true /\
  Js.scalar (CategoryBody.taxApplicable body) = true /\
  Js.scalar (CategoryBody.tax body) = true /\
  Js.scalar (CategoryBody.taxType body) = true.

(** The same for [PUT /subcategory/:id]. *)
Definition scalar_subCategory (body : SubCategoryBody.t) : Prop :=
  Js.scalar (SubCategoryBody.name body) = true /\
  Js.scalar (SubCategoryBody.image body) = true /\
  Js.scalar (SubCategoryBody.description body) = true /\
  Js.scalar (SubCategoryBody.taxApplicable body) = true /\
  Js.scalar (SubCategoryBody.tax body) = true.

(** The same for the columns that [PUT /item/:id] sets. *)
Definition scalar_item (body : ItemBody.t) : Prop :=
  Js.scalar (ItemBody.name body) = true /\
  Js.scalar (ItemBody.image body) = true /\
  Js.scalar (ItemBody.description body) = true /\
  Js.scalar (ItemBody.taxApplicable body) = true /\
  Js.scalar (ItemBody.tax body) = true /\
  Js.scalar (ItemBody.baseAmount body) = true /\
  Js.scalar (ItemBody.discount body) = true.

(** Some key of the body carries a truthy value: the update has a
    column to write. *)
Definition category_written (body : CategoryBody.t) : bool :=
  Js.truthy (CategoryBody.name body) || Js.truthy (CategoryBody.image body)
  || Js.truthy (CategoryBody.description body)
  || Js.truthy (CategoryBody.taxApplicable body)
  || Js.truthy (CategoryBody.tax body)
  || Js.truthy (CategoryBody.taxType body).

Definition subCategory_written (body : SubCategoryBody.t) : bool :=
  Js.truthy (SubCategoryBody.name body)
  || Js.truthy (SubCategoryBody.image body)
  || Js.truthy (SubCategoryBody.description body)
  || Js.truthy (SubCategoryBody.taxApplicable body)
  || Js.truthy (SubCategoryBody.tax body).

(** *** Updates

    An update returns the stored row untouched when its data has no key,
    and otherwise writes a new version of the row, stamped with the
    current instant, after the other rows. *)
Definition written {R : Type} (empty : bool) (same : Prop)
    (updatedAt : Z) (sup : supply) (rows rows' : list R)
    (key : R -> string) (id : string) (r : R) : Prop :=
  (empty = true /\ same /\ rows' = rows) \/
  (empty = false /\ updatedAt = now sup /\
   rows' = Prisma.rewrite_by_id key id r rows).

(** A query parameter that is missing or empty. *)
Definition no_parameter (q : option string) : Prop :=
  q = None \/ q = Some ""%string.

(** Every id of [db] is still an id of the same table in [db']. *)
Definition ids_kept (db db' : database) : Prop :=
  incl (map Category.id (categories db)) (map Category.id (categories db')) /\
  incl (map SubCategory.id (subCategories db))
       (map SubCategory.id (subCategories db')) /\
  incl (map Item.id (items db)) (map Item.id (items db')).

(** *** Taxed categories *)

(** A category on which tax applies carries a rate or a tax type. *)
Definition taxed_with_rate (c : Category.t) : Prop :=
  Category.taxApplicable c = true ->
  Category.tax c <> None \/ Category.taxType c <> None.

(** ** A small menu used in the examples *)

Module Sample.

Definition sup : supply := mkSupply "u-1" 7.

Definition beverages : Category.t :=
  Category.mk "c-1" "Beverages" "b.png" "Drinks" true (Some 5%float) None 1 1.

Definition hot : SubCategory.t :=
  SubCategory.mk "s-1" "Hot" "h.png" "Hot drinks" (Some true)
    (Some 5%float) "c-1" 2 2.

Definition tea : Item.t :=
  Item.mk "i-1" "Green Tea" "t.png" "A pot of tea" (Some false) None
    100 (Some 20%float) 80 None (Some "c-1") 3 3.

Definition menu : database := mkDb [beverages] [hot] [tea].

Definition num (n : float) : Js.value := Js.Number n.

(** [{ taxApplicable: true }] *)
Definition tax_on : CategoryBody.t :=
  CategoryBody.mk Js.Undefined Js.Undefined Js.Undefined (Js.Bool true)
    Js.Undefined Js.Undefined.

(** [{ taxApplicable: false }] *)
Definition tax_off : CategoryBody.t :=
  CategoryBody.mk Js.Undefined Js.Undefined Js.Undefined (Js.Bool false)
    Js.Undefined Js.Undefined.

(** [{ name: "Iced", image: "i.png", description: "Iced drinks",
       categoryId: "c-1" }] *)
Definition iced : SubCategoryBody.t :=
  SubCategoryBody.mk (Js.Str "Iced") (Js.Str "i.png") (Js.Str "Iced drinks")
    Js.Undefined Js.Undefined (Js.Str "c-1").

(** [iced] with [taxApplicable: false, tax: 0] *)
Definition iced_untaxed : SubCategoryBody.t :=
  SubCategoryBody.mk (Js.Str "Iced") (Js.Str "i.png") (Js.Str "Iced drinks")
    (Js.Bool false) (num 0) (Js.Str "c-1").

(** [{ name: "Warm", taxApplicable: false, tax: 0 }] *)
Definition warm_untaxed : SubCategoryBody.t :=
  SubCategoryBody.mk (Js.Str "Warm") Js.Undefined Js.Undefined
    (Js.Bool false) (num 0) Js.Undefined.

(** [{ name: "Coffee", image: "c.png", description: "Filter coffee",
       taxApplicable: false, baseAmount: 100, discount: 20,
       category: "c-1" }] *)
Definition coffee : ItemBody.t :=
  ItemBody.mk (Js.Str "Coffee") (Js.Str "c.png") (Js.Str "Filter coffee")
    (Js.Bool false) Js.Undefined (num 100) (num 20) Js.Undefined
    (Js.Str "c-1").

(** [coffee] with [category: "c-9"], which is not in [menu] *)
Definition coffee_nowhere : ItemBody.t :=
  ItemBody.mk (Js.Str "Coffee") (Js.Str "c.png") (Js.Str "Filter coffee")
    (Js.Bool false) Js.Undefined (num 100) (num 20) Js.Undefined
    (Js.Str "c-9").

(** [coffee_nowhere] with [baseAmount: 0] *)
Definition free_coffee_nowhere : ItemBody.t :=
  ItemBody.mk (Js.Str "Coffee") (Js.Str "c.png") (Js.Str "Filter coffee")
    (Js.Bool false) Js.Undefined (num 0) (num 20) Js.Undefined
    (Js.Str "c-9").

(** [{ taxApplicable: false, discount: 0 }] *)
Definition untaxed_discount_0 : ItemBody.t :=
  ItemBody.mk Js.Undefined Js.Undefined Js.Undefined (Js.Bool false)
    Js.Undefined Js.Undefined (num 0) Js.Undefined Js.Undefined.

(** [{ discount: 30 }] *)
Definition discount_30 : ItemBody.t :=
  ItemBody.mk Js.Undefined Js.Undefined Js.Undefined Js.Undefined
    Js.Undefined Js.Undefined (num 30) Js.Undefined Js.Undefined.

(** [{ baseAmount: 50 }] *)
Definition base_50 : ItemBody.t :=
  ItemBody.mk Js.Undefined Js.Undefined Js.Undefined Js.Undefined
    Js.Undefined (num 50) Js.Undefined Js.Undefined Js.Undefined.

(** [{ baseAmount: 40, discount: 40 }] *)
Definition base_40_discount_40 : ItemBody.t :=
  ItemBody.mk Js.Undefined Js.Undefined Js.Undefined Js.Undefined
    Js.Undefined (num 40) (num 40) Js.Undefined Js.Undefined.

(** [{ name: "Black Tea", discount: 0 }] *)
Definition rename_discount_0 : ItemBody.t :=
  ItemBody.mk (Js.Str "Black Tea") Js.Undefined Js.Undefined Js.Undefined
    Js.Undefined Js.Undefined (num 0) Js.Undefined Js.Undefined.

(** [{ name: "Snacks", image: "s.png", description: "Small bites",
       taxApplicable: true, taxType: "GST" }] *)
Definition snacks : CategoryBody.t :=
  CategoryBody.mk (Js.Str "Snacks") (Js.Str "s.png") (Js.Str "Small bites")
    (Js.Bool true) Js.Undefined (Js.Str "GST").

(** [{ name: "Drinks", taxApplicable: false, tax: 0 }] *)
Definition rename_beverages : CategoryBody.t :=
  CategoryBody.mk (Js.Str "Drinks") Js.Undefined Js.Undefined
    (Js.Bool false) (num 0) Js.Undefined.

(** [iced] with [taxApplicable: true, tax: 12] *)
Definition iced_taxed : SubCategoryBody.t :=
  SubCategoryBody.mk (Js.Str "Iced") (Js.Str "i.png") (Js.Str "Iced drinks")
    (Js.Bool true) (num 12) (Js.Str "c-1").

(** [iced] with [categoryId: "c-9"], which is not in [menu] *)
Definition iced_nowhere : SubCategoryBody.t :=
  SubCategoryBody.mk (Js.Str "Iced") (Js.Str "i.png") (Js.Str "Iced drinks")
    Js.Undefined Js.Undefined (Js.Str "c-9").

(** [{ name: "Espresso", image: "e.png", description: "Short and strong",
       taxApplicable: true, tax: 5, baseAmount: 60, subCategory: "s-1" }] *)
Definition espresso : ItemBody.t :=
  ItemBody.mk (Js.Str "Espresso") (Js.Str "e.png")
    (Js.Str "Short and strong") (Js.Bool true) (num 5) (num 60)
    Js.Undefined (Js.Str "s-1") Js.Undefined.

(** [{ baseAmount: 120, discount: 30 }] *)
Definition base_120_discount_30 : ItemBody.t :=
  ItemBody.mk Js.Undefined Js.Undefined Js.Undefined Js.Undefined
    Js.Undefined (num 120) (num 30) Js.Undefined Js.Undefined.

(** [{ taxApplicable: true }] for an item *)
Definition item_tax_on : ItemBody.t :=
  ItemBody.mk Js.Undefined Js.Undefined Js.Undefined (Js.Bool true)
    Js.Undefined Js.Undefined Js.Undefined Js.Undefined Js.Undefined.

(** [{ name: "Black Tea", subCategory: "s-1" }] *)
Definition move_to_hot : ItemBody.t :=
  ItemBody.mk (Js.Str "Black Tea") Js.Undefined Js.Undefined Js.Undefined
    Js.Undefined Js.Undefined Js.Undefined (Js.Str "s-1") Js.Undefined.

(** [{ name: "Black Tea", category: "c-9" }] *)
Definition move_to_nowhere : ItemBody.t :=
  ItemBody.mk (Js.Str "Black Tea") Js.Undefined Js.Undefined Js.Undefined
    Js.Undefined Js.Undefined Js.Undefined Js.Undefined (Js.Str "c-9").

(** [tea] with the given name, base amount, discount and total, as
    rewritten at instant [now sup]. *)
Definition tea_with (name : string) (baseAmount : float)
    (discount : option float) (totalAmount : float) : Item.t :=
  Item.mk "i-1" name "t.png" "A pot of tea" (Some false) None
    baseAmount discount totalAmount None (Some "c-1") 3 7.

(** [hot] renamed to [Warm], as rewritten at instant [now sup]. *)
Definition warm : SubCategory.t :=
  SubCategory.mk "s-1" "Warm" "h.png" "Hot drinks" (Some true)
    (Some 5%float) "c-1" 2 7.

End Sample.

(* ================================================================== *)
(** * Properties *)

(** ** Substring matching *)



Lemma lower_app (s t : string) :
  Text.lower (s ++ t) = (Text.lower s ++ Text.lower t)%string.
Proof. induction s as [|c s IH]; simpl; [reflexivity | now rewrite IH]. Qed.

(** ** Letter case *)


Lemma lower_ascii_capital (c : ascii) :
  capital c ->
  nat_of_ascii (Text.lower_ascii c) = (nat_of_ascii c + 32)%nat.
Proof.
  unfold capital, Text.lower_ascii. intros [H1 H2].
  destruct (Nat.leb_spec 65 (nat_of_ascii c)); [|lia].
  destruct (Nat.leb_spec (nat_of_ascii c) 90); [|lia].
  simpl. apply nat_ascii_embedding. lia.
Qed.

Lemma lower_ascii_other (c : ascii) :
  ~ capital c -> Text.lower_ascii c = c.
Proof.
  unfold capital, Text.lower_ascii. intros H.
  destruct (Nat.leb_spec 65 (nat_of_ascii c));
    destruct (Nat.leb_spec (nat_of_ascii c) 90); simpl; try reflexivity.
  lia.
Qed.

Lemma capital_dec (c : ascii) : capital c \/ ~ capital c.
Proof. unfold capital. lia. Qed.





(** ** [LIKE] patterns *)

Lemma like_any (rest text : string) :
  Text.like (String "%" rest) text =
  Text.like rest text ||
  match text with
  | EmptyString => false
  | String _ text' => Text.like (String "%" rest) text'
  end.
Proof. destruct text; reflexivity. Qed.

Lemma special_false (p : ascii) :
  Text.special p = false ->
  (p =? "%")%char = false /\ (p =? "_")%char = false /\
  (p =? "\")%char = false.
Proof.
  unfold Text.special. rewrite !orb_false_iff. tauto.
Qed.

Lemma like_literal (p : ascii) (rest text : string) :
  Text.special p = false ->
  Text.like (String p rest) text =
  match text with
  | EmptyString => false
  | String c text' => (p =? c)%char && Text.like rest text'
  end.
Proof.
  intros H. apply special_false in H. destruct H as (H1 & H2 & H3).
  cbn [Text.like]. rewrite H1, H2, H3. reflexivity.
Qed.

Lemma like_any_spec (rest text : string) :
  Text.like (String "%" rest) text = true <->
  exists pre post, text = (pre ++ post)%string /\ Text.like rest post = true.
Proof.
  induction text as [|c text IH]; rewrite like_any, orb_true_iff.
  - split.
    + intros [H|H]; [|discriminate]. now exists ""%string, ""%string.
    + intros (pre & post & H & Hl). left.
      destruct pre; [|discriminate]. simpl in H. now subst post.
  - rewrite IH. split.
    + intros [H | (pre & post & -> & H)].
      * now exists ""%string, (String c text).
      * now exists (String c pre), post.
    + intros (pre & post & H & Hl). destruct pre as [|a pre]; simpl in H.
      * left. now subst post.
      * right. injection H as _ ->. now exists pre, post.
Qed.


Lemma like_any_only (text : string) : Text.like "%" text = true.
Proof.
  apply like_any_spec. exists text, ""%string. split; [|reflexivity].
  induction text as [|c text IH]; simpl; [reflexivity | now rewrite <- IH].
Qed.






(** ** Lists *)

Section Reflect.
Context {A : Type} (p : A -> bool) (P : A -> Prop).
Hypothesis p_spec : forall y, p y = true <-> P y.

Lemma p_false (y : A) : p y = false <-> ~ P y.
Proof.
  rewrite <- p_spec. destruct (p y); split; congruence.
Qed.

Lemma find_first_match (l : list A) (x : A) :
  find p l = Some x <-> first_match P l x.
Proof.
  unfold first_match. induction l as [|a l IH]; simpl.
  - split; [discriminate|].
    intros (before & after & H & _). destruct before; discriminate.
  - destruct (p a) eqn:Ha.
    + split.
      * intros [= ->]. exists [], l. repeat split; [now apply p_spec|].
        intros y [].
      * intros (before & after & H & Hx & Hb).
        destruct before as [|b before]; simpl in H.
        -- now injection H as ->.
        -- injection H as <- _. apply p_spec in Ha.
           exfalso. apply (Hb a); [now left | assumption].
    + apply p_false in Ha. rewrite IH. split.
      * intros (before & after & -> & Hx & Hb).
        exists (a :: before), after. repeat split; [assumption|].
        intros y [<- | Hy]; [assumption | now apply Hb].
      * intros (before & after & H & Hx & Hb).
        destruct before as [|b before]; simpl in H.
        -- injection H as -> _. contradiction.
        -- injection H as -> ->. exists before, after.
           repeat split; [assumption|].
           intros y Hy. apply Hb. now right.
Qed.


Lemma filter_In_iff (l : list A) (x : A) :
  In x (filter p l) <-> In x l /\ P x.
Proof. now rewrite filter_In, p_spec. Qed.

End Reflect.

Lemma string_nonempty (s : string) :
  s <> ""%string -> Js.neg (Js.Str s) = false.
Proof.
  intros H. unfold Js.neg. simpl.
  destruct (String.eqb_spec s ""); [contradiction | reflexivity].
Qed.

Lemma lists_or_404_intro {A : Type} (wrap : list A -> json) (rows : list A)
    (message : string) :
  lists_or_404 wrap rows
    (if (List.length rows =? 0)%nat
     then fail 404 message
     else reply 200 (wrap rows)).
Proof.
  destruct rows as [|r rows]; simpl; split; intros H;
    try congruence; now exists message.
Qed.

(* ================================================================== *)
(** ** Listing *)

(** C5.  Every list endpoint (all categories, all subcategories, all
    items, subcategories of a category, items of a category, items of a
    subcategory) answers 404 when it selected no row, never 200 with an
    empty array, and 200 with all the selected rows otherwise.  The
    filtered variants select exactly the rows whose parent is [id]. *)
Theorem list_endpoints_404_when_empty (db : database) (id : string) :
  id <> ""%string ->
  lists_or_404 CategoriesJson (categories db) (getCategories db) /\
  lists_or_404 SubCategoriesJson (subCategories db) (getSubCategories db) /\
  lists_or_404 ItemsJson (items db) (getItems db) /\
  (exists rows,
      (forall s, In s rows <->
                 In s (subCategories db) /\ SubCategory.categoryId s = id) /\
      lists_or_404 SubCategoriesJson rows (getSubCategoriesByCategory id db)) /\
  (exists rows,
      (forall i, In i rows <->
                 In i (items db) /\ Item.categoryId i = Some id) /\
      lists_or_404 ItemsJson rows (getItemsByCategory id db)) /\
  (exists rows,
      (forall i, In i rows <->
                 In i (items db) /\ Item.subCategoryId i = Some id) /\
      lists_or_404 ItemsJson rows (getItemsBySubCategory id db)).
Proof.
  intros Hid.
  assert (Hopt : forall o : option string,
             match o with Some c => (c =? id)%string | None => false end = true
             <-> o = Some id).
  { intros [c|]; [rewrite String.eqb_eq|]; split; congruence. }
  split; [|split; [|split; [|split; [|split]]]].
  1-3: apply lists_or_404_intro.
  - exists (Prisma.subCategory_findMany_category id db). split.
    + intros s.
      apply (filter_In_iff _ (fun y => SubCategory.categoryId y = id)).
      intros y. apply String.eqb_eq.
    + unfold getSubCategoriesByCategory.
      rewrite (string_nonempty id Hid). apply lists_or_404_intro.
  - exists (Prisma.item_findMany_category id db). split.
    + intros i.
      apply (filter_In_iff _ (fun y => Item.categoryId y = Some id)).
      intros y. apply Hopt.
    + unfold getItemsByCategory.
      rewrite (string_nonempty id Hid). apply lists_or_404_intro.
  - exists (Prisma.item_findMany_subCategory id db). split.
    + intros i.
      apply (filter_In_iff _ (fun y => Item.subCategoryId y = Some id)).
      intros y. apply Hopt.
    + unfold getItemsBySubCategory.
      rewrite (string_nonempty id Hid). apply lists_or_404_intro.
Qed.

Lemma list_endpoints_404_when_empty_witness :
  getCategories Sample.menu = reply 200 (CategoriesJson [Sample.beverages]) /\
  exists message, getCategories (mkDb [] [] []) = fail 404 message.
Proof.
  split.
  - destruct (list_endpoints_404_when_empty Sample.menu "c-1")
      as [[_ H] _]; [discriminate|].
    apply H. discriminate.
  - destruct (list_endpoints_404_when_empty (mkDb [] [] []) "c-1")
      as [[H _] _]; [discriminate|].
    apply H. reflexivity.
Defined.

(* ================================================================== *)
(** ** Search and lookup by name *)








(* ================================================================== *)
(** ** Validation failures *)

(** C4.  An update of a category that sets [taxApplicable] to [true] and
    supplies neither [tax] nor [taxType] is answered 400 and leaves the
    database as it was; the route always supplies a non-empty id, and then
    the message is the tax one. *)
Theorem editCategory_tax_required (sup : supply) (id : string)
    (body : CategoryBody.t) (db : database) :
  CategoryBody.taxApplicable body = Js.Bool true ->
  CategoryBody.tax body = Js.Undefined ->
  CategoryBody.taxType body = Js.Undefined ->
  exists message,
    editCategory sup id body db = (db, fail 400 message) /\
    (id <> ""%string -> message = "Tax or TaxType is required"%string).
Proof.
  intros Hta Htax Htype. unfold editCategory.
  rewrite Hta, Htax, Htype.
  destruct (Js.neg (Js.Str id)) eqn:Hid.
  - eexists. split; [reflexivity|].
    intros Hne. rewrite (string_nonempty id Hne) in Hid. discriminate.
  - replace (Js.is_undefined (Js.Bool true)) with false by reflexivity.
    rewrite andb_false_r. simpl.
    eexists. split; [reflexivity | reflexivity].
Qed.

Lemma editCategory_tax_required_witness :
  editCategory Sample.sup "c-1" Sample.tax_on Sample.menu
  = (Sample.menu, fail 400 "Tax or TaxType is required").
Proof.
  destruct (editCategory_tax_required Sample.sup "c-1" Sample.tax_on
              Sample.menu eq_refl eq_refl eq_refl) as [message [H Hm]].
  rewrite H, Hm; [reflexivity | discriminate].
Defined.

(** C10.  An update of an item whose body carries only falsy values (or
    nothing) is answered 400 "At least one field is required" and leaves
    the database as it was, whichever keys were supplied. *)
Theorem editItem_only_falsy_rejected (filter : Prisma.string_filter)
    (sup : supply) (id : string) (body : ItemBody.t) (db : database) :
  id <> ""%string ->
  only_falsy_fields body ->
  editItem filter sup id body db
  = (db, fail 400 "At least one field is required").
Proof.
  intros Hid (Hn & Hi & Hd & Hta & Ht & Hb & Hdi & Hs & Hc).
  unfold editItem, Js.neg.
  rewrite Hn, Hi, Hd, Hta, Ht, Hb, Hdi, Hs, Hc.
  fold (Js.neg (Js.Str id)). rewrite (string_nonempty id Hid).
  reflexivity.
Qed.

Lemma editItem_only_falsy_rejected_witness :
  editItem (fun _ => None) Sample.sup "i-1" Sample.untaxed_discount_0
    Sample.menu
  = (Sample.menu, fail 400 "At least one field is required").
Proof.
  apply editItem_only_falsy_rejected.
  - discriminate.
  - repeat split.
Defined.

(** *** Creating an item *)

Lemma createItem_guard_refused (body : ItemBody.t) :
  createItem_refused body ->
  Js.neg (ItemBody.name body) || Js.neg (ItemBody.image body)
  || Js.neg (ItemBody.description body)
  || Js.is_undefined (ItemBody.taxApplicable body)
  || Js.neg (ItemBody.baseAmount body)
  || (Js.neg (ItemBody.subCategory body) && Js.neg (ItemBody.category body))
  = true.
Proof.
  unfold createItem_refused, Js.neg.
  destruct (Js.truthy (ItemBody.name body)),
    (Js.truthy (ItemBody.image body)),
    (Js.truthy (ItemBody.description body)),
    (Js.truthy (ItemBody.baseAmount body)),
    (Js.truthy (ItemBody.subCategory body)),
    (Js.truthy (ItemBody.category body)),
    (ItemBody.taxApplicable body);
    simpl; intuition congruence.
Qed.

Lemma createItem_guard_admitted (body : ItemBody.t) :
  createItem_admitted body ->
  Js.neg (ItemBody.name body) || Js.neg (ItemBody.image body)
  || Js.neg (ItemBody.description body)
  || Js.is_undefined (ItemBody.taxApplicable body)
  || Js.neg (ItemBody.baseAmount body)
  || (Js.neg (ItemBody.subCategory body) && Js.neg (ItemBody.category body))
  = false.
Proof.
  unfold createItem_admitted, Js.neg.
  destruct (Js.truthy (ItemBody.name body)),
    (Js.truthy (ItemBody.image body)),
    (Js.truthy (ItemBody.description body)),
    (Js.truthy (ItemBody.baseAmount body)),
    (Js.truthy (ItemBody.subCategory body)),
    (Js.truthy (ItemBody.category body)),
    (ItemBody.taxApplicable body);
    simpl; intuition congruence.
Qed.

Lemma must_exist_unresolved {R : Type} (filter : Prisma.string_filter)
    (key : R -> string) (v : Js.value) (rows : list R) (db : database)
    (message : string) :
  unresolved key v rows ->
  must_exist filter key v rows db message = Return (db, fail 404 message).
Proof.
  intros (s & -> & Hs & Hfind). unfold must_exist.
  pose proof (string_nonempty s Hs) as Hneg. unfold Js.neg in Hneg.
  apply negb_false_iff in Hneg. rewrite Hneg. simpl. now rewrite Hfind.
Qed.

Lemma must_exist_resolved {R : Type} (filter : Prisma.string_filter)
    (key : R -> string) (v : Js.value) (rows : list R) (db : database)
    (message : string) :
  resolved_or_absent key v rows ->
  must_exist filter key v rows db message = Continue tt.
Proof.
  unfold must_exist. intros [Hf | (s & r & -> & Hfind)].
  - now rewrite Hf.
  - simpl. rewrite Hfind. now destruct (negb (s =? "")%string).
Qed.

(** C6, as the code has it.  [POST /item] is answered 400 whenever
    [name], [image], [description] or [baseAmount] is absent or falsy,
    [taxApplicable] is absent, or neither parent is supplied.  When that
    check passes, a subcategory id that does not resolve is answered 404,
    and so is a category id that does not resolve once the subcategory id
    is left out or resolves.  In all these cases no item is created. *)
Theorem createItem_validation (filter : Prisma.string_filter) (sup : supply)
    (body : ItemBody.t) (db : database) :
  (createItem_refused body ->
   createItem filter sup body db
   = (db, fail 400 "All fields are required")) /\
  (createItem_admitted body ->
   unresolved SubCategory.id (ItemBody.subCategory body) (subCategories db) ->
   createItem filter sup body db
   = (db, fail 404 "SubCategory not found, unable to create item")) /\
  (createItem_admitted body ->
   resolved_or_absent SubCategory.id (ItemBody.subCategory body)
     (subCategories db) ->
   unresolved Category.id (ItemBody.category body) (categories db) ->
   createItem filter sup body db
   = (db, fail 404 "Category not found, unable to create item")).
Proof.
  split; [|split].
  - intros H. unfold createItem.
    now rewrite (createItem_guard_refused body H).
  - intros Hok Hsub. unfold createItem.
    rewrite (createItem_guard_admitted body Hok). simpl.
    now rewrite (must_exist_unresolved _ _ _ _ _ _ Hsub).
  - intros Hok Hsub Hcat. unfold createItem.
    rewrite (createItem_guard_admitted body Hok). simpl.
    rewrite (must_exist_resolved _ _ _ _ _ _ Hsub). simpl.
    now rewrite (must_exist_unresolved _ _ _ _ _ _ Hcat).
Qed.

Lemma createItem_validation_witness :
  createItem (fun _ => None) Sample.sup Sample.discount_30 Sample.menu
  = (Sample.menu, fail 400 "All fields are required") /\
  createItem (fun _ => None) Sample.sup Sample.coffee_nowhere Sample.menu
  = (Sample.menu, fail 404 "Category not found, unable to create item").
Proof.
  split.
  - apply (createItem_validation (fun _ => None) Sample.sup
             Sample.discount_30 Sample.menu).
    left. reflexivity.
  - apply (createItem_validation (fun _ => None) Sample.sup
             Sample.coffee_nowhere Sample.menu).
    + unfold createItem_admitted.
      split; [reflexivity|]. split; [reflexivity|]. split; [reflexivity|].
      split; [discriminate|]. split; [reflexivity|]. right. reflexivity.
    + left. reflexivity.
    + exists "c-9"%string.
      split; [reflexivity|]. split; [discriminate | reflexivity].
Defined.

(** C6, counterexample to the claim as stated.  A body in which no
    required key is absent ([baseAmount] is 0) and whose category id does
    not resolve is answered 400, not 404. *)
Lemma createItem_unresolved_parent_not_404 :
  ~ (forall (filter : Prisma.string_filter) (sup : supply)
            (body : ItemBody.t) (db : database),
        ~ createItem_absent body ->
        unresolved Category.id (ItemBody.category body) (categories db) ->
        status_of (snd (createItem filter sup body db)) = Some 404).
Proof.
  intros H.
  specialize (H (fun _ => None) Sample.sup Sample.free_coffee_nowhere
                Sample.menu).
  assert (Hpresent : ~ createItem_absent Sample.free_coffee_nowhere).
  { intros [A | [A | [A | [A | [A | [_ A]]]]]]; cbv in A; discriminate A. }
  assert (Hun : unresolved Category.id
                  (ItemBody.category Sample.free_coffee_nowhere)
                  (categories Sample.menu)).
  { exists "c-9"%string.
    split; [reflexivity|]. split; [discriminate | reflexivity]. }
  specialize (H Hpresent Hun). vm_compute in H. discriminate H.
Qed.

(* ================================================================== *)
(** ** Derived amounts *)

(** Splits a hypothesis [x <- m ;; k = Some r] into [m = Some a] and
    [k a = Some r], as often as it applies. *)
Ltac unbind H :=
  unfold bind in H;
  repeat match type of H with
    | match ?m with Some _ => _ | None => None end = Some _ =>
        let E := fresh "E" in
        destruct m eqn:E; [|discriminate H]
    end.

Lemma float_required_inv (v : Js.value) (n : float) :
  Prisma.float_required v = Some n ->
  v = Js.Number n /\ is_finite n = true.
Proof.
  destruct v as [| |b|m|s|l|o]; simpl; intros H; try discriminate H.
  destruct (is_finite m) eqn:E; [|discriminate H].
  injection H as <-. now split.
Qed.

(** [discount || 0] as a column value. *)
Lemma discount_or_zero (body : ItemBody.t) (o : option float) :
  Prisma.float_nullable (Js.oror (ItemBody.discount body) (Js.of_float 0))
  = Some o ->
  o = Some (supplied_discount body) /\
  Js.oror (ItemBody.discount body) (Js.of_float 0)
  = Js.Number (supplied_discount body).
Proof.
  unfold supplied_discount, Js.oror.
  destruct (ItemBody.discount body) as [| |b|n|s|l|f]; simpl.
  1,2: intros [= <-]; split; reflexivity.
  - destruct b; simpl; [discriminate|].
    intros [= <-]; split; reflexivity.
  - destruct (Js.falsy_number n); simpl.
    + intros [= <-]; split; reflexivity.
    + destruct (is_finite n); [|discriminate].
      intros [= <-]; split; reflexivity.
  - destruct (s =? "")%string; simpl; [|discriminate].
    intros [= <-]; split; reflexivity.
  - discriminate.
  - discriminate.
Qed.

Lemma item_create_inv (sup : supply) (d : ItemData.t) (db db' : database)
    (row : Item.t) :
  Prisma.item_create sup d db = Some (row, db') ->
  Prisma.float_required (ItemData.baseAmount d) = Some (Item.baseAmount row) /\
  Prisma.float_nullable (ItemData.discount d) = Some (Item.discount row) /\
  Prisma.float_required (ItemData.totalAmount d)
  = Some (Item.totalAmount row) /\
  items db' = items db ++ [row].
Proof.
  unfold Prisma.item_create. intros H. unbind H.
  injection H as <- <-. simpl. repeat split; assumption.
Qed.

(** C2.  Whenever [POST /item] creates an item (201), the body carried a
    number as [baseAmount], the stored [discount] is the supplied one, or
    0 when none was supplied, and the stored [totalAmount] is the supplied
    [baseAmount] minus that discount, in the arithmetic of doubles. *)
Theorem createItem_total_amount (filter : Prisma.string_filter)
    (sup : supply) (body : ItemBody.t) (db db' : database) (item : Item.t) :
  createItem filter sup body db = (db', reply 201 (ItemJson item)) ->
  exists base,
    ItemBody.baseAmount body = Js.Number base /\
    Item.baseAmount item = base /\
    Item.discount item = Some (supplied_discount body) /\
    Item.totalAmount item = (base - supplied_discount body)%float /\
    In item (items db').
Proof.
  unfold createItem, return_if, must_exist. intros H.
  repeat match type of H with
    | context [if ?c then _ else _] => destruct c; simpl in H
    | context [Prisma.findFirst_where_id ?f ?k ?v ?r] =>
        destruct (Prisma.findFirst_where_id f k v r) as [[?|]|]; simpl in H
    end; try discriminate H.
  all: destruct (Js.sub _ _) as [difference|] eqn:D;
    simpl in H; try discriminate H;
    destruct (Prisma.item_create _ _ _) as [[row db'']|] eqn:E;
    try discriminate H;
    injection H as <- <-;
    apply item_create_inv in E; simpl in E;
    destruct E as (Hb & Hd & Ht & Hi);
    apply float_required_inv in Hb; destruct Hb as [Hb _];
    apply discount_or_zero in Hd; destruct Hd as [Hd Hor];
    rewrite Hor, Hb in D; simpl in D; injection D as <-;
    apply float_required_inv in Ht; destruct Ht as [Ht _];
    injection Ht as Ht;
    exists (Item.baseAmount row);
    (split; [assumption|]); (split; [reflexivity|]);
    (split; [assumption|]); (split; [now symmetry|]);
    rewrite Hi; apply in_or_app; right; now left.
Qed.

Lemma createItem_total_amount_witness :
  exists item db',
    createItem (fun _ => None) Sample.sup Sample.coffee Sample.menu
    = (db', reply 201 (ItemJson item)) /\
    Item.discount item = Some 20%float /\
    Item.totalAmount item = 80%float.
Proof.
  destruct (createItem (fun _ => None) Sample.sup Sample.coffee Sample.menu)
    as [db' o] eqn:E.
  vm_compute in E. injection E as <- <-.
  eexists. eexists. split; [reflexivity|].
  match goal with
  | |- Item.discount ?item = _ /\ _ =>
      destruct (createItem_total_amount (fun _ => None) Sample.sup
                  Sample.coffee Sample.menu
                  _ item eq_refl) as (base & Hb & _ & Hd & Ht & _)
  end.
  injection Hb as <-. split; [exact Hd | exact Ht].
Defined.

(* ================================================================== *)
(** ** Tax defaults of a new subcategory *)

Lemma subCategory_create_inv (sup : supply) (d : SubCategoryData.t)
    (db db' : database) (row : SubCategory.t) :
  Prisma.subCategory_create sup d db = Some (row, db') ->
  Prisma.boolean_nullable (Some false) (SubCategoryData.taxApplicable d)
  = Some (SubCategory.taxApplicable row) /\
  Prisma.float_nullable (SubCategoryData.tax d)
  = Some (SubCategory.tax row) /\
  subCategories db' = subCategories db ++ [row] /\
  categories db' = categories db.
Proof.
  unfold Prisma.subCategory_create. intros H. unbind H.
  injection H as <- <-. simpl. repeat split; assumption.
Qed.

(** A stored rate that is accepted again is stored as it was. *)
Lemma float_nullable_read_back (o o' : option float) :
  Prisma.float_nullable (Js.of_nullable_float o) = Some o' -> o' = o.
Proof.
  destruct o as [n|]; simpl.
  - destruct (is_finite n); [|discriminate]. now intros [= <-].
  - now intros [= <-].
Qed.

(** What a 200 from [POST /subcategory] says about the request and the
    row: the parent was found, and the tax columns hold
    [taxApplicable || parent.taxApplicable] and [tax || parent.tax]. *)
Lemma createSubCategory_created (sup : supply) (body : SubCategoryBody.t)
    (db db' : database) (sub : SubCategory.t) :
  createSubCategory sup body db = (db', reply 200 (SubCategoryJson sub)) ->
  exists id parent,
    SubCategoryBody.categoryId body = Js.Str id /\
    Prisma.find_by_id Category.id id (categories db) = Some parent /\
    Prisma.boolean_nullable (Some false)
      (Js.oror (SubCategoryBody.taxApplicable body)
         (Js.of_bool (Category.taxApplicable parent)))
    = Some (SubCategory.taxApplicable sub) /\
    Prisma.float_nullable
      (Js.oror (SubCategoryBody.tax body)
         (Js.of_nullable_float (Category.tax parent)))
    = Some (SubCategory.tax sub) /\
    subCategories db' = subCategories db ++ [sub] /\
    categories db' = categories db.
Proof.
  unfold createSubCategory. intros H.
  destruct (_ || _ || _ || _); [discriminate H|].
  destruct (SubCategoryBody.categoryId body) as [| |b|n|id|l|f] eqn:Hid;
    simpl in H; try discriminate H.
  destruct (Prisma.find_by_id Category.id id (categories db))
    as [parent|] eqn:Hfind; [|discriminate H].
  destruct (Prisma.subCategory_create _ _ _) as [[row db'']|] eqn:E;
    [|discriminate H].
  injection H as <- <-.
  apply subCategory_create_inv in E. simpl in E.
  destruct E as (Hta & Htax & Hrows & Hcats).
  exists id, parent. repeat split; assumption.
Qed.

(** C3.  Whenever [POST /subcategory] creates a row (200) from a body
    without [taxApplicable] and [tax], the parent named by [categoryId]
    is in the database as it was before the call, and the new row carries
    the parent's [taxApplicable] and [tax]. *)
Theorem createSubCategory_inherits_tax (sup : supply)
    (body : SubCategoryBody.t) (db db' : database) (sub : SubCategory.t) :
  SubCategoryBody.taxApplicable body = Js.Undefined ->
  SubCategoryBody.tax body = Js.Undefined ->
  createSubCategory sup body db = (db', reply 200 (SubCategoryJson sub)) ->
  exists id parent,
    SubCategoryBody.categoryId body = Js.Str id /\
    Prisma.find_by_id Category.id id (categories db) = Some parent /\
    SubCategory.taxApplicable sub = Some (Category.taxApplicable parent) /\
    SubCategory.tax sub = Category.tax parent /\
    In sub (subCategories db').
Proof.
  intros Hta Htax H.
  apply createSubCategory_created in H.
  destruct H as (id & parent & Hid & Hfind & Ha & Ht & Hrows & _).
  rewrite Hta in Ha. rewrite Htax in Ht.
  unfold Js.oror in Ha, Ht. simpl in Ha, Ht.
  apply float_nullable_read_back in Ht.
  exists id, parent.
  split; [assumption|]. split; [assumption|].
  split; [congruence|]. split; [congruence|].
  rewrite Hrows. apply in_or_app. right. now left.
Qed.

Lemma createSubCategory_inherits_tax_witness :
  exists sub db',
    createSubCategory Sample.sup Sample.iced Sample.menu
    = (db', reply 200 (SubCategoryJson sub)) /\
    SubCategory.taxApplicable sub = Some true /\
    SubCategory.tax sub = Some 5%float.
Proof.
  destruct (createSubCategory Sample.sup Sample.iced Sample.menu)
    as [db' o] eqn:E.
  vm_compute in E. injection E as <- <-.
  eexists. eexists. split; [reflexivity|].
  match goal with
  | |- SubCategory.taxApplicable ?sub = _ /\ _ =>
      destruct (createSubCategory_inherits_tax Sample.sup Sample.iced
                  Sample.menu _ sub eq_refl eq_refl eq_refl)
        as (id & parent & Hid & Hfind & Ha & Ht & _)
  end.
  injection Hid as <-. vm_compute in Hfind. injection Hfind as <-.
  split; [exact Ha | exact Ht].
Defined.

(** C9.  Whenever [POST /subcategory] creates a row (200), the row is
    stored, and: if the body supplied [taxApplicable: false], the row
    carries the parent's [taxApplicable], and if the body supplied
    [tax: 0], the row carries the parent's [tax]; the supplied falsy
    value is not stored. *)
Theorem createSubCategory_falsy_tax_replaced (sup : supply)
    (body : SubCategoryBody.t) (db db' : database) (sub : SubCategory.t) :
  createSubCategory sup body db = (db', reply 200 (SubCategoryJson sub)) ->
  exists id parent,
    SubCategoryBody.categoryId body = Js.Str id /\
    Prisma.find_by_id Category.id id (categories db) = Some parent /\
    In sub (subCategories db') /\
    (SubCategoryBody.taxApplicable body = Js.Bool false ->
     SubCategory.taxApplicable sub = Some (Category.taxApplicable parent)) /\
    (SubCategoryBody.tax body = Js.Number 0 ->
     SubCategory.tax sub = Category.tax parent).
Proof.
  intros H.
  apply createSubCategory_created in H.
  destruct H as (id & parent & Hid & Hfind & Ha & Ht & Hrows & _).
  exists id, parent.
  split; [assumption|]. split; [assumption|]. split; [|split].
  - rewrite Hrows. apply in_or_app. right. now left.
  - intros Hta. rewrite Hta in Ha. unfold Js.oror in Ha. simpl in Ha.
    congruence.
  - intros Htax. rewrite Htax in Ht. unfold Js.oror in Ht. simpl in Ht.
    now apply float_nullable_read_back in Ht.
Qed.

Lemma createSubCategory_falsy_tax_replaced_witness :
  exists sub db',
    createSubCategory Sample.sup Sample.iced_untaxed Sample.menu
    = (db', reply 200 (SubCategoryJson sub)) /\
    In sub (subCategories db') /\
    SubCategory.taxApplicable sub = Some true /\
    SubCategory.tax sub = Some 5%float.
Proof.
  destruct (createSubCategory Sample.sup Sample.iced_untaxed Sample.menu)
    as [db' o] eqn:E.
  vm_compute in E. injection E as <- <-.
  eexists. eexists. split; [reflexivity|].
  match goal with
  | |- In ?sub _ /\ _ =>
      destruct (createSubCategory_falsy_tax_replaced Sample.sup
                  Sample.iced_untaxed Sample.menu _ sub eq_refl)
        as (id & parent & Hid & Hfind & Hin & Ha & Ht)
  end.
  injection Hid as <-. vm_compute in Hfind. injection Hfind as <-.
  split; [exact Hin|]. split; [exact (Ha eq_refl) | exact (Ht eq_refl)].
Defined.

(* ================================================================== *)
(** ** Updates *)

Lemma item_update_inv (sup : supply) (id : string) (d : ItemData.t)
    (db db' : database) (row : Item.t) :
  Prisma.item_update sup id d db = Some (row, db') ->
  Js.is_undefined (ItemData.totalAmount d) = false ->
  exists old,
    Prisma.find_by_id Item.id id (items db) = Some old /\
    Prisma.set_float (Item.baseAmount old) (ItemData.baseAmount d)
    = Some (Item.baseAmount row) /\
    Prisma.set_nullable_float (Item.discount old) (ItemData.discount d)
    = Some (Item.discount row) /\
    Prisma.set_float (Item.totalAmount old) (ItemData.totalAmount d)
    = Some (Item.totalAmount row).
Proof.
  unfold Prisma.item_update. intros H Hne. unbind H.
  unfold ItemData.is_empty in H. rewrite Hne in H.
  rewrite !andb_false_r in H. simpl in H.
  injection H as <- <-. simpl. eexists. repeat split; eassumption.
Qed.

(** [x || total] with [x] and [total] numbers is a number. *)
Lemma oror_number (n total : float) :
  Js.oror (Js.Number n) (Js.of_float total)
  = Js.Number (if Js.falsy_number n then total else n).
Proof.
  unfold Js.oror. simpl. now destruct (Js.falsy_number n).
Qed.

Lemma sub_number (a b v : Js.value) :
  Js.sub a b = Some v -> exists n, v = Js.Number n.
Proof.
  unfold Js.sub.
  destruct (Js.ToNumber a); [|discriminate].
  destruct (Js.ToNumber b); [|discriminate].
  intros [= <-]. now eexists.
Qed.

(** What [PUT /item/:id] writes into [totalAmount]: the difference of the
    two request values when that difference is a non-zero number, the
    stored total in every other case. *)
Lemma editItem_total_amount (filter : Prisma.string_filter) (sup : supply)
    (id : string) (body : ItemBody.t) (db db' : database) (item : Item.t) :
  editItem filter sup id body db = (db', reply 200 (ItemJson item)) ->
  exists old,
    Prisma.find_by_id Item.id id (items db) = Some old /\
    Item.totalAmount item =
      match Js.sub (ItemBody.baseAmount body)
              (Js.oror (ItemBody.discount body) (Js.of_float 0)) with
      | Some (Js.Number t) =>
          if Js.falsy_number t then Item.totalAmount old else t
      | _ => Item.totalAmount old
      end.
Proof.
  unfold editItem, return_if, must_exist. intros H.
  destruct (Js.neg (Js.Str id)); [discriminate H|]. simpl in H.
  destruct (_ && _ && _ && _ && _ && _ && _ && _ && _);
    [discriminate H|]. simpl in H.
  destruct (_ && _); [discriminate H|]. simpl in H.
  destruct (Prisma.find_by_id Item.id id (items db)) as [old|] eqn:Hold;
    [|discriminate H]. simpl in H.
  repeat match type of H with
    | context [if Js.truthy ?v then _ else Continue tt] =>
        destruct (Js.truthy v); simpl in H
    | context [Prisma.findFirst_where_id ?f ?k ?v ?r] =>
        destruct (Prisma.findFirst_where_id f k v r) as [[?|]|]; simpl in H
    end; try discriminate H.
  all: destruct (Js.sub _ _) as [difference|] eqn:D;
    simpl in H; try discriminate H;
    destruct (sub_number _ _ _ D) as [amount ->];
    rewrite oror_number in H;
    destruct (Prisma.item_update _ _ _ _) as [[row db'']|] eqn:E;
    try discriminate H;
    injection H as <- <-;
    apply item_update_inv in E; [|reflexivity]; simpl in E;
    destruct E as (old' & Hold' & _ & _ & Ht);
    rewrite Hold in Hold'; injection Hold' as <-;
    exists old; (split; [reflexivity|]);
    destruct (is_finite _) in Ht; [|discriminate Ht];
    now injection Ht as <-.
Qed.

(** C1, the code at a failing input.  [tea] is stored with base amount
    100, discount 20 and total 80.  [PUT /item/i-1] with [{ discount: 30 }]
    is answered 200 and stores discount 30 next to the old total 80, where
    the claim requires 100 - 30. *)
Theorem editItem_discount_only_keeps_total :
  editItem (fun _ => None) Sample.sup "i-1" Sample.discount_30 Sample.menu
  = (mkDb [Sample.beverages] [Sample.hot]
       [Sample.tea_with "Green Tea" 100 (Some 30%float) 80],
     reply 200
       (ItemJson (Sample.tea_with "Green Tea" 100 (Some 30%float) 80))) /\
  Item.totalAmount (Sample.tea_with "Green Tea" 100 (Some 30%float) 80)
  <> (100 - 30)%float.
Proof.
  split; [reflexivity|].
  intros H. apply (f_equal (fun x => x =? 70)%float) in H. discriminate H.
Qed.

(** The same defect on the other two paths: [{ baseAmount: 50 }] ignores
    the stored discount 20, and [{ baseAmount: 40, discount: 40 }], whose
    difference is 0, keeps the old total. *)
Lemma editItem_base_only_ignores_discount :
  editItem (fun _ => None) Sample.sup "i-1" Sample.base_50 Sample.menu
  = (mkDb [Sample.beverages] [Sample.hot]
       [Sample.tea_with "Green Tea" 50 (Some 20%float) 50],
     reply 200
       (ItemJson (Sample.tea_with "Green Tea" 50 (Some 20%float) 50))).
Proof. reflexivity. Qed.

Lemma editItem_zero_total_keeps_old :
  editItem (fun _ => None) Sample.sup "i-1" Sample.base_40_discount_40
    Sample.menu
  = (mkDb [Sample.beverages] [Sample.hot]
       [Sample.tea_with "Green Tea" 40 (Some 40%float) 80],
     reply 200
       (ItemJson (Sample.tea_with "Green Tea" 40 (Some 40%float) 80))).
Proof. reflexivity. Qed.

(** C7, the code at failing inputs.  Each update is answered 200, and
    the supplied [false] and [0] are not stored:
    - [PUT /category/c-1] with [{ taxApplicable: false }] writes nothing:
      the row is returned as it was, [taxApplicable] still [true];
    - [PUT /subcategory/s-1] with
      [{ name: "Warm", taxApplicable: false, tax: 0 }] stores the name and
      leaves [taxApplicable] at [true] and [tax] at 5;
    - [PUT /item/i-1] with [{ name: "Black Tea", discount: 0 }] stores the
      name and leaves [discount] at 20. *)
Theorem edit_drops_false_and_zero :
  editCategory Sample.sup "c-1" Sample.tax_off Sample.menu
  = (Sample.menu, reply 200 (CategoryJson Sample.beverages)) /\
  Category.taxApplicable Sample.beverages = true /\
  editSubCategory Sample.sup "s-1" Sample.warm_untaxed Sample.menu
  = (mkDb [Sample.beverages] [Sample.warm] [Sample.tea],
     reply 200 (SubCategoryJson Sample.warm)) /\
  SubCategory.taxApplicable Sample.warm = Some true /\
  SubCategory.tax Sample.warm = Some 5%float /\
  editItem (fun _ => None) Sample.sup "i-1" Sample.rename_discount_0
    Sample.menu
  = (mkDb [Sample.beverages] [Sample.hot]
       [Sample.tea_with "Black Tea" 100 (Some 20%float) 80],
     reply 200
       (ItemJson (Sample.tea_with "Black Tea" 100 (Some 20%float) 80))).
Proof. repeat split. Qed.

(* ================================================================== *)
(** * Further properties of the handlers *)

(** ** Tables *)

Section TableFacts.
Context {R : Type} (key : R -> string).

Lemma find_by_id_some (id : string) (rows : list R) (r : R) :
  Prisma.find_by_id key id rows = Some r -> In r rows /\ key r = id.
Proof.
  unfold Prisma.find_by_id. intros H. apply find_some in H.
  destruct H as [Hin Hk]. split; [assumption | now apply String.eqb_eq].
Qed.

Lemma find_by_id_none (id : string) (rows : list R) :
  Prisma.find_by_id key id rows = None <-> ~ In id (map key rows).
Proof.
  unfold Prisma.find_by_id. split.
  - intros H Hin. apply in_map_iff in Hin. destruct Hin as (r & Hk & Hr).
    pose proof (find_none _ _ H r Hr) as Hf. simpl in Hf.
    rewrite Hk, String.eqb_refl in Hf. discriminate.
  - intros H. destruct (find _ rows) as [r|] eqn:E; [|reflexivity].
    apply find_some in E. destruct E as [Hin Hk].
    apply String.eqb_eq in Hk. destruct H. rewrite <- Hk. now apply in_map.
Qed.

Lemma has_id_true (id : string) (rows : list R) :
  Prisma.has_id key id rows = true <-> In id (map key rows).
Proof.
  unfold Prisma.has_id.
  destruct (Prisma.find_by_id key id rows) as [r|] eqn:E.
  - apply find_by_id_some in E. destruct E as [Hin <-].
    split; [intros _; now apply in_map | reflexivity].
  - apply find_by_id_none in E. split; [discriminate | contradiction].
Qed.

Lemma has_id_false (id : string) (rows : list R) :
  Prisma.has_id key id rows = false <-> ~ In id (map key rows).
Proof.
  rewrite <- has_id_true. destruct (Prisma.has_id key id rows);
    split; congruence.
Qed.

Lemma find_by_id_app_new (rows : list R) (r : R) :
  ~ In (key r) (map key rows) ->
  Prisma.find_by_id key (key r) (rows ++ [r]) = Some r.
Proof.
  unfold Prisma.find_by_id. intros Hfresh.
  induction rows as [|a rows IH]; simpl.
  - now rewrite String.eqb_refl.
  - destruct (String.eqb_spec (key a) (key r)) as [E|_].
    + destruct Hfresh. now left.
    + apply IH. intros Hin. apply Hfresh. now right.
Qed.

(** *** A rewritten row *)

Lemma in_rewrite_by_id (id : string) (r' x : R) (rows : list R) :
  In x (Prisma.rewrite_by_id key id r' rows) -> x = r' \/ In x rows.
Proof.
  unfold Prisma.rewrite_by_id. intros H. apply in_app_or in H.
  destruct H as [H | [<- | []]]; [|now left].
  apply filter_In in H. right. apply H.
Qed.

(** Rows under another id are neither added nor removed. *)
Lemma in_rewrite_by_id_other (id : string) (r' x : R) (rows : list R) :
  key r' = id -> key x <> id ->
  (In x (Prisma.rewrite_by_id key id r' rows) <-> In x rows).
Proof.
  intros Hk Hx. unfold Prisma.rewrite_by_id.
  rewrite in_app_iff, filter_In. split.
  - intros [[H _] | [<- | []]]; [assumption | contradiction].
  - intros H. left. split; [assumption|].
    apply negb_true_iff. now apply String.eqb_neq.
Qed.

Lemma in_rewrite_by_id_new (id : string) (r' : R) (rows : list R) :
  In r' (Prisma.rewrite_by_id key id r' rows).
Proof. unfold Prisma.rewrite_by_id. apply in_or_app. right. now left. Qed.

(** The ids of the table are the same ones. *)
Lemma ids_rewrite_by_id (id : string) (r' : R) (rows : list R) (k : string) :
  key r' = id -> In id (map key rows) ->
  (In k (map key (Prisma.rewrite_by_id key id r' rows)) <-> In k (map key rows)).
Proof.
  intros Hk Hid. rewrite !in_map_iff. split.
  - intros (x & <- & Hx). apply in_rewrite_by_id in Hx.
    destruct Hx as [-> | Hx].
    + rewrite Hk. now apply in_map_iff.
    + now exists x.
  - intros (x & <- & Hx). destruct (String.eqb_spec (key x) id) as [E|E].
    + exists r'. split; [congruence | apply in_rewrite_by_id_new].
    + exists x. split; [reflexivity|].
      now apply in_rewrite_by_id_other.
Qed.

Lemma map_filter_key (p : string -> bool) (rows : list R) :
  map key (filter (fun r => p (key r)) rows) = filter p (map key rows).
Proof.
  induction rows as [|a rows IH]; simpl; [reflexivity|].
  destruct (p (key a)); simpl; now rewrite IH.
Qed.

Lemma nodup_rewrite_by_id (id : string) (r' : R) (rows : list R) :
  key r' = id -> NoDup (map key rows) ->
  NoDup (map key (Prisma.rewrite_by_id key id r' rows)).
Proof.
  intros Hk Hnd. unfold Prisma.rewrite_by_id.
  rewrite map_app, (map_filter_key (fun k => negb (k =? id)%string)).
  simpl. rewrite Hk.
  apply NoDup_app.
  - now apply NoDup_filter.
  - constructor; [intros [] | constructor].
  - intros k Hin [<- | []]. apply filter_In in Hin.
    destruct Hin as [_ Hin]. now rewrite String.eqb_refl in Hin.
Qed.

Lemma find_rewrite_by_id (id : string) (r' : R) (rows : list R) :
  key r' = id ->
  Prisma.find_by_id key id (Prisma.rewrite_by_id key id r' rows) = Some r'.
Proof.
  unfold Prisma.find_by_id, Prisma.rewrite_by_id. intros Hk.
  induction rows as [|a rows IH]; simpl.
  - now rewrite Hk, String.eqb_refl.
  - destruct (String.eqb_spec (key a) id) as [E|Ne]; simpl; [exact IH|].
    destruct (String.eqb_spec (key a) id); [contradiction | exact IH].
Qed.

Lemma nodup_app_new (rows : list R) (r : R) :
  NoDup (map key rows) -> ~ In (key r) (map key rows) ->
  NoDup (map key (rows ++ [r])).
Proof.
  intros Hnd Hfresh. rewrite map_app. simpl.
  induction (map key rows) as [|k ks IH]; simpl.
  - constructor; [intros [] | constructor].
  - inversion Hnd as [|? ? Hk Hks]; subst. constructor.
    + intros Hin. apply in_app_or in Hin. destruct Hin as [Hin | [E | []]].
      * contradiction.
      * apply Hfresh. now left.
    + apply IH; [assumption|]. intros Hin. apply Hfresh. now right.
Qed.

End TableFacts.

Lemma guard_some (b : bool) (u : unit) : guard b = Some u -> b = true.
Proof. destruct b; [reflexivity | discriminate]. Qed.

Lemma string_required_inv (v : Js.value) (s : string) :
  Prisma.string_required v = Some s -> v = Js.Str s.
Proof. destruct v; simpl; congruence. Qed.

Lemma boolean_required_inv (v : Js.value) (b : bool) :
  Prisma.boolean_required v = Some b -> v = Js.Bool b.
Proof. destruct v; simpl; congruence. Qed.

Lemma reference_some {R : Type} (key : R -> string) (v : Js.value)
    (rows : list R) (s : string) :
  Prisma.reference key v rows = Some s ->
  v = Js.Str s /\ In s (map key rows).
Proof.
  unfold Prisma.reference. intros H. unbind H.
  injection H as <-.
  apply string_required_inv in E.
  apply guard_some in E0. split; [assumption | now apply has_id_true in E0].
Qed.

(** ** Columns *)

(** A conditionally spread key that carries no array and no object,
    once accepted by [update], leaves the column as [updated_*] says. *)

Lemma spread_string (old x : string) (v : Js.value) :
  Js.scalar v = true ->
  Prisma.set_required Prisma.string_required old (Js.spread_if v) = Some x ->
  x = updated_string old v.
Proof.
  unfold Js.spread_if.
  destruct v as [| |[|]|n|s|l|f]; simpl; try congruence.
  - destruct (Js.falsy_number n); simpl; congruence.
  - destruct (s =? "")%string; simpl; congruence.
Qed.

Lemma spread_nullable_string (old x : option string) (v : Js.value) :
  Js.scalar v = true ->
  Prisma.set_nullable Prisma.string_required old (Js.spread_if v) = Some x ->
  x = updated_nullable_string old v.
Proof.
  unfold Js.spread_if.
  destruct v as [| |[|]|n|s|l|f]; simpl; try congruence.
  - destruct (Js.falsy_number n); simpl; congruence.
  - destruct (s =? "")%string; simpl; congruence.
Qed.

Lemma spread_boolean (old x : bool) (v : Js.value) :
  Js.scalar v = true ->
  Prisma.set_required Prisma.boolean_required old (Js.spread_if v) = Some x ->
  x = updated_boolean old v.
Proof.
  unfold Js.spread_if.
  destruct v as [| |[|]|n|s|l|f]; simpl; try congruence.
  - destruct (Js.falsy_number n); simpl; congruence.
  - destruct (s =? "")%string; simpl; congruence.
Qed.

Lemma spread_nullable_boolean (old x : option bool) (v : Js.value) :
  Js.scalar v = true ->
  Prisma.set_nullable Prisma.boolean_required old (Js.spread_if v)
  = Some x ->
  x = updated_nullable_boolean old v.
Proof.
  unfold Js.spread_if.
  destruct v as [| |[|]|n|s|l|f]; simpl; try congruence.
  - destruct (Js.falsy_number n); simpl; congruence.
  - destruct (s =? "")%string; simpl; congruence.
Qed.

Lemma spread_float (old x : float) (v : Js.value) :
  Js.scalar v = true ->
  Prisma.set_float old (Js.spread_if v) = Some x ->
  x = updated_float old v.
Proof.
  unfold Js.spread_if.
  destruct v as [| |[|]|n|s|l|f]; simpl; try congruence.
  - destruct (Js.falsy_number n); simpl; [congruence|].
    destruct (is_finite n); congruence.
  - destruct (s =? "")%string; simpl; congruence.
Qed.

Lemma spread_nullable_float (old x : option float) (v : Js.value) :
  Js.scalar v = true ->
  Prisma.set_nullable_float old (Js.spread_if v) = Some x ->
  x = updated_nullable_float old v.
Proof.
  unfold Js.spread_if.
  destruct v as [| |[|]|n|s|l|f]; simpl; try congruence.
  - destruct (Js.falsy_number n); simpl; [congruence|].
    destruct (is_finite n); simpl; congruence.
  - destruct (s =? "")%string; simpl; congruence.
Qed.

Lemma spread_connect {R : Type} (key : R -> string) (old x : option string)
    (v : Js.value) (rows : list R) :
  Prisma.connect key old (Js.spread_if v) rows = Some x ->
  x = updated_reference old v /\
  (x = old \/ exists s, x = Some s /\ In s (map key rows)).
Proof.
  unfold Js.spread_if, Prisma.connect.
  destruct v as [| |[|]|n|s|l|f]; simpl;
    try (intros [= <-]; split; [reflexivity | now left]);
    try discriminate.
  - destruct (Js.falsy_number n); simpl; [|discriminate].
    intros [= <-]; split; [reflexivity | now left].
  - destruct (s =? "")%string; simpl.
    + intros [= <-]; split; [reflexivity | now left].
    + intros H. unbind H. injection H as <-.
      apply reference_some in E. destruct E as [[= <-] Hin].
      split; [reflexivity|]. right. now exists s.
Qed.

Lemma float_nullable_created (v : Js.value) (o : option float) :
  Prisma.float_nullable v = Some o -> o = created_nullable_float v.
Proof.
  destruct v as [| |b|n|s|l|f]; simpl; try congruence.
  destruct (is_finite n); simpl; congruence.
Qed.

Lemma string_nullable_created (v : Js.value) (o : option string) :
  Prisma.string_nullable v = Some o -> o = created_nullable_string v.
Proof. destruct v as [| |b|n|s|l|f]; simpl; congruence. Qed.

Lemma boolean_nullable_created (v : Js.value) (o : option bool) :
  Prisma.boolean_nullable None v = Some o -> o = created_nullable_boolean v.
Proof. destruct v as [| |b|n|s|l|f]; simpl; congruence. Qed.

(** ** The client calls, read backwards *)

Lemma category_create_some (sup : supply) (d : CategoryData.t)
    (db db' : database) (c : Category.t) :
  Prisma.category_create sup d db = Some (c, db') ->
  CategoryData.name d = Js.Str (Category.name c) /\
  CategoryData.image d = Js.Str (Category.image c) /\
  CategoryData.description d = Js.Str (Category.description c) /\
  CategoryData.taxApplicable d = Js.Bool (Category.taxApplicable c) /\
  Category.tax c = created_nullable_float (CategoryData.tax d) /\
  Category.taxType c = created_nullable_string (CategoryData.taxType d) /\
  Category.id c = uuid sup /\
  Category.createdAt c = now sup /\
  Category.updatedAt c = now sup /\
  ~ In (uuid sup) (map Category.id (categories db)) /\
  db' = Prisma.set_categories (categories db ++ [c]) db.
Proof.
  unfold Prisma.category_create. intros H. unbind H.
  injection H as <- <-. simpl.
  apply string_required_inv in E, E0, E1. apply boolean_required_inv in E2.
  apply float_nullable_created in E3. apply string_nullable_created in E4.
  apply guard_some, negb_true_iff, has_id_false in E5.
  repeat split; assumption.
Qed.

Lemma category_update_some (sup : supply) (id : string) (d : CategoryData.t)
    (db db' : database) (c : Category.t) :
  Prisma.category_update sup id d db = Some (c, db') ->
  exists old,
    Prisma.find_by_id Category.id id (categories db) = Some old /\
    Prisma.set_required Prisma.string_required (Category.name old)
      (CategoryData.name d) = Some (Category.name c) /\
    Prisma.set_required Prisma.string_required (Category.image old)
      (CategoryData.image d) = Some (Category.image c) /\
    Prisma.set_required Prisma.string_required (Category.description old)
      (CategoryData.description d) = Some (Category.description c) /\
    Prisma.set_required Prisma.boolean_required (Category.taxApplicable old)
      (CategoryData.taxApplicable d) = Some (Category.taxApplicable c) /\
    Prisma.set_nullable_float (Category.tax old)
      (CategoryData.tax d) = Some (Category.tax c) /\
    Prisma.set_nullable Prisma.string_required (Category.taxType old)
      (CategoryData.taxType d) = Some (Category.taxType c) /\
    Category.id c = id /\
    Category.createdAt c = Category.createdAt old /\
    subCategories db' = subCategories db /\
    items db' = items db /\
    written (CategoryData.is_empty d) (c = old) (Category.updatedAt c) sup
      (categories db) (categories db') Category.id id c.
Proof.
  unfold Prisma.category_update, written. intros H. unbind H.
  pose proof (find_by_id_some _ _ _ _ E) as [_ Hid].
  destruct (CategoryData.is_empty d) eqn:Hempty.
  - injection H as -> ->. exists c.
    unfold CategoryData.is_empty in Hempty.
    repeat (apply andb_prop in Hempty; destruct Hempty as [Hempty ?]).
    destruct (CategoryData.name d); try discriminate.
    destruct (CategoryData.image d); try discriminate.
    destruct (CategoryData.description d); try discriminate.
    destruct (CategoryData.taxApplicable d); try discriminate.
    destruct (CategoryData.tax d); try discriminate.
    destruct (CategoryData.taxType d); try discriminate.
    repeat split; try reflexivity; try assumption. left. now repeat split.
  - injection H as <- <-. simpl. eexists.
    repeat split; try eassumption; try reflexivity.
    right. now repeat split.
Qed.

Lemma subCategory_create_some (sup : supply) (d : SubCategoryData.t)
    (db db' : database) (s : SubCategory.t) :
  Prisma.subCategory_create sup d db = Some (s, db') ->
  SubCategoryData.name d = Js.Str (SubCategory.name s) /\
  SubCategoryData.image d = Js.Str (SubCategory.image s) /\
  SubCategoryData.description d = Js.Str (SubCategory.description s) /\
  Prisma.boolean_nullable (Some false) (SubCategoryData.taxApplicable d)
  = Some (SubCategory.taxApplicable s) /\
  SubCategory.tax s = created_nullable_float (SubCategoryData.tax d) /\
  SubCategoryData.categoryId d = Js.Str (SubCategory.categoryId s) /\
  In (SubCategory.categoryId s) (map Category.id (categories db)) /\
  SubCategory.id s = uuid sup /\
  SubCategory.createdAt s = now sup /\
  SubCategory.updatedAt s = now sup /\
  ~ In (uuid sup) (map SubCategory.id (subCategories db)) /\
  db' = Prisma.set_subCategories (subCategories db ++ [s]) db.
Proof.
  unfold Prisma.subCategory_create. intros H. unbind H.
  injection H as <- <-. simpl.
  apply string_required_inv in E, E0, E1.
  apply float_nullable_created in E3.
  apply reference_some in E4. destruct E4 as [E4 E4'].
  apply guard_some, negb_true_iff, has_id_false in E5.
  repeat split; assumption.
Qed.

Lemma subCategory_update_some (sup : supply) (id : string)
    (d : SubCategoryData.t) (db db' : database) (s : SubCategory.t) :
  SubCategoryData.categoryId d = Js.Undefined ->
  Prisma.subCategory_update sup id d db = Some (s, db') ->
  exists old,
    Prisma.find_by_id SubCategory.id id (subCategories db) = Some old /\
    Prisma.set_required Prisma.string_required (SubCategory.name old)
      (SubCategoryData.name d) = Some (SubCategory.name s) /\
    Prisma.set_required Prisma.string_required (SubCategory.image old)
      (SubCategoryData.image d) = Some (SubCategory.image s) /\
    Prisma.set_required Prisma.string_required (SubCategory.description old)
      (SubCategoryData.description d) = Some (SubCategory.description s) /\
    Prisma.set_nullable Prisma.boolean_required
      (SubCategory.taxApplicable old) (SubCategoryData.taxApplicable d)
    = Some (SubCategory.taxApplicable s) /\
    Prisma.set_nullable_float (SubCategory.tax old)
      (SubCategoryData.tax d) = Some (SubCategory.tax s) /\
    SubCategory.categoryId s = SubCategory.categoryId old /\
    SubCategory.id s = id /\
    SubCategory.createdAt s = SubCategory.createdAt old /\
    categories db' = categories db /\
    items db' = items db /\
    written (SubCategoryData.is_empty d) (s = old) (SubCategory.updatedAt s)
      sup (subCategories db) (subCategories db') SubCategory.id id s.
Proof.
  unfold Prisma.subCategory_update, written. intros Hc H.
  rewrite Hc in H. unbind H.
  pose proof (find_by_id_some _ _ _ _ E) as [_ Hid].
  destruct (SubCategoryData.is_empty d) eqn:Hempty.
  - injection H as -> ->. exists s.
    unfold SubCategoryData.is_empty in Hempty.
    repeat (apply andb_prop in Hempty; destruct Hempty as [Hempty ?]).
    destruct (SubCategoryData.name d); try discriminate.
    destruct (SubCategoryData.image d); try discriminate.
    destruct (SubCategoryData.description d); try discriminate.
    destruct (SubCategoryData.taxApplicable d); try discriminate.
    destruct (SubCategoryData.tax d); try discriminate.
    repeat split; try reflexivity; try assumption. left. now repeat split.
  - injection H as <- <-. simpl. eexists.
    repeat split; try eassumption; try reflexivity.
    right. now repeat split.
Qed.

Lemma item_create_some (sup : supply) (d : ItemData.t) (db db' : database)
    (i : Item.t) :
  Prisma.item_create sup d db = Some (i, db') ->
  ItemData.name d = Js.Str (Item.name i) /\
  ItemData.image d = Js.Str (Item.image i) /\
  ItemData.description d = Js.Str (Item.description i) /\
  Item.taxApplicable i = created_nullable_boolean (ItemData.taxApplicable d) /\
  Item.tax i = created_nullable_float (ItemData.tax d) /\
  Prisma.connect SubCategory.id None (ItemData.subCategory d)
    (subCategories db) = Some (Item.subCategoryId i) /\
  Prisma.connect Category.id None (ItemData.category d) (categories db)
  = Some (Item.categoryId i) /\
  Item.id i = uuid sup /\
  Item.createdAt i = now sup /\
  Item.updatedAt i = now sup /\
  ~ In (uuid sup) (map Item.id (items db)) /\
  db' = Prisma.set_items (items db ++ [i]) db.
Proof.
  unfold Prisma.item_create. intros H. unbind H.
  injection H as <- <-. simpl.
  apply string_required_inv in E, E0, E1.
  apply boolean_nullable_created in E2. apply float_nullable_created in E3.
  apply guard_some, negb_true_iff, has_id_false in E9.
  repeat split; assumption.
Qed.

Lemma item_update_some (sup : supply) (id : string) (d : ItemData.t)
    (db db' : database) (i : Item.t) :
  Js.is_undefined (ItemData.totalAmount d) = false ->
  Prisma.item_update sup id d db = Some (i, db') ->
  exists old,
    Prisma.find_by_id Item.id id (items db) = Some old /\
    Prisma.set_required Prisma.string_required (Item.name old)
      (ItemData.name d) = Some (Item.name i) /\
    Prisma.set_required Prisma.string_required (Item.image old)
      (ItemData.image d) = Some (Item.image i) /\
    Prisma.set_required Prisma.string_required (Item.description old)
      (ItemData.description d) = Some (Item.description i) /\
    Prisma.set_nullable Prisma.boolean_required
      (Item.taxApplicable old) (ItemData.taxApplicable d)
    = Some (Item.taxApplicable i) /\
    Prisma.set_nullable_float (Item.tax old)
      (ItemData.tax d) = Some (Item.tax i) /\
    Prisma.set_float (Item.baseAmount old)
      (ItemData.baseAmount d) = Some (Item.baseAmount i) /\
    Prisma.set_nullable_float (Item.discount old)
      (ItemData.discount d) = Some (Item.discount i) /\
    Prisma.connect SubCategory.id (Item.subCategoryId old)
      (ItemData.subCategory d) (subCategories db)
    = Some (Item.subCategoryId i) /\
    Prisma.connect Category.id (Item.categoryId old) (ItemData.category d)
      (categories db) = Some (Item.categoryId i) /\
    Item.id i = id /\
    Item.createdAt i = Item.createdAt old /\
    Item.updatedAt i = now sup /\
    db' = Prisma.set_items (Prisma.rewrite_by_id Item.id id i (items db)) db.
Proof.
  unfold Prisma.item_update. intros Hne H. unbind H.
  unfold ItemData.is_empty in H. rewrite Hne in H.
  rewrite !andb_false_r in H. simpl in H.
  injection H as <- <-. simpl. eexists. repeat split; eassumption.
Qed.

(** ** The two ways a writing handler ends

    Each handler that writes either refuses, leaving the database as it
    was, or makes exactly one [create] or [update] call that succeeds and
    answers with the row that call returned. *)

Ltac refuse := left; split; [reflexivity | simpl; constructor].

Lemma createCategory_cases (sup : supply) (body : CategoryBody.t)
    (db : database) :
  (fst (createCategory sup body db) = db /\
   refusal (snd (createCategory sup body db))) \/
  exists c db',
    Prisma.category_create sup
      (CategoryData.mk (CategoryBody.name body) (CategoryBody.image body)
         (CategoryBody.description body) (CategoryBody.taxApplicable body)
         (CategoryBody.tax body) (CategoryBody.taxType body)) db
    = Some (c, db') /\
    createCategory sup body db = (db', reply 201 (CategoryJson c)).
Proof.
  unfold createCategory.
  destruct (_ || _ || _ || _); [refuse|].
  destruct (_ && _); [refuse|].
  destruct (Prisma.category_create _ _ _) as [[c db']|]; [|refuse].
  right. now exists c, db'.
Qed.

Lemma editCategory_cases (sup : supply) (id : string) (body : CategoryBody.t)
    (db : database) :
  (fst (editCategory sup id body db) = db /\
   refusal (snd (editCategory sup id body db))) \/
  exists c db',
    Prisma.category_update sup id
      (CategoryData.mk
         (Js.spread_if (CategoryBody.name body))
         (Js.spread_if (CategoryBody.image body))
         (Js.spread_if (CategoryBody.description body))
         (Js.spread_if (CategoryBody.taxApplicable body))
         (Js.spread_if (CategoryBody.tax body))
         (Js.spread_if (CategoryBody.taxType body))) db
    = Some (c, db') /\
    editCategory sup id body db = (db', reply 200 (CategoryJson c)).
Proof.
  unfold editCategory.
  destruct (Js.neg (Js.Str id)); [refuse|].
  destruct (_ && _ && _ && _ && _ && _); [refuse|].
  destruct (_ && _); [refuse|].
  destruct (Prisma.findFirst_id _ _ _) as [old|]; [|refuse].
  destruct (Prisma.category_update _ _ _ _) as [[c db']|]; [|refuse].
  right. now exists c, db'.
Qed.

Lemma createSubCategory_cases (sup : supply) (body : SubCategoryBody.t)
    (db : database) :
  (fst (createSubCategory sup body db) = db /\
   refusal (snd (createSubCategory sup body db))) \/
  exists parent s db',
    Prisma.findUnique_id Category.id (SubCategoryBody.categoryId body)
      (categories db) = Some (Some parent) /\
    Prisma.subCategory_create sup
      (SubCategoryData.mk (SubCategoryBody.name body)
         (SubCategoryBody.image body) (SubCategoryBody.description body)
         (Js.oror (SubCategoryBody.taxApplicable body)
            (Js.of_bool (Category.taxApplicable parent)))
         (Js.oror (SubCategoryBody.tax body)
            (Js.of_nullable_float (Category.tax parent)))
         (SubCategoryBody.categoryId body)) db
    = Some (s, db') /\
    createSubCategory sup body db = (db', reply 200 (SubCategoryJson s)).
Proof.
  unfold createSubCategory.
  destruct (_ || _ || _ || _); [refuse|].
  destruct (Prisma.findUnique_id _ _ _) as [[parent|]|]; [|refuse|refuse].
  destruct (Prisma.subCategory_create _ _ _) as [[s db']|] eqn:E; [|refuse].
  right. now exists parent, s, db'.
Qed.

Lemma editSubCategory_cases (sup : supply) (id : string)
    (body : SubCategoryBody.t) (db : database) :
  (fst (editSubCategory sup id body db) = db /\
   refusal (snd (editSubCategory sup id body db))) \/
  exists s db',
    Prisma.subCategory_update sup id
      (SubCategoryData.mk
         (Js.spread_if (SubCategoryBody.name body))
         (Js.spread_if (SubCategoryBody.image body))
         (Js.spread_if (SubCategoryBody.description body))
         (Js.spread_if (SubCategoryBody.taxApplicable body))
         (Js.spread_if (SubCategoryBody.tax body))
         Js.Undefined) db
    = Some (s, db') /\
    editSubCategory sup id body db = (db', reply 200 (SubCategoryJson s)).
Proof.
  unfold editSubCategory.
  destruct (Js.neg (Js.Str id)); [refuse|].
  destruct (_ && _ && _ && _ && _); [refuse|].
  destruct (Prisma.findUnique_id _ _ _) as [[old|]|]; [|refuse|refuse].
  destruct (Prisma.subCategory_update _ _ _ _) as [[s db']|]; [|refuse].
  right. now exists s, db'.
Qed.

Lemma must_exist_cases {R : Type} (filter : Prisma.string_filter)
    (key : R -> string) (v : Js.value) (rows : list R) (db : database)
    (message : string) :
  (exists o, must_exist filter key v rows db message = Return (db, o) /\
             refusal o)
  \/ must_exist filter key v rows db message = Continue tt.
Proof.
  unfold must_exist. destruct (Js.truthy v); [|now right].
  destruct (Prisma.findFirst_where_id filter key v rows) as [[r|]|].
  - now right.
  - left. eexists. split; [reflexivity | constructor].
  - left. eexists. split; [reflexivity | constructor].
Qed.

Lemma createItem_cases (filter : Prisma.string_filter) (sup : supply)
    (body : ItemBody.t) (db : database) :
  (fst (createItem filter sup body db) = db /\
   refusal (snd (createItem filter sup body db))) \/
  exists difference i db',
    Js.sub (ItemBody.baseAmount body)
      (Js.oror (ItemBody.discount body) (Js.of_float 0)) = Some difference /\
    Prisma.item_create sup
      (ItemData.mk (ItemBody.name body) (ItemBody.image body)
         (ItemBody.description body) (ItemBody.taxApplicable body)
         (ItemBody.tax body) (ItemBody.baseAmount body)
         (Js.oror (ItemBody.discount body) (Js.of_float 0))
         difference
         (Js.spread_if (ItemBody.subCategory body))
         (Js.spread_if (ItemBody.category body))) db
    = Some (i, db') /\
    createItem_admitted body /\
    createItem filter sup body db = (db', reply 201 (ItemJson i)).
Proof.
  unfold createItem, return_if.
  destruct (_ || _ || _ || _ || _ || _) eqn:Hguard; [refuse|].
  assert (Hok : createItem_admitted body).
  { unfold createItem_admitted. unfold Js.neg in Hguard.
    destruct (Js.truthy (ItemBody.name body)),
      (Js.truthy (ItemBody.image body)),
      (Js.truthy (ItemBody.description body)),
      (Js.truthy (ItemBody.baseAmount body)),
      (Js.truthy (ItemBody.subCategory body)),
      (Js.truthy (ItemBody.category body)),
      (ItemBody.taxApplicable body);
      simpl in Hguard; try discriminate Hguard;
      intuition congruence. }
  simpl.
  destruct (must_exist_cases filter SubCategory.id (ItemBody.subCategory body)
              (subCategories db) db
              "SubCategory not found, unable to create item")
    as [(o & -> & Ho) | ->]; [left; simpl; now split|]. simpl.
  destruct (must_exist_cases filter Category.id (ItemBody.category body)
              (categories db) db
              "Category not found, unable to create item")
    as [(o & -> & Ho) | ->]; [left; simpl; now split|]. simpl.
  destruct (Js.sub _ _) as [difference|]; [|refuse]. simpl.
  destruct (Prisma.item_create _ _ _) as [[i db']|] eqn:E; [|refuse].
  right. exists difference, i, db'.
  split; [reflexivity|]. split; [exact E|]. now split.
Qed.

Lemma editItem_cases (filter : Prisma.string_filter) (sup : supply)
    (id : string) (body : ItemBody.t) (db : database) :
  (fst (editItem filter sup id body db) = db /\
   refusal (snd (editItem filter sup id body db))) \/
  exists itemExists difference i db',
    Prisma.find_by_id Item.id id (items db) = Some itemExists /\
    Js.sub (ItemBody.baseAmount body)
      (Js.oror (ItemBody.discount body) (Js.of_float 0)) = Some difference /\
    Prisma.item_update sup id
      (ItemData.mk
         (Js.spread_if (ItemBody.name body))
         (Js.spread_if (ItemBody.image body))
         (Js.spread_if (ItemBody.description body))
         (Js.spread_if (ItemBody.taxApplicable body))
         (Js.spread_if (ItemBody.tax body))
         (Js.spread_if (ItemBody.baseAmount body))
         (Js.spread_if (ItemBody.discount body))
         (Js.oror difference (Js.of_float (Item.totalAmount itemExists)))
         (Js.spread_if (ItemBody.subCategory body))
         (Js.spread_if (ItemBody.category body))) db
    = Some (i, db') /\
    editItem filter sup id body db = (db', reply 200 (ItemJson i)).
Proof.
  unfold editItem, return_if.
  destruct (Js.neg (Js.Str id)); [refuse|]. simpl.
  destruct (_ && _ && _ && _ && _ && _ && _ && _ && _); [refuse|]. simpl.
  destruct (_ && _); [refuse|]. simpl.
  destruct (Prisma.find_by_id Item.id id (items db)) as [old|] eqn:Hold;
    [|refuse]. simpl.
  destruct (must_exist_cases filter SubCategory.id (ItemBody.subCategory body)
              (subCategories db) db
              "SubCategory not found, unable to edit item")
    as [(o & -> & Ho) | ->]; [left; simpl; now split|]. simpl.
  destruct (must_exist_cases filter Category.id (ItemBody.category body)
              (categories db) db
              "Category not found, unable to edit item")
    as [(o & -> & Ho) | ->]; [left; simpl; now split|]. simpl.
  destruct (Js.sub _ _) as [difference|] eqn:D; [|refuse]. simpl.
  destruct (Prisma.item_update _ _ _ _) as [[i db']|] eqn:E; [|refuse].
  right. exists old, difference, i, db'.
  split; [reflexivity|]. split; [reflexivity|].
  split; [exact E | reflexivity].
Qed.

(** The total handed to [update] is always there. *)
Lemma total_defined (a b difference : Js.value) (total : float) :
  Js.sub a b = Some difference ->
  Js.is_undefined (Js.oror difference (Js.of_float total)) = false.
Proof.
  intros H. destruct (sub_number _ _ _ H) as [n ->].
  now rewrite oror_number.
Qed.

(* ================================================================== *)
(** ** Writes *)

Lemma unsuccessful_not_200 (b : json) : ~ unsuccessful (reply 200 b).
Proof. intros [H _]. now apply H. Qed.

Lemma unsuccessful_not_201 (b : json) : ~ unsuccessful (reply 201 b).
Proof. intros [_ H]. now apply H. Qed.

(** A request that is not answered 200 or 201 leaves every table as it
    was: each of the six writing handlers makes its single [create] or
    [update] call last, and answers 500 when that call throws. *)
Theorem refused_requests_write_nothing (filter : Prisma.string_filter)
    (sup : supply) (id : string)
    (category : CategoryBody.t) (subCategory : SubCategoryBody.t)
    (item : ItemBody.t) (db : database) :
  (unsuccessful (snd (createCategory sup category db)) ->
   fst (createCategory sup category db) = db) /\
  (unsuccessful (snd (editCategory sup id category db)) ->
   fst (editCategory sup id category db) = db) /\
  (unsuccessful (snd (createSubCategory sup subCategory db)) ->
   fst (createSubCategory sup subCategory db) = db) /\
  (unsuccessful (snd (editSubCategory sup id subCategory db)) ->
   fst (editSubCategory sup id subCategory db) = db) /\
  (unsuccessful (snd (createItem filter sup item db)) ->
   fst (createItem filter sup item db) = db) /\
  (unsuccessful (snd (editItem filter sup id item db)) ->
   fst (editItem filter sup id item db) = db).
Proof.
  split; [|split; [|split; [|split; [|split]]]]; intros Hu.
  - destruct (createCategory_cases sup category db)
      as [[H _] | (c & db' & _ & E)]; [exact H|].
    rewrite E in Hu. now apply unsuccessful_not_201 in Hu.
  - destruct (editCategory_cases sup id category db)
      as [[H _] | (c & db' & _ & E)]; [exact H|].
    rewrite E in Hu. now apply unsuccessful_not_200 in Hu.
  - destruct (createSubCategory_cases sup subCategory db)
      as [[H _] | (p & s & db' & _ & _ & E)]; [exact H|].
    rewrite E in Hu. now apply unsuccessful_not_200 in Hu.
  - destruct (editSubCategory_cases sup id subCategory db)
      as [[H _] | (s & db' & _ & E)]; [exact H|].
    rewrite E in Hu. now apply unsuccessful_not_200 in Hu.
  - destruct (createItem_cases filter sup item db)
      as [[H _] | (d & i & db' & _ & _ & _ & E)]; [exact H|].
    rewrite E in Hu. now apply unsuccessful_not_201 in Hu.
  - destruct (editItem_cases filter sup id item db)
      as [[H _] | (old & d & i & db' & _ & _ & _ & E)]; [exact H|].
    rewrite E in Hu. now apply unsuccessful_not_200 in Hu.
Qed.

Lemma refused_requests_write_nothing_witness :
  fst (createItem (fun _ => None) Sample.sup Sample.coffee_nowhere
         Sample.menu) = Sample.menu.
Proof.
  apply (refused_requests_write_nothing (fun _ => None) Sample.sup "i-1"
           Sample.tax_on Sample.iced Sample.coffee_nowhere Sample.menu).
  split; discriminate.
Defined.

(** *** Primary and foreign keys *)

Lemma database_ext (db db' : database) :
  categories db' = categories db ->
  subCategories db' = subCategories db ->
  items db' = items db ->
  db' = db.
Proof. destruct db, db'; simpl; congruence. Qed.

Lemma consistent_new_category (db : database) (c : Category.t) :
  consistent db ->
  ~ In (Category.id c) (map Category.id (categories db)) ->
  consistent (Prisma.set_categories (categories db ++ [c]) db).
Proof.
  intros [(Kc & Ks & Ki) (Rs & Rc & Ri)] Hfresh.
  split; [split; [|split]|split; [|split]]; simpl; try assumption.
  - now apply nodup_app_new.
  - intros s Hs. rewrite map_app. apply in_or_app. left. now apply Rs.
  - intros i k Hi Hk. rewrite map_app. apply in_or_app. left.
    now apply (Rc i).
Qed.

Lemma consistent_rewritten_category (db : database) (id : string)
    (old c : Category.t) :
  consistent db ->
  Prisma.find_by_id Category.id id (categories db) = Some old ->
  Category.id c = id ->
  consistent
    (Prisma.set_categories
       (Prisma.rewrite_by_id Category.id id c (categories db)) db).
Proof.
  intros [(Kc & Ks & Ki) (Rs & Rc & Ri)] Hold Hid.
  apply find_by_id_some in Hold. destruct Hold as [Hold Hk].
  assert (Hin : In id (map Category.id (categories db))).
  { rewrite <- Hk. now apply in_map. }
  split; [split; [|split]|split; [|split]]; simpl; try assumption.
  - now apply nodup_rewrite_by_id.
  - intros s Hs. apply ids_rewrite_by_id; [assumption.. |]. now apply Rs.
  - intros i k Hi Hk'. apply ids_rewrite_by_id; [assumption.. |].
    now apply (Rc i).
Qed.

Lemma consistent_new_subCategory (db : database) (s : SubCategory.t) :
  consistent db ->
  ~ In (SubCategory.id s) (map SubCategory.id (subCategories db)) ->
  In (SubCategory.categoryId s) (map Category.id (categories db)) ->
  consistent (Prisma.set_subCategories (subCategories db ++ [s]) db).
Proof.
  intros [(Kc & Ks & Ki) (Rs & Rc & Ri)] Hfresh Hparent.
  split; [split; [|split]|split; [|split]]; simpl; try assumption.
  - now apply nodup_app_new.
  - intros x Hx. apply in_app_or in Hx.
    destruct Hx as [Hx | [<- | []]]; [now apply Rs | assumption].
  - intros i k Hi Hk. rewrite map_app. apply in_or_app. left.
    now apply (Ri i).
Qed.

Lemma consistent_rewritten_subCategory (db : database) (id : string)
    (old s : SubCategory.t) :
  consistent db ->
  Prisma.find_by_id SubCategory.id id (subCategories db) = Some old ->
  SubCategory.id s = id ->
  SubCategory.categoryId s = SubCategory.categoryId old ->
  consistent
    (Prisma.set_subCategories
       (Prisma.rewrite_by_id SubCategory.id id s (subCategories db)) db).
Proof.
  intros [(Kc & Ks & Ki) (Rs & Rc & Ri)] Hold Hid Hparent.
  apply find_by_id_some in Hold. destruct Hold as [Hold Hk].
  assert (Hin : In id (map SubCategory.id (subCategories db))).
  { rewrite <- Hk. now apply in_map. }
  split; [split; [|split]|split; [|split]]; simpl; try assumption.
  - now apply nodup_rewrite_by_id.
  - intros x Hx. apply in_rewrite_by_id in Hx.
    destruct Hx as [-> | Hx]; [|now apply Rs].
    rewrite Hparent. now apply Rs.
  - intros i k Hi Hk'. apply ids_rewrite_by_id; [assumption.. |].
    now apply (Ri i).
Qed.

Lemma consistent_new_item (db : database) (i : Item.t) :
  consistent db ->
  ~ In (Item.id i) (map Item.id (items db)) ->
  (forall c, Item.categoryId i = Some c ->
             In c (map Category.id (categories db))) ->
  (forall s, Item.subCategoryId i = Some s ->
             In s (map SubCategory.id (subCategories db))) ->
  consistent (Prisma.set_items (items db ++ [i]) db).
Proof.
  intros [(Kc & Ks & Ki) (Rs & Rc & Ri)] Hfresh Hc Hs.
  split; [split; [|split]|split; [|split]]; simpl; try assumption.
  - now apply nodup_app_new.
  - intros x k Hx Hk. apply in_app_or in Hx.
    destruct Hx as [Hx | [<- | []]]; [now apply (Rc x) | now apply Hc].
  - intros x k Hx Hk. apply in_app_or in Hx.
    destruct Hx as [Hx | [<- | []]]; [now apply (Ri x) | now apply Hs].
Qed.

Lemma consistent_rewritten_item (db : database) (id : string)
    (old i : Item.t) :
  consistent db ->
  Prisma.find_by_id Item.id id (items db) = Some old ->
  Item.id i = id ->
  (Item.categoryId i = Item.categoryId old \/
   exists c, Item.categoryId i = Some c /\
             In c (map Category.id (categories db))) ->
  (Item.subCategoryId i = Item.subCategoryId old \/
   exists s, Item.subCategoryId i = Some s /\
             In s (map SubCategory.id (subCategories db))) ->
  consistent
    (Prisma.set_items (Prisma.rewrite_by_id Item.id id i (items db)) db).
Proof.
  intros [(Kc & Ks & Ki) (Rs & Rc & Ri)] Hold Hid Hc Hs.
  apply find_by_id_some in Hold. destruct Hold as [Hold _].
  split; [split; [|split]|split; [|split]]; simpl; try assumption.
  - now apply nodup_rewrite_by_id.
  - intros x k Hx Hk. apply in_rewrite_by_id in Hx.
    destruct Hx as [-> | Hx]; [|now apply (Rc x)].
    destruct Hc as [E | (c & E & Hin)].
    + apply (Rc old); [assumption | congruence].
    + congruence.
  - intros x k Hx Hk. apply in_rewrite_by_id in Hx.
    destruct Hx as [-> | Hx]; [|now apply (Ri x)].
    destruct Hs as [E | (s & E & Hin)].
    + apply (Ri old); [assumption | congruence].
    + congruence.
Qed.

(** The six writing handlers keep the keys of the schema: ids stay unique
    within each table, and every parent a subcategory or an item names is
    a row of the parent table. *)
Theorem writes_keep_consistency (filter : Prisma.string_filter)
    (sup : supply) (id : string)
    (category : CategoryBody.t) (subCategory : SubCategoryBody.t)
    (item : ItemBody.t) (db : database) :
  consistent db ->
  consistent (fst (createCategory sup category db)) /\
  consistent (fst (editCategory sup id category db)) /\
  consistent (fst (createSubCategory sup subCategory db)) /\
  consistent (fst (editSubCategory sup id subCategory db)) /\
  consistent (fst (createItem filter sup item db)) /\
  consistent (fst (editItem filter sup id item db)).
Proof.
  intros Hdb.
  split; [|split; [|split; [|split; [|split]]]].
  - destruct (createCategory_cases sup category db)
      as [[-> _] | (c & db' & Hc & ->)]; [exact Hdb|]. simpl.
    apply category_create_some in Hc.
    destruct Hc as (_ & _ & _ & _ & _ & _ & Hid & _ & _ & Hfresh & ->).
    apply consistent_new_category; [exact Hdb | now rewrite Hid].
  - destruct (editCategory_cases sup id category db)
      as [[-> _] | (c & db' & Hc & ->)]; [exact Hdb|]. simpl.
    apply category_update_some in Hc.
    destruct Hc as (old & Hold & _ & _ & _ & _ & _ & _ & Hid & _ & Hs & Hi
                    & [(_ & _ & Hrows) | (_ & _ & Hrows)]).
    + now rewrite (database_ext db db' Hrows Hs Hi).
    + replace db' with
        (Prisma.set_categories
           (Prisma.rewrite_by_id Category.id id c (categories db)) db)
        by (symmetry; now apply database_ext).
      now apply (consistent_rewritten_category db id old c).
  - destruct (createSubCategory_cases sup subCategory db)
      as [[-> _] | (p & s & db' & _ & Hs & ->)]; [exact Hdb|]. simpl.
    apply subCategory_create_some in Hs.
    destruct Hs as (_ & _ & _ & _ & _ & _ & Hp & Hid & _ & _ & Hfresh & ->).
    apply consistent_new_subCategory;
      [exact Hdb | now rewrite Hid | exact Hp].
  - destruct (editSubCategory_cases sup id subCategory db)
      as [[-> _] | (s & db' & Hs & ->)]; [exact Hdb|]. simpl.
    apply subCategory_update_some in Hs; [|reflexivity].
    destruct Hs as (old & Hold & _ & _ & _ & _ & _ & Hp & Hid & _ & Hc & Hi
                    & [(_ & _ & Hrows) | (_ & _ & Hrows)]).
    + now rewrite (database_ext db db' Hc Hrows Hi).
    + replace db' with
        (Prisma.set_subCategories
           (Prisma.rewrite_by_id SubCategory.id id s (subCategories db)) db)
        by (symmetry; now apply database_ext).
      now apply (consistent_rewritten_subCategory db id old s).
  - destruct (createItem_cases filter sup item db)
      as [[-> _] | (d & i & db' & _ & Hi & _ & ->)]; [exact Hdb|]. simpl.
    apply item_create_some in Hi.
    destruct Hi as (_ & _ & _ & _ & _ & Hs & Hc & Hid & _ & _ & Hfresh & ->).
    simpl in Hs, Hc.
    apply spread_connect in Hs, Hc.
    destruct Hs as [_ Hs]. destruct Hc as [_ Hc].
    apply consistent_new_item; [exact Hdb | now rewrite Hid | |].
    + intros c E. destruct Hc as [E' | (c' & E' & Hin)]; congruence.
    + intros s E. destruct Hs as [E' | (s' & E' & Hin)]; congruence.
  - destruct (editItem_cases filter sup id item db)
      as [[-> _] | (old & d & i & db' & Hold & Hd & Hi & ->)];
      [exact Hdb|]. simpl.
    apply item_update_some in Hi; [|exact (total_defined _ _ _ _ Hd)].
    destruct Hi as (old' & Hold' & _ & _ & _ & _ & _ & _ & _ & Hs & Hc
                    & Hid & _ & _ & ->).
    rewrite Hold in Hold'. injection Hold' as <-. simpl in Hs, Hc.
    apply spread_connect in Hs, Hc.
    destruct Hs as [_ Hs]. destruct Hc as [_ Hc].
    now apply (consistent_rewritten_item db id old i).
Qed.

Lemma writes_keep_consistency_witness :
  consistent (fst (createItem (fun _ => None) Sample.sup Sample.coffee
                     Sample.menu)).
Proof.
  apply (writes_keep_consistency (fun _ => None) Sample.sup "i-1"
           Sample.tax_on Sample.iced Sample.coffee Sample.menu).
  split; [split; [|split]|split; [|split]]; simpl.
  - constructor; [intros [] | constructor].
  - constructor; [intros [] | constructor].
  - constructor; [intros [] | constructor].
  - intros s [<- | []]. now left.
  - intros i c [<- | []] [= <-]. now left.
  - intros i s [<- | []]. discriminate.
Defined.

(* ================================================================== *)
(** ** What a successful write stores *)

(** [POST /category], answered 201: the body carried strings for [name],
    [image] and [description] and a boolean for [taxApplicable], and the
    new row holds exactly these, with [tax] and [taxType] as supplied and
    NULL where they were left out; the row is appended to the category
    table under the fresh id, and the other tables are untouched. *)
Theorem createCategory_stores_body (sup : supply) (body : CategoryBody.t)
    (db db' : database) (c : Category.t) :
  createCategory sup body db = (db', reply 201 (CategoryJson c)) ->
  CategoryBody.name body = Js.Str (Category.name c) /\
  CategoryBody.image body = Js.Str (Category.image c) /\
  CategoryBody.description body = Js.Str (Category.description c) /\
  CategoryBody.taxApplicable body = Js.Bool (Category.taxApplicable c) /\
  Category.tax c = created_nullable_float (CategoryBody.tax body) /\
  Category.taxType c = created_nullable_string (CategoryBody.taxType body) /\
  Category.id c = uuid sup /\
  Category.createdAt c = now sup /\
  Category.updatedAt c = now sup /\
  categories db' = categories db ++ [c] /\
  subCategories db' = subCategories db /\
  items db' = items db.
Proof.
  intros H.
  destruct (createCategory_cases sup body db)
    as [[_ Hr] | (c' & db'' & Hc & E)].
  - rewrite H in Hr. inversion Hr.
  - rewrite H in E. injection E as <- <-.
    apply category_create_some in Hc. simpl in Hc.
    destruct Hc as (? & ? & ? & ? & ? & ? & ? & ? & ? & _ & ->).
    repeat split; assumption.
Qed.

Lemma createCategory_stores_body_witness :
  exists c db',
    createCategory (mkSupply "c-2" 9) Sample.snacks Sample.menu
    = (db', reply 201 (CategoryJson c)) /\
    Category.tax c = None /\ Category.taxType c = Some "GST"%string.
Proof.
  destruct (createCategory (mkSupply "c-2" 9) Sample.snacks Sample.menu)
    as [db' o] eqn:E.
  vm_compute in E. injection E as <- <-.
  eexists. eexists. split; [reflexivity|].
  match goal with
  | |- Category.tax ?c = _ /\ _ =>
      destruct (createCategory_stores_body (mkSupply "c-2" 9) Sample.snacks
                  Sample.menu _ c eq_refl)
        as (_ & _ & _ & _ & Ht & Hty & _)
  end.
  split; [exact Ht | exact Hty].
Defined.

Lemma spread_if_undefined (v : Js.value) :
  Js.is_undefined (Js.spread_if v) = negb (Js.truthy v).
Proof.
  unfold Js.spread_if. destruct (Js.truthy v) eqn:E; [|reflexivity].
  destruct v; try reflexivity. discriminate E.
Qed.

Lemma category_data_empty (body : CategoryBody.t) :
  CategoryData.is_empty
    (CategoryData.mk
       (Js.spread_if (CategoryBody.name body))
       (Js.spread_if (CategoryBody.image body))
       (Js.spread_if (CategoryBody.description body))
       (Js.spread_if (CategoryBody.taxApplicable body))
       (Js.spread_if (CategoryBody.tax body))
       (Js.spread_if (CategoryBody.taxType body)))
  = negb (category_written body).
Proof.
  unfold CategoryData.is_empty, category_written. simpl.
  rewrite !spread_if_undefined, !negb_orb. reflexivity.
Qed.

Lemma subCategory_data_empty (body : SubCategoryBody.t) :
  SubCategoryData.is_empty
    (SubCategoryData.mk
       (Js.spread_if (SubCategoryBody.name body))
       (Js.spread_if (SubCategoryBody.image body))
       (Js.spread_if (SubCategoryBody.description body))
       (Js.spread_if (SubCategoryBody.taxApplicable body))
       (Js.spread_if (SubCategoryBody.tax body))
       Js.Undefined)
  = negb (subCategory_written body).
Proof.
  unfold SubCategoryData.is_empty, subCategory_written. simpl.
  rewrite !spread_if_undefined, !negb_orb, andb_true_r. reflexivity.
Qed.

(** What [written] says about the table, whichever way the update went:
    the returned row is the row under [id], the rows under other ids are
    the same ones, and [updatedAt] moved only if something was
    written. *)
Lemma written_table {R : Type} (key : R -> string) (stamp : R -> Z)
    (empty : bool) (sup : supply) (rows rows' : list R) (id : string)
    (old r : R) :
  Prisma.find_by_id key id rows = Some old ->
  key r = id ->
  written empty (r = old) (stamp r) sup rows rows' key id r ->
  stamp r = (if empty then stamp old else now sup) /\
  Prisma.find_by_id key id rows' = Some r /\
  (forall x, key x <> id -> (In x rows' <-> In x rows)).
Proof.
  intros Hold Hk [(-> & -> & ->) | (-> & Hs & ->)].
  - split; [reflexivity|]. split; [exact Hold | reflexivity].
  - split; [exact Hs|]. split.
    + now apply find_rewrite_by_id.
    + intros x Hx. now apply in_rewrite_by_id_other.
Qed.

(** [PUT /category/:id] with a body of strings, booleans, numbers and
    [null]s, answered 200: each column takes the supplied value when
    that value is truthy and keeps the stored one otherwise (so
    [taxApplicable] can be switched on but not off, and no column can be
    emptied); id and creation instant are kept; [updatedAt] moves to the
    current instant when some supplied value is truthy, and stays
    otherwise; the row is the one under [id] afterwards, the other rows
    and the other tables are untouched. *)
Theorem editCategory_stores (sup : supply) (id : string)
    (body : CategoryBody.t) (db db' : database) (c : Category.t) :
  scalar_category body ->
  editCategory sup id body db = (db', reply 200 (CategoryJson c)) ->
  exists old,
    Prisma.find_by_id Category.id id (categories db) = Some old /\
    Category.name c = updated_string (Category.name old)
                        (CategoryBody.name body) /\
    Category.image c = updated_string (Category.image old)
                         (CategoryBody.image body) /\
    Category.description c = updated_string (Category.description old)
                               (CategoryBody.description body) /\
    Category.taxApplicable c = updated_boolean (Category.taxApplicable old)
                                 (CategoryBody.taxApplicable body) /\
    Category.tax c = updated_nullable_float (Category.tax old)
                       (CategoryBody.tax body) /\
    Category.taxType c = updated_nullable_string (Category.taxType old)
                           (CategoryBody.taxType body) /\
    Category.id c = id /\
    Category.createdAt c = Category.createdAt old /\
    Category.updatedAt c
    = (if category_written body then now sup else Category.updatedAt old) /\
    Prisma.find_by_id Category.id id (categories db') = Some c /\
    (forall r, Category.id r <> id ->
               (In r (categories db') <-> In r (categories db))) /\
    subCategories db' = subCategories db /\
    items db' = items db.
Proof.
  intros (Sn & Si & Sd & Sa & St & Sty) H.
  destruct (editCategory_cases sup id body db)
    as [[_ Hr] | (c' & db'' & Hc & E)].
  - rewrite H in Hr. inversion Hr.
  - rewrite H in E. injection E as <- <-.
    apply category_update_some in Hc. rewrite category_data_empty in Hc.
    simpl in Hc.
    destruct Hc as (old & Hold & Hn & Hi & Hd & Ha & Ht & Hty & Hid & Hcr
                    & Hsub & Hit & Hw).
    apply spread_string in Hn, Hi, Hd; try assumption.
    apply spread_boolean in Ha; try assumption.
    apply spread_nullable_float in Ht; try assumption.
    apply spread_nullable_string in Hty; try assumption.
    apply (written_table Category.id Category.updatedAt) in Hw;
      try assumption.
    destruct Hw as (Hu & Hf & Hrest).
    rewrite Hu. destruct (category_written body); simpl.
    all: exists old; repeat split; try assumption; now apply Hrest.
Qed.

Lemma editCategory_stores_witness :
  exists c db',
    editCategory Sample.sup "c-1" Sample.rename_beverages Sample.menu
    = (db', reply 200 (CategoryJson c)) /\
    Category.name c = "Drinks"%string /\
    Category.tax c = Some 5%float /\
    Category.taxApplicable c = true /\
    Category.updatedAt c = 7.
Proof.
  edestruct (editCategory_stores Sample.sup "c-1" Sample.rename_beverages
               Sample.menu)
    as (old & Hold & Hn & _ & _ & Ha & Ht & _ & _ & _ & Hu & _);
    [repeat split | reflexivity |].
  vm_compute in Hold. injection Hold as <-.
  eexists. eexists. split; [reflexivity|].
  split; [exact Hn|]. split; [exact Ht|]. split; [exact Ha | exact Hu].
Defined.

Lemma oror_boolean_default (v : Js.value) (dflt : bool) (o : option bool) :
  Prisma.boolean_nullable (Some false) (Js.oror v (Js.of_bool dflt)) = Some o ->
  o = Some (updated_boolean dflt v).
Proof.
  unfold Js.oror, Js.of_bool.
  destruct v as [| |[|]|n|x|l|f]; simpl; try congruence.
  - destruct (Js.falsy_number n); simpl; congruence.
  - destruct (x =? "")%string; simpl; congruence.
Qed.

Lemma oror_float_default (v : Js.value) (dflt o : option float) :
  Prisma.float_nullable (Js.oror v (Js.of_nullable_float dflt)) = Some o ->
  o = updated_nullable_float dflt v.
Proof.
  unfold Js.oror.
  destruct v as [| |[|]|n|x|l|f]; simpl;
    try apply float_nullable_read_back; try congruence.
  - destruct (Js.falsy_number n); simpl;
      [apply float_nullable_read_back|].
    destruct (is_finite n); simpl; congruence.
  - destruct (x =? "")%string; simpl;
      [apply float_nullable_read_back | congruence].
Qed.

(** [POST /subcategory], answered 200: the parent named by [categoryId]
    was found, the new row holds the supplied [name], [image] and
    [description] and points to that parent; its [taxApplicable] and
    [tax] are the supplied values when these are truthy and the parent's
    otherwise. *)
Theorem createSubCategory_stores (sup : supply) (body : SubCategoryBody.t)
    (db db' : database) (s : SubCategory.t) :
  createSubCategory sup body db = (db', reply 200 (SubCategoryJson s)) ->
  exists parent,
    Prisma.find_by_id Category.id (SubCategory.categoryId s) (categories db)
    = Some parent /\
    SubCategoryBody.categoryId body = Js.Str (SubCategory.categoryId s) /\
    SubCategoryBody.name body = Js.Str (SubCategory.name s) /\
    SubCategoryBody.image body = Js.Str (SubCategory.image s) /\
    SubCategoryBody.description body = Js.Str (SubCategory.description s) /\
    SubCategory.taxApplicable s
    = Some (updated_boolean (Category.taxApplicable parent)
              (SubCategoryBody.taxApplicable body)) /\
    SubCategory.tax s = updated_nullable_float (Category.tax parent)
                          (SubCategoryBody.tax body) /\
    SubCategory.id s = uuid sup /\
    SubCategory.createdAt s = now sup /\
    SubCategory.updatedAt s = now sup /\
    subCategories db' = subCategories db ++ [s] /\
    categories db' = categories db /\
    items db' = items db.
Proof.
  intros H.
  destruct (createSubCategory_cases sup body db)
    as [[_ Hr] | (parent & s' & db'' & Hp & Hs & E)].
  - rewrite H in Hr. inversion Hr.
  - rewrite H in E. injection E as <- <-.
    pose proof (subCategory_create_inv _ _ _ _ _ Hs) as (Ha & Ht & _).
    simpl in Ha, Ht.
    apply oror_boolean_default in Ha. apply oror_float_default in Ht.
    apply subCategory_create_some in Hs. simpl in Hs.
    destruct Hs as (Hn & Hi & Hd & _ & _ & Hc & _ & ? & ? & ? & _ & ->).
    rewrite Hc in Hp. simpl in Hp. injection Hp as Hp.
    exists parent. simpl. repeat split; assumption.
Qed.

Lemma createSubCategory_stores_witness :
  exists s db',
    createSubCategory Sample.sup Sample.iced_taxed Sample.menu
    = (db', reply 200 (SubCategoryJson s)) /\
    SubCategory.taxApplicable s = Some true /\
    SubCategory.tax s = Some 12%float.
Proof.
  destruct (createSubCategory Sample.sup Sample.iced_taxed Sample.menu)
    as [db' o] eqn:E.
  vm_compute in E. injection E as <- <-.
  eexists. eexists. split; [reflexivity|].
  match goal with
  | |- SubCategory.taxApplicable ?s = _ /\ _ =>
      destruct (createSubCategory_stores Sample.sup Sample.iced_taxed
                  Sample.menu _ s eq_refl)
        as (parent & _ & _ & _ & _ & _ & Ha & Ht & _)
  end.
  split; [exact Ha | exact Ht].
Defined.

(** [PUT /subcategory/:id] with a body of strings, booleans, numbers
    and [null]s, answered 200: the columns are set one by one as for a
    category; the parent, the id and the creation instant are kept;
    [updatedAt] moves to the current instant when some supplied value is
    truthy, and stays otherwise; the row is the one under [id]
    afterwards, the other rows and the other tables are untouched. *)
Theorem editSubCategory_stores (sup : supply) (id : string)
    (body : SubCategoryBody.t) (db db' : database) (s : SubCategory.t) :
  scalar_subCategory body ->
  editSubCategory sup id body db = (db', reply 200 (SubCategoryJson s)) ->
  exists old,
    Prisma.find_by_id SubCategory.id id (subCategories db) = Some old /\
    SubCategory.name s = updated_string (SubCategory.name old)
                           (SubCategoryBody.name body) /\
    SubCategory.image s = updated_string (SubCategory.image old)
                            (SubCategoryBody.image body) /\
    SubCategory.description s
    = updated_string (SubCategory.description old)
        (SubCategoryBody.description body) /\
    SubCategory.taxApplicable s
    = updated_nullable_boolean (SubCategory.taxApplicable old)
        (SubCategoryBody.taxApplicable body) /\
    SubCategory.tax s = updated_nullable_float (SubCategory.tax old)
                          (SubCategoryBody.tax body) /\
    SubCategory.categoryId s = SubCategory.categoryId old /\
    SubCategory.id s = id /\
    SubCategory.createdAt s = SubCategory.createdAt old /\
    SubCategory.updatedAt s
    = (if subCategory_written body then now sup
       else SubCategory.updatedAt old) /\
    Prisma.find_by_id SubCategory.id id (subCategories db') = Some s /\
    (forall r, SubCategory.id r <> id ->
               (In r (subCategories db') <-> In r (subCategories db))) /\
    categories db' = categories db /\
    items db' = items db.
Proof.
  intros (Sn & Si & Sd & Sa & St) H.
  destruct (editSubCategory_cases sup id body db)
    as [[_ Hr] | (s' & db'' & Hs & E)].
  - rewrite H in Hr. inversion Hr.
  - rewrite H in E. injection E as <- <-.
    apply subCategory_update_some in Hs; [|reflexivity].
    rewrite subCategory_data_empty in Hs. simpl in Hs.
    destruct Hs as (old & Hold & Hn & Hi & Hd & Ha & Ht & Hp & Hid & Hcr
                    & Hcat & Hit & Hw).
    apply spread_string in Hn, Hi, Hd; try assumption.
    apply spread_nullable_boolean in Ha; try assumption.
    apply spread_nullable_float in Ht; try assumption.
    apply (written_table SubCategory.id SubCategory.updatedAt) in Hw;
      try assumption.
    destruct Hw as (Hu & Hf & Hrest).
    rewrite Hu. destruct (subCategory_written body); simpl.
    all: exists old; repeat split; try assumption; now apply Hrest.
Qed.

Lemma editSubCategory_stores_witness :
  exists s db',
    editSubCategory Sample.sup "s-1" Sample.warm_untaxed Sample.menu
    = (db', reply 200 (SubCategoryJson s)) /\
    SubCategory.name s = "Warm"%string /\
    SubCategory.categoryId s = "c-1"%string /\
    SubCategory.updatedAt s = 7.
Proof.
  edestruct (editSubCategory_stores Sample.sup "s-1" Sample.warm_untaxed
               Sample.menu)
    as (old & Hold & Hn & _ & _ & _ & _ & Hc & _ & _ & Hu & _);
    [repeat split | reflexivity |].
  vm_compute in Hold. injection Hold as <-.
  eexists. eexists. split; [reflexivity|].
  split; [exact Hn|]. split; [exact Hc | exact Hu].
Defined.

Lemma connect_truthy {R : Type} (key : R -> string) (old x : option string)
    (v : Js.value) (rows : list R) :
  Prisma.connect key old (Js.spread_if v) rows = Some x ->
  Js.truthy v = true ->
  exists s, v = Js.Str s /\ x = Some s.
Proof.
  intros H Ht. unfold Js.spread_if in H. rewrite Ht in H.
  unfold Prisma.connect in H.
  destruct v as [| |b|n|s|l|f]; try discriminate Ht; unbind H;
    apply reference_some in E; destruct E as [E _]; try discriminate E.
  injection H as <-. injection E as <-. now exists s.
Qed.

Lemma created_reference_spec (v : Js.value) :
  updated_reference None v = created_reference v.
Proof. reflexivity. Qed.

(** [POST /item], answered 201: the new row holds the supplied [name],
    [image], [description], [taxApplicable] and [tax]; it names the
    supplied subcategory and category, each of which is a row of its
    table, and it names at least one of them; the row is appended to the
    item table under the fresh id, and the other tables are untouched. *)
Theorem createItem_stores (filter : Prisma.string_filter) (sup : supply)
    (body : ItemBody.t) (db db' : database) (i : Item.t) :
  createItem filter sup body db = (db', reply 201 (ItemJson i)) ->
  ItemBody.name body = Js.Str (Item.name i) /\
  ItemBody.image body = Js.Str (Item.image i) /\
  ItemBody.description body = Js.Str (Item.description i) /\
  Item.taxApplicable i
  = created_nullable_boolean (ItemBody.taxApplicable body) /\
  Item.tax i = created_nullable_float (ItemBody.tax body) /\
  Item.subCategoryId i = created_reference (ItemBody.subCategory body) /\
  Item.categoryId i = created_reference (ItemBody.category body) /\
  (Item.subCategoryId i <> None \/ Item.categoryId i <> None) /\
  (forall s, Item.subCategoryId i = Some s ->
             In s (map SubCategory.id (subCategories db))) /\
  (forall c, Item.categoryId i = Some c ->
             In c (map Category.id (categories db))) /\
  Item.id i = uuid sup /\
  Item.createdAt i = now sup /\
  Item.updatedAt i = now sup /\
  items db' = items db ++ [i] /\
  categories db' = categories db /\
  subCategories db' = subCategories db.
Proof.
  intros H.
  destruct (createItem_cases filter sup body db)
    as [[_ Hr] | (d & i' & db'' & _ & Hi & Hok & E)].
  - rewrite H in Hr. inversion Hr.
  - rewrite H in E. injection E as <- <-.
    apply item_create_some in Hi. simpl in Hi.
    destruct Hi as (Hn & Him & Hd & Ha & Ht & Hs & Hc & ? & ? & ? & _ & ->).
    destruct Hok as (_ & _ & _ & _ & _ & Hparent).
    pose proof (spread_connect _ _ _ _ _ Hs) as [Hs1 Hs2].
    pose proof (spread_connect _ _ _ _ _ Hc) as [Hc1 Hc2].
    simpl. repeat split; try assumption.
    + destruct Hparent as [Hp | Hp].
      * left. destruct (connect_truthy _ _ _ _ _ Hs Hp) as (s & _ & ->).
        discriminate.
      * right. destruct (connect_truthy _ _ _ _ _ Hc Hp) as (c & _ & ->).
        discriminate.
    + intros s E. destruct Hs2 as [E' | (s' & E' & Hin)]; congruence.
    + intros c E. destruct Hc2 as [E' | (c' & E' & Hin)]; congruence.
Qed.

Lemma createItem_stores_witness :
  exists i db',
    createItem (fun _ => None) Sample.sup Sample.espresso Sample.menu
    = (db', reply 201 (ItemJson i)) /\
    Item.subCategoryId i = Some "s-1"%string /\
    Item.categoryId i = None.
Proof.
  destruct (createItem (fun _ => None) Sample.sup Sample.espresso
              Sample.menu) as [db' o] eqn:E.
  vm_compute in E. injection E as <- <-.
  eexists. eexists. split; [reflexivity|].
  match goal with
  | |- Item.subCategoryId ?i = _ /\ _ =>
      destruct (createItem_stores (fun _ => None) Sample.sup
                  Sample.espresso Sample.menu _ i eq_refl)
        as (_ & _ & _ & _ & _ & Hs & Hc & _)
  end.
  split; [exact Hs | exact Hc].
Defined.

(** [PUT /item/:id] with strings, booleans, numbers and [null]s for the
    columns, answered 200: each of [name], [image], [description],
    [taxApplicable], [tax], [baseAmount] and [discount] takes the
    supplied value when that value is truthy and keeps the stored one
    otherwise; a supplied parent replaces the stored one and the other
    parent is kept; id and creation instant are kept and [updatedAt]
    moves to the current instant; the row is the one under [id]
    afterwards, the other rows and the other tables are untouched. *)
Theorem editItem_stores (filter : Prisma.string_filter) (sup : supply)
    (id : string) (body : ItemBody.t) (db db' : database) (i : Item.t) :
  scalar_item body ->
  editItem filter sup id body db = (db', reply 200 (ItemJson i)) ->
  exists old,
    Prisma.find_by_id Item.id id (items db) = Some old /\
    Item.name i = updated_string (Item.name old) (ItemBody.name body) /\
    Item.image i = updated_string (Item.image old) (ItemBody.image body) /\
    Item.description i = updated_string (Item.description old)
                           (ItemBody.description body) /\
    Item.taxApplicable i
    = updated_nullable_boolean (Item.taxApplicable old)
        (ItemBody.taxApplicable body) /\
    Item.tax i = updated_nullable_float (Item.tax old) (ItemBody.tax body) /\
    Item.baseAmount i = updated_float (Item.baseAmount old)
                          (ItemBody.baseAmount body) /\
    Item.discount i = updated_nullable_float (Item.discount old)
                        (ItemBody.discount body) /\
    Item.subCategoryId i = updated_reference (Item.subCategoryId old)
                             (ItemBody.subCategory body) /\
    Item.categoryId i = updated_reference (Item.categoryId old)
                          (ItemBody.category body) /\
    Item.id i = id /\
    Item.createdAt i = Item.createdAt old /\
    Item.updatedAt i = now sup /\
    Prisma.find_by_id Item.id id (items db') = Some i /\
    (forall r, Item.id r <> id -> (In r (items db') <-> In r (items db))) /\
    categories db' = categories db /\
    subCategories db' = subCategories db.
Proof.
  intros (Sn & Si & Sd & Sa & St & Sb & Sdi) H.
  destruct (editItem_cases filter sup id body db)
    as [[_ Hr] | (old & d & i' & db'' & Hold & Hdiff & Hi & E)].
  - rewrite H in Hr. inversion Hr.
  - rewrite H in E. injection E as <- <-.
    apply item_update_some in Hi; [|exact (total_defined _ _ _ _ Hdiff)].
    simpl in Hi.
    destruct Hi as (old' & Hold' & Hn & Him & Hd & Ha & Ht & Hb & Hdi & Hs
                    & Hc & Hid & ? & ? & ->).
    rewrite Hold in Hold'. injection Hold' as <-.
    apply spread_string in Hn, Him, Hd; try assumption.
    apply spread_nullable_boolean in Ha; try assumption.
    apply spread_nullable_float in Ht, Hdi; try assumption.
    apply spread_float in Hb; try assumption.
    apply spread_connect in Hs, Hc.
    destruct Hs as [Hs _]. destruct Hc as [Hc _].
    exists old. simpl. repeat split; try assumption.
    + now apply find_rewrite_by_id.
    + now apply in_rewrite_by_id_other.
    + now apply in_rewrite_by_id_other.
Qed.

Lemma editItem_stores_witness :
  exists i db',
    editItem (fun _ => None) Sample.sup "i-1" Sample.move_to_hot Sample.menu
    = (db', reply 200 (ItemJson i)) /\
    Item.name i = "Black Tea"%string /\
    Item.subCategoryId i = Some "s-1"%string /\
    Item.categoryId i = Some "c-1"%string.
Proof.
  edestruct (editItem_stores (fun _ => None) Sample.sup "i-1"
               Sample.move_to_hot Sample.menu)
    as (old & Hold & Hn & _ & _ & _ & _ & _ & _ & Hs & Hc & _);
    [repeat split | reflexivity |].
  vm_compute in Hold. injection Hold as <-.
  eexists. eexists. split; [reflexivity|].
  split; [exact Hn|]. split; [exact Hs | exact Hc].
Defined.

(* ================================================================== *)
(** ** Refusals *)

(** [POST /category] is answered 400 "All fields are required" when
    [name], [image] or [description] is absent or falsy or
    [taxApplicable] is absent, and 400 "Tax or TaxType is required" when
    these are in order, [taxApplicable] is [true] and neither [tax] nor
    [taxType] carries a truthy value; nothing is written. *)
Theorem createCategory_validation (sup : supply) (body : CategoryBody.t)
    (db : database) :
  (Js.truthy (CategoryBody.name body) = false \/
   Js.truthy (CategoryBody.image body) = false \/
   Js.truthy (CategoryBody.description body) = false \/
   CategoryBody.taxApplicable body = Js.Undefined ->
   createCategory sup body db = (db, fail 400 "All fields are required")) /\
  (Js.truthy (CategoryBody.name body) = true ->
   Js.truthy (CategoryBody.image body) = true ->
   Js.truthy (CategoryBody.description body) = true ->
   CategoryBody.taxApplicable body = Js.Bool true ->
   Js.truthy (CategoryBody.tax body) = false ->
   Js.truthy (CategoryBody.taxType body) = false ->
   createCategory sup body db = (db, fail 400 "Tax or TaxType is required")).
Proof.
  unfold createCategory, Js.neg. split.
  - intros H.
    destruct (Js.truthy (CategoryBody.name body)),
      (Js.truthy (CategoryBody.image body)),
      (Js.truthy (CategoryBody.description body)),
      (CategoryBody.taxApplicable body); simpl; try reflexivity;
      exfalso; intuition congruence.
  - intros -> -> -> -> -> ->. reflexivity.
Qed.

Lemma createCategory_validation_witness :
  createCategory Sample.sup Sample.tax_on Sample.menu
  = (Sample.menu, fail 400 "All fields are required").
Proof.
  apply (createCategory_validation Sample.sup Sample.tax_on Sample.menu).
  left. reflexivity.
Defined.

(** [POST /subcategory] is answered 400 when [name], [image],
    [description] or [categoryId] is absent or falsy, and 404 when these
    are in order and [categoryId] names no category; nothing is
    written. *)
Theorem createSubCategory_validation (sup : supply)
    (body : SubCategoryBody.t) (db : database) :
  (Js.truthy (SubCategoryBody.name body) = false \/
   Js.truthy (SubCategoryBody.image body) = false \/
   Js.truthy (SubCategoryBody.description body) = false \/
   Js.truthy (SubCategoryBody.categoryId body) = false ->
   createSubCategory sup body db
   = (db, fail 400 "All fields are required")) /\
  (Js.truthy (SubCategoryBody.name body) = true ->
   Js.truthy (SubCategoryBody.image body) = true ->
   Js.truthy (SubCategoryBody.description body) = true ->
   unresolved Category.id (SubCategoryBody.categoryId body) (categories db) ->
   createSubCategory sup body db
   = (db, fail 404 "Category not found, unable to create subcategory")).
Proof.
  unfold createSubCategory, Js.neg. split.
  - intros H.
    destruct (Js.truthy (SubCategoryBody.name body)),
      (Js.truthy (SubCategoryBody.image body)),
      (Js.truthy (SubCategoryBody.description body)),
      (Js.truthy (SubCategoryBody.categoryId body)); simpl; try reflexivity;
      exfalso; intuition congruence.
  - intros -> -> -> (s & -> & Hs & Hfind). simpl.
    destruct (String.eqb_spec s ""); [contradiction|]. simpl.
    now rewrite Hfind.
Qed.

Lemma createSubCategory_validation_witness :
  createSubCategory Sample.sup Sample.iced_nowhere Sample.menu
  = (Sample.menu,
     fail 404 "Category not found, unable to create subcategory").
Proof.
  apply (createSubCategory_validation Sample.sup Sample.iced_nowhere
           Sample.menu); try reflexivity.
  exists "c-9"%string.
  split; [reflexivity|]. split; [discriminate | reflexivity].
Defined.

(** [PUT /item/:id] with [taxApplicable: true] and no truthy [tax] is
    answered 400 "Tax is required", whatever else the body carries and
    whether or not the item exists; nothing is written. *)
Theorem editItem_tax_required (filter : Prisma.string_filter) (sup : supply)
    (id : string) (body : ItemBody.t) (db : database) :
  id <> ""%string ->
  ItemBody.taxApplicable body = Js.Bool true ->
  Js.truthy (ItemBody.tax body) = false ->
  editItem filter sup id body db = (db, fail 400 "Tax is required").
Proof.
  intros Hid Hta Htax. unfold editItem, return_if.
  assert (Hn : Js.neg (ItemBody.tax body) = true)
    by (unfold Js.neg; now rewrite Htax).
  rewrite (string_nonempty id Hid), Hta, Hn.
  replace (Js.neg (Js.Bool true)) with false by reflexivity.
  rewrite andb_false_r. reflexivity.
Qed.

Lemma editItem_tax_required_witness :
  editItem (fun _ => None) Sample.sup "i-1" Sample.item_tax_on Sample.menu
  = (Sample.menu, fail 400 "Tax is required").
Proof.
  apply editItem_tax_required; [discriminate | reflexivity | reflexivity].
Defined.

(** An update addressed to an id that no row carries is never carried
    out: each of the three [PUT] handlers answers 400 or 404 and writes
    nothing. *)
Theorem edit_unknown_id (filter : Prisma.string_filter) (sup : supply)
    (id : string) (category : CategoryBody.t) (subCategory : SubCategoryBody.t)
    (item : ItemBody.t) (db : database) :
  (~ In id (map Category.id (categories db)) ->
   exists message,
     editCategory sup id category db = (db, fail 400 message) \/
     editCategory sup id category db = (db, fail 404 message)) /\
  (~ In id (map SubCategory.id (subCategories db)) ->
   exists message,
     editSubCategory sup id subCategory db = (db, fail 400 message) \/
     editSubCategory sup id subCategory db = (db, fail 404 message)) /\
  (~ In id (map Item.id (items db)) ->
   exists message,
     editItem filter sup id item db = (db, fail 400 message) \/
     editItem filter sup id item db = (db, fail 404 message)).
Proof.
  split; [|split]; intros Hnone; apply find_by_id_none in Hnone.
  - unfold editCategory.
    destruct (Js.neg (Js.Str id)); [eexists; left; reflexivity|].
    destruct (_ && _ && _ && _ && _ && _); [eexists; left; reflexivity|].
    destruct (_ && _); [eexists; left; reflexivity|].
    simpl. rewrite Hnone. eexists; right; reflexivity.
  - unfold editSubCategory.
    destruct (Js.neg (Js.Str id)); [eexists; left; reflexivity|].
    destruct (_ && _ && _ && _ && _); [eexists; left; reflexivity|].
    simpl. rewrite Hnone. eexists; right; reflexivity.
  - unfold editItem, return_if.
    destruct (Js.neg (Js.Str id)); [eexists; left; reflexivity|]. simpl.
    destruct (_ && _ && _ && _ && _ && _ && _ && _ && _);
      [eexists; left; reflexivity|]. simpl.
    destruct (_ && _); [eexists; left; reflexivity|]. simpl.
    rewrite Hnone. eexists; right; reflexivity.
Qed.

Lemma edit_unknown_id_witness :
  exists message,
    editItem (fun _ => None) Sample.sup "i-9" Sample.discount_30
      Sample.menu
    = (Sample.menu, fail 400 message) \/
    editItem (fun _ => None) Sample.sup "i-9" Sample.discount_30
      Sample.menu
    = (Sample.menu, fail 404 message).
Proof.
  apply (edit_unknown_id (fun _ => None) Sample.sup "i-9" Sample.tax_on
           Sample.iced Sample.discount_30 Sample.menu).
  simpl. intros [H | []]. discriminate H.
Defined.

(** [PUT /item/:id] on an existing item, with the tax check passed: a
    supplied subcategory id that names no row is answered 404, and so is
    a supplied category id that names no row once the subcategory id is
    left out or resolves; nothing is written. *)
Theorem editItem_unresolved_parent (filter : Prisma.string_filter)
    (sup : supply) (id : string) (body : ItemBody.t) (db : database)
    (itemExists : Item.t) :
  id <> ""%string ->
  Prisma.find_by_id Item.id id (items db) = Some itemExists ->
  Js.is_true (ItemBody.taxApplicable body) && Js.neg (ItemBody.tax body)
  = false ->
  (unresolved SubCategory.id (ItemBody.subCategory body) (subCategories db) ->
   editItem filter sup id body db
   = (db, fail 404 "SubCategory not found, unable to edit item")) /\
  (resolved_or_absent SubCategory.id (ItemBody.subCategory body)
     (subCategories db) ->
   unresolved Category.id (ItemBody.category body) (categories db) ->
   editItem filter sup id body db
   = (db, fail 404 "Category not found, unable to edit item")).
Proof.
  intros Hid Hold Htax.
  assert (Hneg : forall (R : Type) (key : R -> string) v rows,
             unresolved key v rows -> Js.neg v = false).
  { intros R key v rows (s & -> & Hs & _). now apply string_nonempty. }
  split.
  - intros Hsub. unfold editItem, return_if.
    rewrite (string_nonempty id Hid), Htax, (Hneg _ _ _ _ Hsub).
    rewrite andb_false_r. simpl. rewrite Hold. simpl.
    now rewrite (must_exist_unresolved _ _ _ _ _ _ Hsub).
  - intros Hsub Hcat. unfold editItem, return_if.
    rewrite (string_nonempty id Hid), Htax, (Hneg _ _ _ _ Hcat).
    rewrite andb_false_r. simpl. rewrite Hold. simpl.
    rewrite (must_exist_resolved _ _ _ _ _ _ Hsub). simpl.
    now rewrite (must_exist_unresolved _ _ _ _ _ _ Hcat).
Qed.

Lemma editItem_unresolved_parent_witness :
  editItem (fun _ => None) Sample.sup "i-1" Sample.move_to_nowhere
    Sample.menu
  = (Sample.menu, fail 404 "Category not found, unable to edit item").
Proof.
  apply (editItem_unresolved_parent (fun _ => None) Sample.sup "i-1"
           Sample.move_to_nowhere Sample.menu Sample.tea); try reflexivity.
  - discriminate.
  - left. reflexivity.
  - exists "c-9"%string.
    split; [reflexivity|]. split; [discriminate | reflexivity].
Defined.

(* ================================================================== *)
(** ** Reads *)

Lemma no_parameter_neg (q : option string) :
  no_parameter q -> Js.neg (Js.of_optional_string q) = true.
Proof. intros [-> | ->]; reflexivity. Qed.

(** A lookup with neither [id] nor [name] in the query, or with both
    empty, is answered 400 "Id or name is required"; a search with no
    [name], or an empty one, is answered 400 "Name is required". *)
Theorem missing_parameters_400 (id name : option string) (db : database) :
  no_parameter id -> no_parameter name ->
  getCategory id name db = fail 400 "Id or name is required" /\
  getSubCategory id name db = fail 400 "Id or name is required" /\
  getItem id name db = fail 400 "Id or name is required" /\
  searchItem name db = fail 400 "Name is required".
Proof.
  intros Hid Hname.
  apply no_parameter_neg in Hid, Hname.
  unfold getCategory, getSubCategory, getItem, searchItem.
  rewrite Hid, Hname. repeat split.
Qed.

Lemma missing_parameters_400_witness :
  getItem (Some ""%string) None Sample.menu
  = fail 400 "Id or name is required" /\
  searchItem None Sample.menu = fail 400 "Name is required".
Proof.
  destruct (missing_parameters_400 (Some ""%string) None Sample.menu)
    as (_ & _ & H1 & H2); [now right | now left |].
  split; [exact H1 | exact H2].
Defined.

Lemma first_or_404_by_id {A : Type} (wrap : A -> json) (key : A -> string)
    (id message : string) (rows : list A) :
  (forall x, first_match (fun y => key y = id) rows x ->
             match Prisma.find_by_id key id rows with
             | Some y => reply 200 (wrap y)
             | None => fail 404 message
             end = reply 200 (wrap x)) /\
  (~ In id (map key rows) ->
   match Prisma.find_by_id key id rows with
   | Some y => reply 200 (wrap y)
   | None => fail 404 message
   end = fail 404 message).
Proof.
  split.
  - intros x Hx.
    apply (find_first_match (fun r => (key r =? id)%string)
             (fun y => key y = id)) in Hx;
      [|intros y; apply String.eqb_eq].
    unfold Prisma.find_by_id. now rewrite Hx.
  - intros Hnone. apply find_by_id_none in Hnone. now rewrite Hnone.
Qed.

(** A lookup with a non-empty [id] goes by id, whatever [name] the query
    also carries: it is answered 200 with the first row under that id,
    and 404 when no row carries it. *)
Theorem lookup_by_id (id : string) (name : option string) (db : database) :
  id <> ""%string ->
  ((forall c, first_match (fun y => Category.id y = id) (categories db) c ->
              getCategory (Some id) name db = reply 200 (CategoryJson c)) /\
   (~ In id (map Category.id (categories db)) ->
    getCategory (Some id) name db = fail 404 "Category not found")) /\
  ((forall s, first_match (fun y => SubCategory.id y = id)
                (subCategories db) s ->
              getSubCategory (Some id) name db
              = reply 200 (SubCategoryJson s)) /\
   (~ In id (map SubCategory.id (subCategories db)) ->
    getSubCategory (Some id) name db = fail 404 "SubCategory not found")) /\
  ((forall i, first_match (fun y => Item.id y = id) (items db) i ->
              getItem (Some id) name db = reply 200 (ItemJson i)) /\
   (~ In id (map Item.id (items db)) ->
    getItem (Some id) name db = fail 404 "item not found")).
Proof.
  intros Hid. pose proof (string_nonempty id Hid) as Hneg.
  assert (Ht : Js.truthy (Js.Str id) = true).
  { unfold Js.neg in Hneg. now apply negb_false_iff in Hneg. }
  split; [|split].
  - pose proof (first_or_404_by_id CategoryJson Category.id id
                  "Category not found" (categories db)) as H.
    unfold getCategory. cbn [Js.of_optional_string].
    rewrite Hneg, Ht. simpl.
    destruct (Prisma.find_by_id Category.id id (categories db)); exact H.
  - pose proof (first_or_404_by_id SubCategoryJson SubCategory.id id
                  "SubCategory not found" (subCategories db)) as H.
    unfold getSubCategory. cbn [Js.of_optional_string].
    rewrite Hneg, Ht. simpl.
    destruct (Prisma.find_by_id SubCategory.id id (subCategories db));
      exact H.
  - pose proof (first_or_404_by_id ItemJson Item.id id
                  "item not found" (items db)) as H.
    unfold getItem. cbn [Js.of_optional_string].
    rewrite Hneg, Ht. simpl.
    destruct (Prisma.find_by_id Item.id id (items db)); exact H.
Qed.

Lemma lookup_by_id_witness :
  getItem (Some "i-1"%string) (Some "coffee"%string) Sample.menu
  = reply 200 (ItemJson Sample.tea) /\
  getCategory (Some "c-9"%string) (Some "bev"%string) Sample.menu
  = fail 404 "Category not found".
Proof.
  split.
  - destruct (lookup_by_id "i-1" (Some "coffee"%string) Sample.menu)
      as (_ & _ & [H _]); [discriminate|].
    apply H. exists [], []. repeat split. intros y [].
  - destruct (lookup_by_id "c-9" (Some "bev"%string) Sample.menu)
      as ([_ H] & _); [discriminate|].
    apply H. simpl. intros [E | []]. discriminate E.
Defined.

(* ================================================================== *)
(** ** A write followed by a read *)

Lemma neg_str_false (id : string) :
  Js.neg (Js.Str id) = false <-> id <> ""%string.
Proof.
  unfold Js.neg. simpl. destruct (String.eqb_spec id ""); simpl;
    split; congruence.
Qed.

Lemma getCategory_found (id : string) (name : option string) (db : database)
    (c : Category.t) :
  id <> ""%string ->
  Prisma.find_by_id Category.id id (categories db) = Some c ->
  getCategory (Some id) name db = reply 200 (CategoryJson c).
Proof.
  intros Hid Hfind. unfold getCategory. cbn [Js.of_optional_string].
  pose proof (proj2 (neg_str_false id) Hid) as Hneg. rewrite Hneg.
  unfold Js.neg in Hneg. apply negb_false_iff in Hneg. rewrite Hneg.
  simpl. now rewrite Hfind.
Qed.

Lemma getSubCategory_found (id : string) (name : option string)
    (db : database) (s : SubCategory.t) :
  id <> ""%string ->
  Prisma.find_by_id SubCategory.id id (subCategories db) = Some s ->
  getSubCategory (Some id) name db = reply 200 (SubCategoryJson s).
Proof.
  intros Hid Hfind. unfold getSubCategory. cbn [Js.of_optional_string].
  pose proof (proj2 (neg_str_false id) Hid) as Hneg. rewrite Hneg.
  unfold Js.neg in Hneg. apply negb_false_iff in Hneg. rewrite Hneg.
  simpl. now rewrite Hfind.
Qed.

Lemma getItem_found (id : string) (name : option string) (db : database)
    (i : Item.t) :
  id <> ""%string ->
  Prisma.find_by_id Item.id id (items db) = Some i ->
  getItem (Some id) name db = reply 200 (ItemJson i).
Proof.
  intros Hid Hfind. unfold getItem. cbn [Js.of_optional_string].
  pose proof (proj2 (neg_str_false id) Hid) as Hneg. rewrite Hneg.
  unfold Js.neg in Hneg. apply negb_false_iff in Hneg. rewrite Hneg.
  simpl. now rewrite Hfind.
Qed.

Lemma editCategory_200_id (sup : supply) (id : string) (body : CategoryBody.t)
    (db db' : database) (b : json) :
  editCategory sup id body db = (db', reply 200 b) -> id <> ""%string.
Proof.
  unfold editCategory. intros H. apply neg_str_false.
  destruct (Js.neg (Js.Str id)); [discriminate H | reflexivity].
Qed.

Lemma editSubCategory_200_id (sup : supply) (id : string)
    (body : SubCategoryBody.t) (db db' : database) (b : json) :
  editSubCategory sup id body db = (db', reply 200 b) -> id <> ""%string.
Proof.
  unfold editSubCategory. intros H. apply neg_str_false.
  destruct (Js.neg (Js.Str id)); [discriminate H | reflexivity].
Qed.

Lemma editItem_200_id (filter : Prisma.string_filter) (sup : supply)
    (id : string) (body : ItemBody.t) (db db' : database) (b : json) :
  editItem filter sup id body db = (db', reply 200 b) -> id <> ""%string.
Proof.
  unfold editItem, return_if. intros H. apply neg_str_false.
  destruct (Js.neg (Js.Str id)); [discriminate H | reflexivity].
Qed.

(** The category a write answers with is the category a lookup by its id
    answers with afterwards, whatever [name] the lookup also carries:
    after [POST /category] (given a non-empty generated id) and after
    [PUT /category/:id]. *)
Theorem written_category_is_found (sup : supply) (id : string)
    (body : CategoryBody.t) (name : option string) (db db' : database)
    (c : Category.t) :
  (createCategory sup body db = (db', reply 201 (CategoryJson c)) ->
   uuid sup <> ""%string ->
   getCategory (Some (Category.id c)) name db' = reply 200 (CategoryJson c))
  /\
  (editCategory sup id body db = (db', reply 200 (CategoryJson c)) ->
   getCategory (Some id) name db' = reply 200 (CategoryJson c)).
Proof.
  split.
  - intros H Hid.
    destruct (createCategory_cases sup body db)
      as [[_ Hr] | (c' & db'' & Hc & E)];
      [rewrite H in Hr; inversion Hr|].
    rewrite H in E. injection E as <- <-.
    apply category_create_some in Hc.
    destruct Hc as (_ & _ & _ & _ & _ & _ & Hk & _ & _ & Hfresh & ->).
    apply getCategory_found; [now rewrite Hk|]. simpl.
    apply find_by_id_app_new. now rewrite Hk.
  - intros H. pose proof (editCategory_200_id _ _ _ _ _ _ H) as Hid.
    destruct (editCategory_cases sup id body db)
      as [[_ Hr] | (c' & db'' & Hc & E)];
      [rewrite H in Hr; inversion Hr|].
    rewrite H in E. injection E as <- <-.
    apply category_update_some in Hc.
    destruct Hc as (old & Hold & _ & _ & _ & _ & _ & _ & Hk & _ & _ & _
                    & Hw).
    apply getCategory_found; [exact Hid|].
    now apply (written_table Category.id Category.updatedAt _ _ _ _ _ _ _
                 Hold Hk Hw).
Qed.

Lemma written_category_is_found_witness :
  getCategory (Some "c-1"%string) (Some "zzz"%string)
    (fst (editCategory Sample.sup "c-1" Sample.rename_beverages Sample.menu))
  = reply 200
      (CategoryJson
         (Category.mk "c-1" "Drinks" "b.png" "Drinks" true (Some 5%float)
            None 1 7)).
Proof.
  apply (written_category_is_found Sample.sup "c-1" Sample.rename_beverages
           (Some "zzz"%string) Sample.menu).
  reflexivity.
Defined.

(** The same for subcategories: after [POST /subcategory] and after
    [PUT /subcategory/:id]. *)
Theorem written_subCategory_is_found (sup : supply) (id : string)
    (body : SubCategoryBody.t) (name : option string) (db db' : database)
    (s : SubCategory.t) :
  (createSubCategory sup body db = (db', reply 200 (SubCategoryJson s)) ->
   uuid sup <> ""%string ->
   getSubCategory (Some (SubCategory.id s)) name db'
   = reply 200 (SubCategoryJson s)) /\
  (editSubCategory sup id body db = (db', reply 200 (SubCategoryJson s)) ->
   getSubCategory (Some id) name db' = reply 200 (SubCategoryJson s)).
Proof.
  split.
  - intros H Hid.
    destruct (createSubCategory_cases sup body db)
      as [[_ Hr] | (p & s' & db'' & _ & Hs & E)];
      [rewrite H in Hr; inversion Hr|].
    rewrite H in E. injection E as <- <-.
    apply subCategory_create_some in Hs.
    destruct Hs as (_ & _ & _ & _ & _ & _ & _ & Hk & _ & _ & Hfresh & ->).
    apply getSubCategory_found; [now rewrite Hk|]. simpl.
    apply find_by_id_app_new. now rewrite Hk.
  - intros H. pose proof (editSubCategory_200_id _ _ _ _ _ _ H) as Hid.
    destruct (editSubCategory_cases sup id body db)
      as [[_ Hr] | (s' & db'' & Hs & E)];
      [rewrite H in Hr; inversion Hr|].
    rewrite H in E. injection E as <- <-.
    apply subCategory_update_some in Hs; [|reflexivity].
    destruct Hs as (old & Hold & _ & _ & _ & _ & _ & _ & Hk & _ & _ & _
                    & Hw).
    apply getSubCategory_found; [exact Hid|].
    now apply (written_table SubCategory.id SubCategory.updatedAt
                 _ _ _ _ _ _ _ Hold Hk Hw).
Qed.

Lemma written_subCategory_is_found_witness :
  getSubCategory (Some "s-1"%string) None
    (fst (editSubCategory Sample.sup "s-1" Sample.warm_untaxed Sample.menu))
  = reply 200 (SubCategoryJson Sample.warm).
Proof.
  apply (written_subCategory_is_found Sample.sup "s-1" Sample.warm_untaxed
           None Sample.menu).
  reflexivity.
Defined.

(** The same for items: after [POST /item] and after [PUT /item/:id]. *)
Theorem written_item_is_found (filter : Prisma.string_filter)
    (sup : supply) (id : string)
    (body : ItemBody.t) (name : option string) (db db' : database)
    (i : Item.t) :
  (createItem filter sup body db = (db', reply 201 (ItemJson i)) ->
   uuid sup <> ""%string ->
   getItem (Some (Item.id i)) name db' = reply 200 (ItemJson i)) /\
  (editItem filter sup id body db = (db', reply 200 (ItemJson i)) ->
   getItem (Some id) name db' = reply 200 (ItemJson i)).
Proof.
  split.
  - intros H Hid.
    destruct (createItem_cases filter sup body db)
      as [[_ Hr] | (d & i' & db'' & _ & Hi & _ & E)];
      [rewrite H in Hr; inversion Hr|].
    rewrite H in E. injection E as <- <-.
    apply item_create_some in Hi.
    destruct Hi as (_ & _ & _ & _ & _ & _ & _ & Hk & _ & _ & Hfresh & ->).
    apply getItem_found; [now rewrite Hk|]. simpl.
    apply find_by_id_app_new. now rewrite Hk.
  - intros H. pose proof (editItem_200_id _ _ _ _ _ _ _ H) as Hid.
    destruct (editItem_cases filter sup id body db)
      as [[_ Hr] | (old & d & i' & db'' & Hold & Hd & Hi & E)];
      [rewrite H in Hr; inversion Hr|].
    rewrite H in E. injection E as <- <-.
    apply item_update_some in Hi; [|exact (total_defined _ _ _ _ Hd)].
    destruct Hi as (old' & _ & _ & _ & _ & _ & _ & _ & _ & _ & _ & Hk & _
                    & _ & ->).
    apply getItem_found; [exact Hid|]. simpl.
    now apply find_rewrite_by_id.
Qed.

Lemma written_item_is_found_witness :
  getItem (Some "i-1"%string) None
    (fst (editItem (fun _ => None) Sample.sup "i-1" Sample.discount_30
            Sample.menu))
  = reply 200
      (ItemJson (Sample.tea_with "Green Tea" 100 (Some 30%float) 80)).
Proof.
  apply (written_item_is_found (fun _ => None) Sample.sup "i-1"
           Sample.discount_30 None Sample.menu).
  reflexivity.
Defined.

Lemma listed {A : Type} (wrap : list A -> json) (rows : list A) (x : A)
    (message : string) :
  In x rows ->
  (if (List.length rows =? 0)%nat then fail 404 message
   else reply 200 (wrap rows)) = reply 200 (wrap rows).
Proof. destruct rows; [intros [] | reflexivity]. Qed.

Lemma created_reference_nonempty (v : Js.value) (s : string) :
  created_reference v = Some s -> s <> ""%string.
Proof.
  destruct v as [| |b|n|x|l|f]; simpl; try discriminate.
  destruct (String.eqb_spec x ""); [discriminate|]. now intros [= <-].
Qed.

(** *** A name as a pattern *)

Lemma like_one (rest text : string) :
  Text.like (String "_" rest) text =
  match text with
  | EmptyString => false
  | String _ text' => Text.like rest text'
  end.
Proof. destruct text; reflexivity. Qed.

(** A pattern without backslash matches itself: a [%] of the pattern
    stands for the [%] of the text, a [_] for the [_]. *)
Lemma like_self (m rest text : string) :
  no_backslash m ->
  Text.like rest text = true ->
  Text.like (m ++ rest) (m ++ text) = true.
Proof.
  unfold no_backslash. intros Hm Hrest.
  induction m as [|a m IH]; [exact Hrest|].
  change (String a m ++ rest)%string with (String a (m ++ rest)).
  change (String a m ++ text)%string with (String a (m ++ text)).
  assert (Ha : a <> "\"%char) by (intros E; apply Hm; now left).
  assert (IH' : Text.like (m ++ rest) (m ++ text) = true).
  { apply IH. intros Hin. apply Hm. now right. }
  destruct (Ascii.eqb_spec a "%") as [->|Hp].
  - rewrite like_any. apply orb_true_iff. right.
    rewrite like_any. now rewrite IH'.
  - destruct (Ascii.eqb_spec a "_") as [->|Hu].
    + now rewrite like_one.
    + rewrite like_literal.
      * now rewrite Ascii.eqb_refl.
      * unfold Text.special.
        apply Ascii.eqb_neq in Hp, Hu, Ha. now rewrite Hp, Hu, Ha.
Qed.

Lemma lower_no_backslash (s : string) :
  no_backslash s -> no_backslash (Text.lower s).
Proof.
  unfold no_backslash. induction s as [|a s IH]; simpl; [tauto|].
  intros H [E | Hin].
  - apply H. left.
    destruct (capital_dec a) as [Hc|Hc].
    + pose proof (lower_ascii_capital a Hc) as Hn. rewrite E in Hn.
      unfold capital in Hc. change (nat_of_ascii "\") with 92%nat in Hn. lia.
    + now rewrite lower_ascii_other in E.
  - apply IH; [|exact Hin]. intros Hs. apply H. now right.
Qed.

Lemma append_empty (s : string) : (s ++ "")%string = s.
Proof. induction s as [|c s IH]; simpl; [reflexivity | now rewrite IH]. Qed.

(** A search for a name without backslash finds the rows of that
    name. *)
Lemma contains_insensitive_self (n : string) :
  no_backslash n -> Text.contains_insensitive n n = true.
Proof.
  intros H. unfold Text.contains_insensitive, Text.ilike.
  change ("%" ++ n ++ "%")%string with (String "%" (n ++ "%")).
  simpl Text.lower. rewrite lower_app.
  change (Text.lower_ascii "%") with "%"%char.
  apply like_any_spec. exists ""%string, (Text.lower n). split; [reflexivity|].
  rewrite <- (append_empty (Text.lower n)) at 2.
  apply like_self; [now apply lower_no_backslash | reflexivity].
Qed.

(** An item that [POST /item] has created is returned by the listings
    that follow: by [GET /items], by the listing of each parent it names,
    and, when its name has no backslash, by a search for its own name
    (the name is sent to the database as a pattern, in which a backslash
    is not taken literally). *)
Theorem created_item_is_listed (filter : Prisma.string_filter)
    (sup : supply) (body : ItemBody.t) (db db' : database) (i : Item.t) :
  createItem filter sup body db = (db', reply 201 (ItemJson i)) ->
  getItems db' = reply 200 (ItemsJson (items db ++ [i])) /\
  (forall c, Item.categoryId i = Some c ->
     exists rows, getItemsByCategory c db' = reply 200 (ItemsJson rows) /\
                  In i rows) /\
  (forall s, Item.subCategoryId i = Some s ->
     exists rows, getItemsBySubCategory s db' = reply 200 (ItemsJson rows) /\
                  In i rows) /\
  (no_backslash (Item.name i) ->
   exists rows,
     searchItem (Some (Item.name i)) db' = reply 200 (ItemsJson rows) /\
     In i rows).
Proof.
  intros H.
  destruct (createItem_cases filter sup body db)
    as [[_ Hr] | (d & i' & db'' & _ & Hi & Hok & E)];
    [rewrite H in Hr; inversion Hr|].
  rewrite H in E. injection E as <- <-.
  destruct Hok as (Hname & _).
  apply item_create_some in Hi. simpl in Hi.
  destruct Hi as (Hn & _ & _ & _ & _ & Hs & Hc & _ & _ & _ & _ & Hdb).
  apply spread_connect in Hs, Hc.
  destruct Hs as [Hs _]. destruct Hc as [Hc _].
  rewrite created_reference_spec in Hs, Hc.
  assert (Hrows : items db' = items db ++ [i]) by now rewrite Hdb.
  clear Hdb.
  assert (Hin : In i (items db')).
  { rewrite Hrows. apply in_or_app. right. now left. }
  split; [|split; [|split]].
  - unfold getItems, Prisma.item_findMany. rewrite <- Hrows.
    now apply (listed ItemsJson (items db') i).
  - intros c E. rewrite Hc in E.
    apply created_reference_nonempty in E as Hne. rewrite <- Hc in E.
    exists (Prisma.item_findMany_category c db'). split.
    + unfold getItemsByCategory. rewrite (string_nonempty c Hne).
      apply (listed ItemsJson _ i).
      apply filter_In. split; [exact Hin|]. rewrite E.
      apply String.eqb_refl.
    + apply filter_In. split; [exact Hin|]. rewrite E.
      apply String.eqb_refl.
  - intros s E. rewrite Hs in E.
    apply created_reference_nonempty in E as Hne. rewrite <- Hs in E.
    exists (Prisma.item_findMany_subCategory s db'). split.
    + unfold getItemsBySubCategory. rewrite (string_nonempty s Hne).
      apply (listed ItemsJson _ i).
      apply filter_In. split; [exact Hin|]. rewrite E.
      apply String.eqb_refl.
    + apply filter_In. split; [exact Hin|]. rewrite E.
      apply String.eqb_refl.
  - intros Hplain. rewrite Hn in Hname.
    assert (Hmatch : In i (List.filter
                             (fun y => Text.contains_insensitive
                                         (Item.name i) (Item.name y))
                             (items db'))).
    { apply filter_In. split; [exact Hin|].
      now apply contains_insensitive_self. }
    eexists. split; [|exact Hmatch].
    unfold searchItem. cbn [Js.of_optional_string].
    unfold Js.neg. rewrite Hname. simpl.
    unfold Prisma.item_findMany_name. simpl. rewrite orb_diag.
    now apply (listed ItemsJson _ i).
Qed.

Lemma created_item_is_listed_witness :
  exists rows,
    getItemsByCategory "c-1"
      (fst (createItem (fun _ => None) Sample.sup Sample.coffee Sample.menu))
    = reply 200 (ItemsJson rows) /\
    List.length rows = 2%nat.
Proof.
  destruct (createItem (fun _ => None) Sample.sup Sample.coffee Sample.menu)
    as [db' o] eqn:E.
  vm_compute in E. injection E as <- <-.
  match goal with
  | |- exists rows,
        getItemsByCategory _ (fst (?db', Sent (mkResponse _ (ItemJson ?i))))
        = _ /\ _ =>
      destruct (created_item_is_listed (fun _ => None) Sample.sup
                  Sample.coffee Sample.menu db' i eq_refl) as (_ & H & _)
  end.
  destruct (H "c-1"%string eq_refl) as (rows & Hrows & _).
  exists rows. split; [exact Hrows|].
  vm_compute in Hrows. now injection Hrows as <-.
Defined.

Lemma createSubCategory_200_parent (sup : supply) (body : SubCategoryBody.t)
    (db db' : database) (b : json) :
  createSubCategory sup body db = (db', reply 200 b) ->
  Js.truthy (SubCategoryBody.categoryId body) = true.
Proof.
  unfold createSubCategory, Js.neg. intros H.
  destruct (Js.truthy (SubCategoryBody.categoryId body)); [reflexivity|].
  rewrite !orb_true_r in H. discriminate H.
Qed.

(** A subcategory that [POST /subcategory] has created is returned by
    [GET /subcategories] and by the listing of its parent category. *)
Theorem created_subCategory_is_listed (sup : supply)
    (body : SubCategoryBody.t) (db db' : database) (s : SubCategory.t) :
  createSubCategory sup body db = (db', reply 200 (SubCategoryJson s)) ->
  getSubCategories db'
  = reply 200 (SubCategoriesJson (subCategories db ++ [s])) /\
  (exists rows,
      getSubCategoriesByCategory (SubCategory.categoryId s) db'
      = reply 200 (SubCategoriesJson rows) /\
      In s rows).
Proof.
  intros H.
  pose proof (createSubCategory_200_parent _ _ _ _ _ H) as Hparent.
  destruct (createSubCategory_cases sup body db)
    as [[_ Hr] | (p & s' & db'' & _ & Hs & E)];
    [rewrite H in Hr; inversion Hr|].
  rewrite H in E. injection E as <- <-.
  apply subCategory_create_some in Hs. simpl in Hs.
  destruct Hs as (_ & _ & _ & _ & _ & Hc & _ & _ & _ & _ & _ & Hdb).
  assert (Hrows : subCategories db' = subCategories db ++ [s])
    by now rewrite Hdb.
  clear Hdb H.
  rewrite Hc in Hparent.
  assert (Hne : Js.neg (Js.Str (SubCategory.categoryId s)) = false).
  { unfold Js.neg. now rewrite Hparent. }
  assert (Hin : In s (subCategories db')).
  { rewrite Hrows. apply in_or_app. right. now left. }
  split.
  - unfold getSubCategories, Prisma.subCategory_findMany. rewrite <- Hrows.
    now apply (listed SubCategoriesJson (subCategories db') s).
  - exists (Prisma.subCategory_findMany_category (SubCategory.categoryId s)
              db').
    assert (Hf : In s (Prisma.subCategory_findMany_category
                         (SubCategory.categoryId s) db')).
    { apply filter_In. split; [exact Hin | apply String.eqb_refl]. }
    split; [|exact Hf].
    unfold getSubCategoriesByCategory. rewrite Hne.
    now apply (listed SubCategoriesJson _ s).
Qed.

Lemma created_subCategory_is_listed_witness :
  exists rows,
    getSubCategoriesByCategory "c-1"
      (fst (createSubCategory Sample.sup Sample.iced Sample.menu))
    = reply 200 (SubCategoriesJson rows) /\
    List.length rows = 2%nat.
Proof.
  destruct (createSubCategory Sample.sup Sample.iced Sample.menu)
    as [db' o] eqn:E.
  vm_compute in E. injection E as <- <-.
  match goal with
  | |- exists rows,
        getSubCategoriesByCategory _
          (fst (?db', Sent (mkResponse _ (SubCategoryJson ?s)))) = _ /\ _ =>
      destruct (created_subCategory_is_listed Sample.sup Sample.iced
                  Sample.menu db' s eq_refl) as (_ & rows & Hrows & _)
  end.
  exists rows. split; [exact Hrows|].
  vm_compute in Hrows. now injection Hrows as <-.
Defined.

(** ** Lookup by name and search agree *)

Lemma find_is_head_of_filter {A : Type} (p : A -> bool) (l : list A) :
  find p l = hd_error (filter p l).
Proof.
  induction l as [|a l IH]; simpl; [reflexivity|].
  destruct (p a); [reflexivity | exact IH].
Qed.

(** For a non-empty name, [GET /item?name=] answers with the first row
    of what [GET /item/search?name=] answers with, and both answer 404
    for the same names. *)
Theorem getItem_is_first_search_result (q : string) (db : database) :
  q <> ""%string ->
  (forall rows,
      searchItem (Some q) db = reply 200 (ItemsJson rows) ->
      exists i rest,
        rows = i :: rest /\
        getItem None (Some q) db = reply 200 (ItemJson i)) /\
  (searchItem (Some q) db = fail 404 "items not found" <->
   getItem None (Some q) db = fail 404 "item not found").
Proof.
  intros Hq. pose proof (string_nonempty q Hq) as Hneg.
  unfold searchItem, getItem. cbn [Js.of_optional_string].
  rewrite Hneg. simpl.
  unfold Prisma.item_findMany_name, Prisma.item_findFirst_name. simpl.
  rewrite orb_diag, find_is_head_of_filter.
  destruct (filter _ (items db)) as [|i rest]; simpl.
  - split; [intros rows H; discriminate H | split; reflexivity].
  - split.
    + intros rows [= <-]. now exists i, rest.
    + split; discriminate.
Qed.

Lemma getItem_is_first_search_result_witness :
  exists i rest,
    searchItem (Some "tea"%string) Sample.menu
    = reply 200 (ItemsJson (i :: rest)) /\
    getItem None (Some "tea"%string) Sample.menu = reply 200 (ItemJson i).
Proof.
  destruct (getItem_is_first_search_result "tea" Sample.menu) as [H _];
    [discriminate|].
  destruct (H [Sample.tea] eq_refl) as (i & rest & E & Hi).
  exists i, rest. split; [|exact Hi]. now rewrite <- E.
Defined.

(* ================================================================== *)
(** ** Amounts on update *)

Lemma discount_or_zero_on_update (old x : option float) (body : ItemBody.t) :
  Js.scalar (ItemBody.discount body) = true ->
  Prisma.set_nullable_float old (Js.spread_if (ItemBody.discount body))
  = Some x ->
  Js.oror (ItemBody.discount body) (Js.of_float 0)
  = Js.Number (supplied_discount body).
Proof.
  unfold supplied_discount, Js.spread_if, Js.oror.
  destruct (ItemBody.discount body) as [| |[|]|n|s|l|f]; simpl;
    try reflexivity; try discriminate.
  - now destruct (Js.falsy_number n).
  - destruct (s =? "")%string; simpl; [reflexivity | discriminate].
Qed.

(** [PUT /item/:id], answered 200, with a number [b] as [baseAmount] and
    a discount that is no array and no object: when [b] minus the
    supplied discount (0 when none is supplied) is not zero, it is the
    stored total, in the arithmetic of doubles; a non-zero [b] and a
    non-zero discount are the stored base amount and discount. *)
Theorem editItem_recomputes_total (filter : Prisma.string_filter)
    (sup : supply) (id : string) (body : ItemBody.t) (db db' : database)
    (i : Item.t) (b : float) :
  editItem filter sup id body db = (db', reply 200 (ItemJson i)) ->
  ItemBody.baseAmount body = Js.Number b ->
  Js.scalar (ItemBody.discount body) = true ->
  Js.falsy_number (b - supplied_discount body) = false ->
  Item.totalAmount i = (b - supplied_discount body)%float /\
  (Js.falsy_number b = false -> Item.baseAmount i = b) /\
  (Js.falsy_number (supplied_discount body) = false ->
   Item.discount i = Some (supplied_discount body)) /\
  Prisma.find_by_id Item.id id (items db') = Some i.
Proof.
  intros H Hb Hscalar Hne.
  pose proof (editItem_total_amount _ _ _ _ _ _ _ H) as (old & _ & Ht).
  destruct (editItem_cases filter sup id body db)
    as [[_ Hr] | (old' & d & i' & db'' & _ & Hd & Hi & E)];
    [rewrite H in Hr; inversion Hr|].
  rewrite H in E. injection E as <- <-.
  apply item_update_some in Hi; [|exact (total_defined _ _ _ _ Hd)].
  simpl in Hi.
  destruct Hi as (old'' & _ & _ & _ & _ & _ & _ & Hbase & Hdisc & _ & _
                  & Hid & _ & _ & ->).
  pose proof (discount_or_zero_on_update _ _ _ Hscalar Hdisc) as Hor.
  apply spread_float in Hbase; [|now rewrite Hb].
  rewrite Hor, Hb in Ht. simpl in Ht. rewrite Hne in Ht.
  split; [exact Ht|]. split; [|split; [|simpl; now apply find_rewrite_by_id]].
  - intros Hb0. rewrite Hbase, Hb. simpl. now rewrite Hb0.
  - intros Hd0. unfold supplied_discount in *. unfold Js.spread_if in Hdisc.
    destruct (ItemBody.discount body) as [| |[|]|n|s|l|f]; simpl in *;
      try discriminate Hd0.
    destruct (Js.falsy_number n); [discriminate Hd0|]. simpl in Hdisc.
    destruct (is_finite n); [|discriminate Hdisc].
    now injection Hdisc as <-.
Qed.

Lemma editItem_recomputes_total_witness :
  exists i db',
    editItem (fun _ => None) Sample.sup "i-1" Sample.base_120_discount_30
      Sample.menu
    = (db', reply 200 (ItemJson i)) /\
    Item.totalAmount i = 90%float /\
    Item.baseAmount i = 120%float /\
    Item.discount i = Some 30%float.
Proof.
  edestruct (editItem_recomputes_total (fun _ => None) Sample.sup "i-1"
               Sample.base_120_discount_30 Sample.menu)
    as (Ht & Hb & Hd & _); [reflexivity | reflexivity | reflexivity
                            | reflexivity |].
  eexists. eexists. split; [reflexivity|].
  split; [exact Ht|]. split; [apply Hb | apply Hd]; reflexivity.
Defined.

(* ================================================================== *)
(** ** Nothing is deleted *)

Lemma ids_kept_refl (db : database) : ids_kept db db.
Proof. repeat split; apply incl_refl. Qed.

Lemma incl_map_app {A : Type} (f : A -> string) (l : list A) (x : A) :
  incl (map f l) (map f (l ++ [x])).
Proof. rewrite map_app. apply incl_appl, incl_refl. Qed.

Lemma incl_rewrite_by_id {R : Type} (key : R -> string) (id : string)
    (old r : R) (rows : list R) :
  Prisma.find_by_id key id rows = Some old -> key r = id ->
  incl (map key rows) (map key (Prisma.rewrite_by_id key id r rows)).
Proof.
  intros Hold Hk k Hin. apply ids_rewrite_by_id; try assumption.
  apply find_by_id_some in Hold. destruct Hold as [Hold <-].
  now apply in_map.
Qed.

Lemma incl_written {R : Type} (key : R -> string) (stamp : R -> Z)
    (empty : bool) (sup : supply) (rows rows' : list R) (id : string)
    (old r : R) :
  Prisma.find_by_id key id rows = Some old ->
  key r = id ->
  written empty (r = old) (stamp r) sup rows rows' key id r ->
  incl (map key rows) (map key rows').
Proof.
  intros Hold Hk [(_ & _ & ->) | (_ & _ & ->)].
  - apply incl_refl.
  - now apply (incl_rewrite_by_id key id old).
Qed.

(** No writing handler removes a row: every id a table holds before a
    request is an id of that table after it. *)
Theorem writes_delete_nothing (filter : Prisma.string_filter) (sup : supply)
    (id : string)
    (category : CategoryBody.t) (subCategory : SubCategoryBody.t)
    (item : ItemBody.t) (db : database) :
  ids_kept db (fst (createCategory sup category db)) /\
  ids_kept db (fst (editCategory sup id category db)) /\
  ids_kept db (fst (createSubCategory sup subCategory db)) /\
  ids_kept db (fst (editSubCategory sup id subCategory db)) /\
  ids_kept db (fst (createItem filter sup item db)) /\
  ids_kept db (fst (editItem filter sup id item db)).
Proof.
  split; [|split; [|split; [|split; [|split]]]].
  - destruct (createCategory_cases sup category db)
      as [[-> _] | (c & db' & Hc & ->)]; [apply ids_kept_refl|].
    apply category_create_some in Hc.
    destruct Hc as (_ & _ & _ & _ & _ & _ & _ & _ & _ & _ & ->).
    repeat split; simpl; try apply incl_refl. apply incl_map_app.
  - destruct (editCategory_cases sup id category db)
      as [[-> _] | (c & db' & Hc & ->)]; [apply ids_kept_refl|].
    apply category_update_some in Hc.
    destruct Hc as (old & Hold & _ & _ & _ & _ & _ & _ & Hid & _ & Hs & Hi
                    & Hw).
    repeat split; simpl; try (rewrite ?Hs, ?Hi; apply incl_refl).
    exact (incl_written Category.id Category.updatedAt _ _ _ _ _ _ _
             Hold Hid Hw).
  - destruct (createSubCategory_cases sup subCategory db)
      as [[-> _] | (p & s & db' & _ & Hs & ->)]; [apply ids_kept_refl|].
    apply subCategory_create_some in Hs.
    destruct Hs as (_ & _ & _ & _ & _ & _ & _ & _ & _ & _ & _ & ->).
    repeat split; simpl; try apply incl_refl. apply incl_map_app.
  - destruct (editSubCategory_cases sup id subCategory db)
      as [[-> _] | (s & db' & Hs & ->)]; [apply ids_kept_refl|].
    apply subCategory_update_some in Hs; [|reflexivity].
    destruct Hs as (old & Hold & _ & _ & _ & _ & _ & _ & Hid & _ & Hc & Hi
                    & Hw).
    repeat split; simpl; try (rewrite ?Hc, ?Hi; apply incl_refl).
    exact (incl_written SubCategory.id SubCategory.updatedAt _ _ _ _ _ _ _
             Hold Hid Hw).
  - destruct (createItem_cases filter sup item db)
      as [[-> _] | (d & i & db' & _ & Hi & _ & ->)]; [apply ids_kept_refl|].
    apply item_create_some in Hi.
    destruct Hi as (_ & _ & _ & _ & _ & _ & _ & _ & _ & _ & _ & ->).
    repeat split; simpl; try apply incl_refl. apply incl_map_app.
  - destruct (editItem_cases filter sup id item db)
      as [[-> _] | (old & d & i & db' & Hold & Hd & Hi & ->)];
      [apply ids_kept_refl|].
    apply item_update_some in Hi; [|exact (total_defined _ _ _ _ Hd)].
    destruct Hi as (old' & _ & _ & _ & _ & _ & _ & _ & _ & _ & _ & Hid & _
                    & _ & ->).
    repeat split; simpl; try apply incl_refl.
    now apply (incl_rewrite_by_id Item.id id old).
Qed.

(* ================================================================== *)
(** ** Taxed categories carry a rate or a tax type *)

Lemma nullable_float_truthy (old x : option float) (v : Js.value) :
  Js.scalar v = true ->
  Prisma.set_nullable_float old v = Some x ->
  Js.truthy v = true -> x <> None.
Proof.
  destruct v as [| |b|n|s|l|f]; simpl; try discriminate.
  intros _. destruct (is_finite n); [|discriminate].
  intros [= <-] _. discriminate.
Qed.

Lemma nullable_string_truthy (old x : option string) (v : Js.value) :
  Js.scalar v = true ->
  Prisma.set_nullable Prisma.string_required old v = Some x ->
  Js.truthy v = true -> x <> None.
Proof.
  destruct v as [| |b|n|s|l|f]; simpl; try discriminate.
  intros _ [= <-] _. discriminate.
Qed.

Lemma float_nullable_truthy (x : option float) (v : Js.value) :
  Prisma.float_nullable v = Some x ->
  Js.truthy v = true -> x <> None.
Proof.
  destruct v as [| |b|n|s|l|f]; simpl; try discriminate.
  destruct (is_finite n); [|discriminate].
  intros [= <-] _. discriminate.
Qed.

Lemma string_nullable_truthy (x : option string) (v : Js.value) :
  Prisma.string_nullable v = Some x ->
  Js.truthy v = true -> x <> None.
Proof.
  destruct v as [| |b|n|s|l|f]; simpl; try discriminate.
  intros [= <-] _. discriminate.
Qed.

Lemma updated_nullable_float_keeps (old : option float) (v : Js.value) :
  plain_value v = true ->
  old <> None -> updated_nullable_float old v <> None.
Proof.
  intros Hp H. destruct v as [| |b|n|s|l|f]; simpl; try exact H.
  simpl in Hp. rewrite Hp.
  destruct (Js.falsy_number n); [exact H | discriminate].
Qed.

Lemma updated_nullable_string_keeps (old : option string) (v : Js.value) :
  old <> None -> updated_nullable_string old v <> None.
Proof.
  intros H. destruct v as [| |b|n|s|l|f]; simpl; try exact H.
  destruct (s =? "")%string; [exact H | discriminate].
Qed.

Lemma plain_scalar (v : Js.value) : plain_value v = true -> Js.scalar v = true.
Proof. destruct v; simpl; congruence. Qed.

Lemma rate_supplied (ta tax taxType : Js.value) :
  Js.is_true ta && (Js.neg tax && Js.neg taxType) = false ->
  ta = Js.Bool true ->
  Js.truthy tax = true \/ Js.truthy taxType = true.
Proof.
  intros H ->. unfold Js.neg in H. simpl in H.
  destruct (Js.truthy tax); [now left|].
  destruct (Js.truthy taxType); [now right | discriminate H].
Qed.

Lemma createCategory_taxed_with_rate (sup : supply) (body : CategoryBody.t)
    (db db' : database) (c : Category.t) :
  createCategory sup body db = (db', reply 201 (CategoryJson c)) ->
  taxed_with_rate c.
Proof.
  unfold createCategory. intros H.
  destruct (_ || _ || _ || _); [discriminate H|].
  destruct (_ && _) eqn:G; [discriminate H|].
  destruct (Prisma.category_create _ _ _) as [[c' db'']|] eqn:E;
    [|discriminate H].
  injection H as <- <-.
  unfold Prisma.category_create in E. unbind E.
  injection E as <- _. unfold taxed_with_rate. simpl. intros Hb. subst.
  apply boolean_required_inv in E3.
  destruct (rate_supplied _ _ _ G E3) as [Ht | Ht].
  - left. exact (float_nullable_truthy _ _ E4 Ht).
  - right. exact (string_nullable_truthy _ _ E5 Ht).
Qed.

Lemma editCategory_taxed_with_rate (sup : supply) (id : string)
    (body : CategoryBody.t) (db db' : database) (c old : Category.t) :
  Js.scalar (CategoryBody.taxApplicable body) = true ->
  plain_value (CategoryBody.tax body) = true ->
  Js.scalar (CategoryBody.taxType body) = true ->
  editCategory sup id body db = (db', reply 200 (CategoryJson c)) ->
  Prisma.find_by_id Category.id id (categories db) = Some old ->
  taxed_with_rate old ->
  taxed_with_rate c.
Proof.
  intros Sa Pt Sty H Hold Hrate.
  pose proof (plain_scalar _ Pt) as St.
  assert (G : Js.is_true (CategoryBody.taxApplicable body)
              && (Js.neg (CategoryBody.tax body)
                  && Js.neg (CategoryBody.taxType body)) = false).
  { unfold editCategory in H.
    destruct (Js.neg (Js.Str id)); [discriminate H|].
    destruct (_ && _ && _ && _ && _ && _); [discriminate H|].
    destruct (_ && _); [discriminate H | reflexivity]. }
  destruct (editCategory_cases sup id body db)
    as [[_ Hr] | (c' & db'' & Hc & E)]; [rewrite H in Hr; inversion Hr|].
  rewrite H in E. injection E as <- <-.
  apply category_update_some in Hc. simpl in Hc.
  destruct Hc as (old' & Hold' & _ & _ & _ & Ha & Ht & Hty & _).
  rewrite Hold in Hold'. injection Hold' as <-.
  intros Htrue.
  destruct (CategoryBody.taxApplicable body) as [| |[|]|n|s|l|f] eqn:Hta.
  3: { destruct (rate_supplied _ _ _ G eq_refl) as [Hv | Hv].
       - left. unfold Js.spread_if in Ht. rewrite Hv in Ht.
         exact (nullable_float_truthy _ _ _ St Ht Hv).
       - right. unfold Js.spread_if in Hty. rewrite Hv in Hty.
         exact (nullable_string_truthy _ _ _ Sty Hty Hv). }
  all: try discriminate Sa.
  all: apply spread_boolean in Ha; [|reflexivity]; simpl in Ha;
    apply spread_nullable_float in Ht; [|assumption];
    apply spread_nullable_string in Hty; [|assumption];
    rewrite Ha in Htrue;
    destruct (Hrate Htrue) as [Hr | Hr];
    [left; rewrite Ht; now apply updated_nullable_float_keeps
    |right; rewrite Hty; now apply updated_nullable_string_keeps].
Qed.

(** If every stored category on which tax applies carries a rate or a
    tax type, this is still so after a request to a writing handler
    whose category body carries, for [taxApplicable], [tax] and
    [taxType], neither an array nor an object nor a number that is not
    finite: [POST /category] and [PUT /category/:id] refuse
    [taxApplicable: true] without one of the two, and an update with
    such values never empties a column. *)
Theorem writes_keep_taxed_with_rate (filter : Prisma.string_filter)
    (sup : supply) (id : string)
    (category : CategoryBody.t) (subCategory : SubCategoryBody.t)
    (item : ItemBody.t) (db : database) :
  Js.scalar (CategoryBody.taxApplicable category) = true ->
  plain_value (CategoryBody.tax category) = true ->
  Js.scalar (CategoryBody.taxType category) = true ->
  (forall c, In c (categories db) -> taxed_with_rate c) ->
  (forall c, In c (categories (fst (createCategory sup category db))) ->
             taxed_with_rate c) /\
  (forall c, In c (categories (fst (editCategory sup id category db))) ->
             taxed_with_rate c) /\
  (forall c, In c (categories (fst (createSubCategory sup subCategory db))) ->
             taxed_with_rate c) /\
  (forall c, In c (categories (fst (editSubCategory sup id subCategory db))) ->
             taxed_with_rate c) /\
  (forall c, In c (categories (fst (createItem filter sup item db))) ->
             taxed_with_rate c) /\
  (forall c, In c (categories (fst (editItem filter sup id item db))) ->
             taxed_with_rate c).
Proof.
  intros Sa Pt Sty Hdb.
  split; [|split; [|split; [|split; [|split]]]]; intros c.
  - destruct (createCategory sup category db) as [db' o] eqn:E.
    destruct (createCategory_cases sup category db)
      as [[H _] | (c' & db'' & Hcreate & E')]; rewrite E in *; simpl in *.
    + rewrite H. apply Hdb.
    + injection E' as -> ->.
      pose proof (createCategory_taxed_with_rate _ _ _ _ _ E) as Hc.
      apply category_create_some in Hcreate.
      destruct Hcreate as (_ & _ & _ & _ & _ & _ & _ & _ & _ & _ & ->).
      simpl. intros Hin. apply in_app_or in Hin.
      destruct Hin as [Hin | [<- | []]]; [now apply Hdb | exact Hc].
  - destruct (editCategory sup id category db) as [db' o] eqn:E.
    destruct (editCategory_cases sup id category db)
      as [[H _] | (c' & db'' & Hupdate & E')]; rewrite E in *; simpl in *.
    + rewrite H. apply Hdb.
    + injection E' as -> ->.
      apply category_update_some in Hupdate.
      destruct Hupdate
        as (old & Hold & _ & _ & _ & _ & _ & _ & _ & _ & _ & _ & Hw).
      pose proof (editCategory_taxed_with_rate _ _ _ _ _ _ old Sa Pt Sty
                    E Hold) as Hc.
      destruct Hw as [(_ & _ & ->) | (_ & _ & ->)]; [apply Hdb|].
      intros Hin. apply in_rewrite_by_id in Hin.
      destruct Hin as [-> | Hin]; [|now apply Hdb].
      apply Hc. apply Hdb. now apply (find_by_id_some Category.id id).
  - destruct (createSubCategory_cases sup subCategory db)
      as [[-> _] | (p & s & db' & _ & Hs & ->)]; [apply Hdb|].
    apply subCategory_create_some in Hs.
    destruct Hs as (_ & _ & _ & _ & _ & _ & _ & _ & _ & _ & _ & ->).
    apply Hdb.
  - destruct (editSubCategory_cases sup id subCategory db)
      as [[-> _] | (s & db' & Hs & ->)]; [apply Hdb|].
    apply subCategory_update_some in Hs; [|reflexivity].
    destruct Hs as (old & _ & _ & _ & _ & _ & _ & _ & _ & _ & Hc & _).
    simpl. rewrite Hc. apply Hdb.
  - destruct (createItem_cases filter sup item db)
      as [[-> _] | (d & i & db' & _ & Hi & _ & ->)]; [apply Hdb|].
    apply item_create_some in Hi.
    destruct Hi as (_ & _ & _ & _ & _ & _ & _ & _ & _ & _ & _ & ->).
    apply Hdb.
  - destruct (editItem_cases filter sup id item db)
      as [[-> _] | (old & d & i & db' & _ & Hd & Hi & ->)]; [apply Hdb|].
    apply item_update_some in Hi; [|exact (total_defined _ _ _ _ Hd)].
    destruct Hi as (old' & _ & _ & _ & _ & _ & _ & _ & _ & _ & _ & _ & _
                    & _ & ->).
    apply Hdb.
Qed.

Lemma writes_keep_taxed_with_rate_witness :
  taxed_with_rate
    (Category.mk "c-2" "Snacks" "s.png" "Small bites" true None (Some "GST")
       9 9).
Proof.
  assert (Hmenu : forall c, In c (categories Sample.menu) ->
                            taxed_with_rate c).
  { intros c [<- | []] _. left. discriminate. }
  apply (proj1 (writes_keep_taxed_with_rate (fun _ => None)
                  (mkSupply "c-2" 9) "c-1"
                  Sample.snacks Sample.iced Sample.coffee Sample.menu
                  eq_refl eq_refl eq_refl Hmenu)).
  right. left. reflexivity.
Defined.

(* ================================================================== *)
(** ** Repeating an update *)

Lemma set_required_again {A : Type} (check : Js.value -> option A)
    (old x : A) (v : Js.value) :
  Prisma.set_required check old v = Some x ->
  Prisma.set_required check x v = Some x.
Proof. destruct v; simpl; congruence. Qed.

Lemma set_nullable_again {A : Type} (check : Js.value -> option A)
    (old x : option A) (v : Js.value) :
  Prisma.set_nullable check old v = Some x ->
  Prisma.set_nullable check x v = Some x.
Proof. destruct v; simpl; congruence. Qed.

(** Setting a [Float] column twice is setting it once, unless the value
    is an operation on the stored number. *)
Lemma set_float_again (old x : float) (v : Js.value) :
  Js.scalar v = true ->
  Prisma.set_float old v = Some x ->
  Prisma.set_float x v = Some x.
Proof. destruct v; simpl; congruence. Qed.

Lemma set_nullable_float_again (old x : option float) (v : Js.value) :
  Js.scalar v = true ->
  Prisma.set_nullable_float old v = Some x ->
  Prisma.set_nullable_float x v = Some x.
Proof. destruct v; simpl; congruence. Qed.

Lemma spread_if_scalar (v : Js.value) :
  Js.scalar v = true -> Js.scalar (Js.spread_if v) = true.
Proof. unfold Js.spread_if. now destruct (Js.truthy v). Qed.

Lemma connect_again {R : Type} (key : R -> string) (old x : option string)
    (v : Js.value) (rows : list R) :
  Prisma.connect key old v rows = Some x ->
  Prisma.connect key x v rows = Some x.
Proof. destruct v; simpl; congruence. Qed.

Lemma total_again (a b difference : Js.value) (old t : float) :
  Js.sub a b = Some difference ->
  Prisma.set_float old (Js.oror difference (Js.of_float old)) = Some t ->
  Prisma.set_float t (Js.oror difference (Js.of_float t)) = Some t.
Proof.
  intros H. destruct (sub_number _ _ _ H) as [n ->].
  rewrite !oror_number. simpl.
  destruct (Js.falsy_number n).
  - destruct (is_finite old) eqn:E; [|discriminate].
    intros [= <-]. now rewrite E.
  - trivial.
Qed.

(** A row is its columns. *)
Lemma category_eta (c : Category.t) :
  Category.mk (Category.id c) (Category.name c) (Category.image c)
    (Category.description c) (Category.taxApplicable c) (Category.tax c)
    (Category.taxType c) (Category.createdAt c) (Category.updatedAt c) = c.
Proof. now destruct c. Qed.

Lemma subCategory_eta (s : SubCategory.t) :
  SubCategory.mk (SubCategory.id s) (SubCategory.name s)
    (SubCategory.image s) (SubCategory.description s)
    (SubCategory.taxApplicable s) (SubCategory.tax s)
    (SubCategory.categoryId s) (SubCategory.createdAt s)
    (SubCategory.updatedAt s) = s.
Proof. now destruct s. Qed.

(** [PUT /category/:id] answered 200 and then repeated with the same
    body, whose [tax] is no array and no object, is answered 200 again,
    with the same row but for the instant of the update, which moves
    only when some supplied value is truthy. *)
Theorem editCategory_repeated (sup sup' : supply) (id : string)
    (body : CategoryBody.t) (db db1 : database) (c : Category.t) :
  Js.scalar (CategoryBody.tax body) = true ->
  editCategory sup id body db = (db1, reply 200 (CategoryJson c)) ->
  exists db2,
    editCategory sup' id body db1
    = (db2,
       reply 200
         (CategoryJson
            (Category.mk id (Category.name c) (Category.image c)
               (Category.description c) (Category.taxApplicable c)
               (Category.tax c) (Category.taxType c) (Category.createdAt c)
               (if category_written body then now sup'
                else Category.updatedAt c)))).
Proof.
  intros St H.
  destruct (editCategory_cases sup id body db)
    as [[_ Hr] | (c' & db' & E & E')]; [rewrite H in Hr; inversion Hr|].
  rewrite H in E'. injection E' as <- <-.
  apply category_update_some in E. rewrite category_data_empty in E.
  simpl in E.
  destruct E as (old & Hold & Hn & Hi & Hd & Ha & Ht & Hty & Hid & _ & _ & _
                 & Hw).
  apply (written_table Category.id Category.updatedAt) in Hw;
    try assumption.
  destruct Hw as (_ & Hfind & _).
  unfold editCategory in H |- *.
  destruct (Js.neg (Js.Str id)); [discriminate H|].
  destruct (_ && _ && _ && _ && _ && _); [discriminate H|].
  destruct (_ && _); [discriminate H|].
  clear H. simpl. rewrite Hfind.
  unfold Prisma.category_update, bind.
  rewrite Hfind, category_data_empty. simpl.
  rewrite (set_required_again _ _ _ _ Hn), (set_required_again _ _ _ _ Hi),
    (set_required_again _ _ _ _ Hd), (set_required_again _ _ _ _ Ha),
    (set_nullable_float_again _ _ _ (spread_if_scalar _ St) Ht),
    (set_nullable_again _ _ _ _ Hty).
  destruct (category_written body); simpl; eexists.
  - reflexivity.
  - rewrite <- Hid at 1. now rewrite category_eta.
Qed.

Lemma editCategory_repeated_witness :
  (exists db2,
     editCategory (mkSupply "u-2" 8) "c-1" Sample.rename_beverages
       (fst (editCategory Sample.sup "c-1" Sample.rename_beverages
               Sample.menu))
     = (db2,
        reply 200
          (CategoryJson
             (Category.mk "c-1" "Drinks" "b.png" "Drinks" true
                (Some 5%float) None 1 8)))) /\
  (exists db2,
     editCategory (mkSupply "u-2" 8) "c-1" Sample.tax_off
       (fst (editCategory Sample.sup "c-1" Sample.tax_off Sample.menu))
     = (db2, reply 200 (CategoryJson Sample.beverages))).
Proof.
  split.
  - apply (editCategory_repeated Sample.sup (mkSupply "u-2" 8) "c-1"
             Sample.rename_beverages Sample.menu _
             (Category.mk "c-1" "Drinks" "b.png" "Drinks" true
                (Some 5%float) None 1 7));
      reflexivity.
  - apply (editCategory_repeated Sample.sup (mkSupply "u-2" 8) "c-1"
             Sample.tax_off Sample.menu _ Sample.beverages);
      reflexivity.
Defined.

(** The same for [PUT /subcategory/:id]. *)
Theorem editSubCategory_repeated (sup sup' : supply) (id : string)
    (body : SubCategoryBody.t) (db db1 : database) (s : SubCategory.t) :
  Js.scalar (SubCategoryBody.tax body) = true ->
  editSubCategory sup id body db = (db1, reply 200 (SubCategoryJson s)) ->
  exists db2,
    editSubCategory sup' id body db1
    = (db2,
       reply 200
         (SubCategoryJson
            (SubCategory.mk id (SubCategory.name s) (SubCategory.image s)
               (SubCategory.description s) (SubCategory.taxApplicable s)
               (SubCategory.tax s) (SubCategory.categoryId s)
               (SubCategory.createdAt s)
               (if subCategory_written body then now sup'
                else SubCategory.updatedAt s)))).
Proof.
  intros St H.
  destruct (editSubCategory_cases sup id body db)
    as [[_ Hr] | (s' & db' & E & E')]; [rewrite H in Hr; inversion Hr|].
  rewrite H in E'. injection E' as <- <-.
  apply subCategory_update_some in E; [|reflexivity].
  rewrite subCategory_data_empty in E. simpl in E.
  destruct E as (old & Hold & Hn & Hi & Hd & Ha & Ht & Hc & Hid & _ & _ & _
                 & Hw).
  apply (written_table SubCategory.id SubCategory.updatedAt) in Hw;
    try assumption.
  destruct Hw as (_ & Hfind & _).
  unfold editSubCategory in H |- *.
  destruct (Js.neg (Js.Str id)); [discriminate H|].
  destruct (_ && _ && _ && _ && _); [discriminate H|].
  clear H. simpl. rewrite Hfind.
  unfold Prisma.subCategory_update, bind.
  rewrite Hfind, subCategory_data_empty. simpl.
  rewrite (set_required_again _ _ _ _ Hn), (set_required_again _ _ _ _ Hi),
    (set_required_again _ _ _ _ Hd), (set_nullable_again _ _ _ _ Ha),
    (set_nullable_float_again _ _ _ (spread_if_scalar _ St) Ht).
  destruct (subCategory_written body); simpl; eexists.
  - reflexivity.
  - rewrite <- Hid at 1. now rewrite subCategory_eta.
Qed.

Lemma editSubCategory_repeated_witness :
  exists db2,
    editSubCategory (mkSupply "u-2" 8) "s-1" Sample.warm_untaxed
      (fst (editSubCategory Sample.sup "s-1" Sample.warm_untaxed
              Sample.menu))
    = (db2,
       reply 200
         (SubCategoryJson
            (SubCategory.mk "s-1" "Warm" "h.png" "Hot drinks" (Some true)
               (Some 5%float) "c-1" 2 8))).
Proof.
  apply (editSubCategory_repeated Sample.sup (mkSupply "u-2" 8) "s-1"
           Sample.warm_untaxed Sample.menu _ Sample.warm);
    reflexivity.
Defined.

Lemma must_exist_continue {R : Type} (filter : Prisma.string_filter)
    (key : R -> string) (v : Js.value)
    (rows : list R) (db db' : database) (message : string) :
  must_exist filter key v rows db message = Continue tt ->
  must_exist filter key v rows db' message = Continue tt.
Proof.
  unfold must_exist. destruct (Js.truthy v); [|reflexivity].
  destruct (Prisma.findFirst_where_id filter key v rows) as [[r|]|];
    [reflexivity | discriminate | discriminate].
Qed.

(** The same for [PUT /item/:id], when [tax], [baseAmount] and
    [discount] are no arrays and no objects; the total written the
    second time is the total written the first time. *)
Theorem editItem_repeated (filter : Prisma.string_filter)
    (sup sup' : supply) (id : string)
    (body : ItemBody.t) (db db1 : database) (i : Item.t) :
  Js.scalar (ItemBody.tax body) = true ->
  Js.scalar (ItemBody.baseAmount body) = true ->
  Js.scalar (ItemBody.discount body) = true ->
  editItem filter sup id body db = (db1, reply 200 (ItemJson i)) ->
  exists db2,
    editItem filter sup' id body db1
    = (db2,
       reply 200
         (ItemJson
            (Item.mk id (Item.name i) (Item.image i) (Item.description i)
               (Item.taxApplicable i) (Item.tax i) (Item.baseAmount i)
               (Item.discount i) (Item.totalAmount i) (Item.subCategoryId i)
               (Item.categoryId i) (Item.createdAt i) (now sup')))).
Proof.
  intros St Sb Sd. unfold editItem, return_if. intros H.
  destruct (Js.neg (Js.Str id)); [discriminate H|]. simpl in H |- *.
  destruct (_ && _ && _ && _ && _ && _ && _ && _ && _);
    [discriminate H|]. simpl in H |- *.
  destruct (_ && _); [discriminate H|]. simpl in H |- *.
  destruct (Prisma.find_by_id Item.id id (items db)) as [old|] eqn:Hold;
    [|discriminate H]. simpl in H.
  destruct (must_exist_cases filter SubCategory.id
              (ItemBody.subCategory body) (subCategories db) db
              "SubCategory not found, unable to edit item")
    as [(o & Hs & Ho) | Hs]; rewrite Hs in H; simpl in H;
    [injection H as _ Ho'; rewrite Ho' in Ho; inversion Ho|].
  destruct (must_exist_cases filter Category.id (ItemBody.category body)
              (categories db) db
              "Category not found, unable to edit item")
    as [(o & Hc & Ho) | Hc]; rewrite Hc in H; simpl in H;
    [injection H as _ Ho'; rewrite Ho' in Ho; inversion Ho|].
  destruct (Js.sub _ _) as [difference|] eqn:D; [|discriminate H].
  simpl in H.
  destruct (Prisma.item_update sup id _ db) as [[i' db']|] eqn:E;
    [|discriminate H].
  injection H as <- <-.
  pose proof (total_defined _ _ _ (Item.totalAmount old) D) as Hdef.
  pose proof (item_update_inv _ _ _ _ _ _ E Hdef)
    as (old0 & Hold0 & _ & _ & Htot).
  rewrite Hold in Hold0. injection Hold0 as <-. simpl in Htot.
  apply item_update_some in E; [|exact Hdef]. simpl in E.
  destruct E as (old' & Hold' & Hn & Him & Hd & Ha & Ht & Hb & Hdi & Hsub
                 & Hcat & Hid & _ & _ & ->).
  rewrite Hold in Hold'. injection Hold' as <-.
  pose proof (find_rewrite_by_id Item.id id i' (items db) Hid) as Hfind.
  simpl. rewrite Hfind. simpl.
  rewrite (must_exist_continue _ _ _ _ _ _ _ Hs). simpl.
  rewrite (must_exist_continue _ _ _ _ _ _ _ Hc). simpl.
  unfold Prisma.item_update, bind. simpl.
  rewrite Hfind.
  rewrite (set_required_again _ _ _ _ Hn), (set_required_again _ _ _ _ Him),
    (set_required_again _ _ _ _ Hd), (set_nullable_again _ _ _ _ Ha),
    (set_nullable_float_again _ _ _ (spread_if_scalar _ St) Ht),
    (set_float_again _ _ _ (spread_if_scalar _ Sb) Hb),
    (set_nullable_float_again _ _ _ (spread_if_scalar _ Sd) Hdi),
    (total_again _ _ _ _ _ D Htot),
    (connect_again _ _ _ _ _ Hsub), (connect_again _ _ _ _ _ Hcat).
  unfold ItemData.is_empty. simpl.
  rewrite (total_defined _ _ _ (Item.totalAmount i') D).
  rewrite !andb_false_r. simpl.
  eexists. reflexivity.
Qed.

Lemma editItem_repeated_witness :
  exists db2,
    editItem (fun _ => None) (mkSupply "u-2" 8) "i-1" Sample.discount_30
      (fst (editItem (fun _ => None) Sample.sup "i-1" Sample.discount_30
              Sample.menu))
    = (db2,
       reply 200
         (ItemJson
            (Item.mk "i-1" "Green Tea" "t.png" "A pot of tea" (Some false)
               None 100 (Some 30%float) 80 None (Some "c-1") 3 8))).
Proof.
  apply (editItem_repeated (fun _ => None) Sample.sup (mkSupply "u-2" 8)
           "i-1" Sample.discount_30 Sample.menu _
           (Sample.tea_with "Green Tea" 100 (Some 30%float) 80));
    reflexivity.
Defined.

(* ================================================================== *)
(** ** Updates that write nothing *)

(** [PUT /category/:id] and [PUT /subcategory/:id] answered 200 for a
    body in which no value is truthy (such as [{ taxApplicable: false }])
    write nothing: the database is as it was, and the answer is the
    stored row, [updatedAt] included. *)
Theorem edit_without_truthy_value_writes_nothing (sup : supply)
    (id : string) (db db' : database) :
  (forall body c,
      category_written body = false ->
      editCategory sup id body db = (db', reply 200 (CategoryJson c)) ->
      db' = db /\
      Prisma.find_by_id Category.id id (categories db) = Some c) /\
  (forall body s,
      subCategory_written body = false ->
      editSubCategory sup id body db
      = (db', reply 200 (SubCategoryJson s)) ->
      db' = db /\
      Prisma.find_by_id SubCategory.id id (subCategories db) = Some s).
Proof.
  split.
  - intros body c Hnone H.
    destruct (editCategory_cases sup id body db)
      as [[_ Hr] | (c' & db'' & E & E')]; [rewrite H in Hr; inversion Hr|].
    rewrite H in E'. injection E' as <- <-.
    apply category_update_some in E.
    rewrite category_data_empty, Hnone in E.
    destruct E as (old & Hold & _ & _ & _ & _ & _ & _ & _ & _ & Hs & Hi
                   & [(_ & -> & Hrows) | (Hf & _)]); [|discriminate Hf].
    split; [now apply database_ext | exact Hold].
  - intros body s Hnone H.
    destruct (editSubCategory_cases sup id body db)
      as [[_ Hr] | (s' & db'' & E & E')]; [rewrite H in Hr; inversion Hr|].
    rewrite H in E'. injection E' as <- <-.
    apply subCategory_update_some in E; [|reflexivity].
    rewrite subCategory_data_empty, Hnone in E.
    destruct E as (old & Hold & _ & _ & _ & _ & _ & _ & _ & _ & Hc & Hi
                   & [(_ & -> & Hrows) | (Hf & _)]); [|discriminate Hf].
    split; [now apply database_ext | exact Hold].
Qed.

Lemma edit_without_truthy_value_writes_nothing_witness :
  editCategory Sample.sup "c-1" Sample.tax_off Sample.menu
  = (Sample.menu, reply 200 (CategoryJson Sample.beverages)) /\
  Prisma.find_by_id Category.id "c-1" (categories Sample.menu)
  = Some Sample.beverages.
Proof.
  destruct (proj1 (edit_without_truthy_value_writes_nothing Sample.sup "c-1"
                     Sample.menu Sample.menu)
              Sample.tax_off Sample.beverages eq_refl eq_refl) as [_ H].
  split; [reflexivity | exact H].
Defined.

(* ================================================================== *)
(** ** Pattern characters in a search *)

Lemma filter_all {A : Type} (p : A -> bool) (l : list A) :
  (forall x, p x = true) -> List.filter p l = l.
Proof.
  intros H. induction l as [|a l IH]; simpl; [reflexivity|].
  now rewrite H, IH.
Qed.

Lemma contains_insensitive_percent (n : string) :
  Text.contains_insensitive "%" n = true.
Proof.
  unfold Text.contains_insensitive, Text.ilike.
  change (Text.lower ("%" ++ "%" ++ "%")) with "%%%"%string.
  apply like_any_spec. exists ""%string, (Text.lower n).
  split; [reflexivity|].
  apply like_any_spec. exists ""%string, (Text.lower n).
  split; [reflexivity | apply like_any_only].
Qed.

(** The name of a search goes to the database as a pattern: a search for
    [%] answers with every item, and a lookup by the name [%] with the
    first row of the table. *)
Theorem search_percent_finds_everything (db : database) (i : Item.t)
    (rest : list Item.t) :
  items db = i :: rest ->
  searchItem (Some "%"%string) db = reply 200 (ItemsJson (items db)) /\
  getItem None (Some "%"%string) db = reply 200 (ItemJson i).
Proof.
  intros Hrows.
  unfold searchItem, getItem, Prisma.item_findMany_name,
    Prisma.item_findFirst_name.
  simpl.
  rewrite (filter_all _ (items db))
    by (intros x; apply contains_insensitive_percent).
  rewrite Hrows. simpl. rewrite contains_insensitive_percent.
  split; reflexivity.
Qed.

Lemma search_percent_finds_everything_witness :
  searchItem (Some "%"%string) Sample.menu
  = reply 200 (ItemsJson [Sample.tea]).
Proof.
  apply (search_percent_finds_everything Sample.menu Sample.tea []).
  reflexivity.
Defined.

(* ================================================================== *)
(** ** Operations in the body of an update *)

(** [PUT /item/:id] with [baseAmount: { increment: n }] and no truthy
    [discount], answered 200: the object passes the guards as a truthy
    value and reaches [update] as an operation, so the stored base
    amount grows by [n]; the handler's own difference is not a number,
    and the stored total stays as it was. *)
Theorem editItem_increment_keeps_total (filter : Prisma.string_filter)
    (sup : supply) (id : string) (body : ItemBody.t) (db db' : database)
    (i : Item.t) (n : float) :
  ItemBody.baseAmount body = Js.Object [("increment"%string, Js.Number n)] ->
  Js.truthy (ItemBody.discount body) = false ->
  editItem filter sup id body db = (db', reply 200 (ItemJson i)) ->
  exists old,
    Prisma.find_by_id Item.id id (items db) = Some old /\
    Item.baseAmount i = (Item.baseAmount old + n)%float /\
    Item.totalAmount i = Item.totalAmount old /\
    Prisma.find_by_id Item.id id (items db') = Some i.
Proof.
  intros Hb Hd H.
  pose proof (editItem_total_amount _ _ _ _ _ _ _ H) as (old & Hold & Ht).
  destruct (editItem_cases filter sup id body db)
    as [[_ Hr] | (old' & d & i' & db'' & Hold' & Hdiff & Hi & E)];
    [rewrite H in Hr; inversion Hr|].
  rewrite H in E. injection E as <- <-.
  rewrite Hold in Hold'. injection Hold' as <-.
  apply item_update_some in Hi; [|exact (total_defined _ _ _ _ Hdiff)].
  simpl in Hi.
  destruct Hi as (old' & Hold' & _ & _ & _ & _ & _ & Hbase & _ & _ & _
                  & Hid & _ & _ & ->).
  rewrite Hold in Hold'. injection Hold' as <-.
  exists old. split; [exact Hold|].
  split; [|split; [|simpl; now apply find_rewrite_by_id]].
  - rewrite Hb in Hbase. unfold Js.spread_if in Hbase. simpl in Hbase.
    destruct (is_finite n); [|discriminate Hbase]. simpl in Hbase.
    unfold Prisma.no_overflow in Hbase.
    destruct (is_finite (Item.baseAmount old + n)); [|discriminate Hbase].
    now injection Hbase as <-.
  - rewrite Hb in Ht. unfold Js.oror in Ht. rewrite Hd in Ht.
    exact Ht.
Qed.

Lemma editItem_increment_keeps_total_witness :
  exists i db',
    editItem (fun _ => None) Sample.sup "i-1"
      (ItemBody.mk Js.Undefined Js.Undefined Js.Undefined Js.Undefined
         Js.Undefined (Js.Object [("increment"%string, Js.Number 5)])
         Js.Undefined Js.Undefined Js.Undefined)
      Sample.menu
    = (db', reply 200 (ItemJson i)) /\
    Item.baseAmount i = 105%float /\
    Item.totalAmount i = 80%float.
Proof.
  edestruct (editItem_increment_keeps_total (fun _ => None) Sample.sup "i-1"
               (ItemBody.mk Js.Undefined Js.Undefined Js.Undefined
                  Js.Undefined Js.Undefined
                  (Js.Object [("increment"%string, Js.Number 5)])
                  Js.Undefined Js.Undefined Js.Undefined)
               Sample.menu)
    as (old & Hold & Hbase & Htotal & _);
    [reflexivity | reflexivity | reflexivity |].
  vm_compute in Hold. injection Hold as <-.
  eexists. eexists. split; [reflexivity|].
  split; [exact Hbase | exact Htotal].
Defined.
